(** * Operator scripts for the v4 REST API: category bulk update and VM provisioning

    A shallow embedding of
    - [update_categories_for_vm.py]      (module [UpdateCategories]),
    - [experimental/deploy_windows_vm.py] and [scratch/deploy_windows_vm.py]
      (module [DeployVm]),
    together with the properties of the configuration loader, the update
    orchestrator, the result sink and the provisioning workflow.

    Conventions.  Python [str] values are Rocq [string]s.  The model is exact
    on ASCII text: [str.strip], [str.upper] and [str.lower] act on the ASCII
    range as Python does, and leave every other byte alone.  The
    interpreter is CPython 3.11 or later with its default settings, so
    [int()] refuses strings of more than 4300 digits.  A cell of the
    DataFrame is NaN where the sheet has an empty cell, and otherwise known
    by its [str()] text.  Everything the scripts obtain from outside (HTTP
    responses, the clock, [uuid4], the workbook file, standard input, what
    [argparse] makes of the command line) is an explicit input or is
    threaded through an explicit state. *)

From Stdlib Require Import Ascii DecimalString.
From stdpp Require Import base option list strings gmap.

(** ** Python string primitives *)

Module PyStr.

Definition code (c : ascii) : nat := nat_of_ascii c.

(** [str.isspace] on one ASCII character: TAB, LF, VT, FF, CR, the four
    separators FS GS RS US, and SPACE. *)
Definition isspace (c : ascii) : bool :=
  ((9 <=? code c) && (code c <=? 13)) || ((28 <=? code c) && (code c <=? 32)).

Fixpoint lstrip (s : string) : string :=
  match s with
  | EmptyString => EmptyString
  | String c s' => if isspace c then lstrip s' else s
  end.

Fixpoint rstrip (s : string) : string :=
  match s with
  | EmptyString => EmptyString
  | String c s' =>
      match rstrip s' with
      | EmptyString => if isspace c then EmptyString else String c EmptyString
      | r => String c r
      end
  end.

(** [s.strip()] *)
Definition strip (s : string) : string := rstrip (lstrip s).

(** Truthiness of a [str]: non-empty. *)
Definition truthy (s : string) : bool :=
  match s with EmptyString => false | _ => true end.

(** [c in s] for a one-character [c]. *)
Fixpoint contains_char (c : ascii) (s : string) : bool :=
  match s with
  | EmptyString => false
  | String d s' => if Ascii.eqb d c then true else contains_char c s'
  end.

(** [s.split(sep)] for a one-character separator: never returns []. *)
Fixpoint split (sep : ascii) (s : string) : list string :=
  match s with
  | EmptyString => [EmptyString]
  | String c s' =>
      if Ascii.eqb c sep then EmptyString :: split sep s'
      else match split sep s' with
           | [] => [String c EmptyString]
           | h :: t => String c h :: t
           end
  end.

(** [s.split(sep, 1)]: cut at the first separator only. *)
Fixpoint split1 (sep : ascii) (s : string) : list string :=
  match s with
  | EmptyString => [EmptyString]
  | String c s' =>
      if Ascii.eqb c sep then [EmptyString; s']
      else match split1 sep s' with
           | h :: t => String c h :: t
           | [] => [String c EmptyString]
           end
  end.

Definition upper_char (c : ascii) : ascii :=
  if (97 <=? code c) && (code c <=? 122) then ascii_of_nat (code c - 32) else c.

Definition lower_char (c : ascii) : ascii :=
  if (65 <=? code c) && (code c <=? 90) then ascii_of_nat (code c + 32) else c.

Fixpoint map_chars (f : ascii -> ascii) (s : string) : string :=
  match s with
  | EmptyString => EmptyString
  | String c s' => String (f c) (map_chars f s')
  end.

Definition upper : string -> string := map_chars upper_char.
Definition lower : string -> string := map_chars lower_char.

(** [s.startswith(p)] *)
Definition startswith (p s : string) : bool := String.prefix p s.

(** [needle in hay] *)
Fixpoint contains (needle hay : string) : bool :=
  if String.prefix needle hay then true
  else match hay with
       | EmptyString => false
       | String _ hay' => contains needle hay'
       end.

(** [str(n)] for a non-negative [int]. *)
Definition str_of_N (n : N) : string := NilEmpty.string_of_uint (N.to_uint n).

(** [all([...])] over strings: every one is non-empty. *)
Definition all_truthy (l : list string) : bool := forallb truthy l.

End PyStr.

(** ** Effects: state passing, a console/request log, [sys.exit], exceptions *)

Module Eff.

Inductive outcome (A : Type) : Type :=
| Ret (a : A)                (* the computation returned [a] *)
| Exit (code : Z)            (* [sys.exit(code)] *)
| Uncaught (exn : string).   (* an exception nobody catches *)
Arguments Ret {A} a.
Arguments Exit {A} code.
Arguments Uncaught {A} exn.

(** A computation steps the state [S] and appends events [E] to the log;
    it cannot read the log back. *)
Definition M (S E A : Type) : Type := S -> outcome A * S * list E.

Definition ret {S E A} (a : A) : M S E A := fun s => (Ret a, s, []).

Definition bind {S E A B} (m : M S E A) (k : A -> M S E B) : M S E B :=
  fun s =>
    match m s with
    | (Ret a, s', l) => let '(o, s'', l') := k a s' in (o, s'', l ++ l')
    | (Exit c, s', l) => (Exit c, s', l)
    | (Uncaught e, s', l) => (Uncaught e, s', l)
    end.

Definition emit {S E} (e : E) : M S E unit := fun s => (Ret tt, s, [e]).
Definition sys_exit {S E A} (code : Z) : M S E A := fun s => (Exit code, s, []).
Definition raise {S E A} (exn : string) : M S E A := fun s => (Uncaught exn, s, []).

(** [try: m  except: handler] with a bare [except], which also catches
    [SystemExit]. *)
Definition try_except_all {S E A} (m : M S E A) (handler : M S E A) : M S E A :=
  fun s =>
    match m s with
    | (Ret a, s', l) => (Ret a, s', l)
    | (_, s', l) => let '(o, s'', l') := handler s' in (o, s'', l ++ l')
    end.

(** [try: m  except Exception: handler]: [SystemExit] passes through. *)
Definition try_except_Exception {S E A} (m : M S E A) (handler : M S E A)
  : M S E A :=
  fun s =>
    match m s with
    | (Uncaught _, s', l) => let '(o, s'', l') := handler s' in (o, s'', l ++ l')
    | r => r
    end.

Definition result {S E A} (r : outcome A * S * list E) : outcome A := r.1.1.
Definition final {S E A} (r : outcome A * S * list E) : S := r.1.2.
Definition log {S E A} (r : outcome A * S * list E) : list E := r.2.

Module Notations.
Notation "x <- m ;; k" := (bind m (fun x => k))
  (at level 100, m at next level, right associativity).
Notation "m ;;; k" := (bind m (fun _ => k))
  (at level 100, right associativity).
End Notations.

End Eff.

(** ** The bulk-update script, [update_categories_for_vm.py] *)

Module UpdateCategories.
Import PyStr Eff Eff.Notations.

(** *** Data *)

Abbreviation headers := (gmap string string).

Record category_ref := { extId : string }.
(** [{"categories": [{"extId": ...}, ...]}] *)
Record payload := { categories : list category_ref }.

(** What [requests.get] did: it raised a [RequestException] (which, with
    requests 2.27 or later, includes a body that [response.json()] cannot
    decode), or it returned a response of which the script reads only
    [response.headers.get('ETag')]. *)
Inductive get_outcome :=
| GetRaised
| GetReturned (etag_header : option string).

(** What [requests.post] did. *)
Record response := { status_code : N; resp_etag : option string }.
Inductive post_outcome :=
| PostRaised
| PostReturned (r : response).

(** [bool(response)] is [response.ok] in requests: false exactly for the
    statuses on which [raise_for_status] raises, 400 to 599. *)
Definition response_truthy (r : response) : bool :=
  negb ((400 <=? status_code r)%N && (status_code r <? 600)%N).

(** A cell of the DataFrame that [pd.read_excel] returns: [NaN] for a cell
    the sheet leaves empty, otherwise the cell's value, kept by its [str()]
    text (for a text cell, the text itself). *)
Inductive scalar :=
| NaN
| Value (text : string).

(** [str(v)] *)
Definition py_str (v : scalar) : string :=
  match v with
  | NaN => "nan"
  | Value text => text
  end.

(** One row of the DataFrame, as [df.iterrows()] yields it: the four
    columns the loop reads, [None] where the sheet has no such column. *)
Record row := {
  col_match : option scalar;      (* 'VM Name/extId & Category exId(s) Match' *)
  col_vm_name : option scalar;    (* 'VM Name' *)
  col_vm_extid : option scalar;   (* 'VM extId' *)
  col_categories : option scalar  (* 'Category UUID(s)' *)
}.

(** [str(row.get(column, ''))] *)
Definition str_get (column : option scalar) : string :=
  match column with
  | Some v => py_str v
  | None => ""
  end.

(** The four texts the loop body starts from. *)
Definition match_cell (r : row) : string := str_get (col_match r).
Definition vm_name_cell (r : row) : string := str_get (col_vm_name r).
Definition vm_extid_cell (r : row) : string := str_get (col_vm_extid r).
Definition category_cell (r : row) : string := str_get (col_categories r).

(** The workbook sheet 'ToUpdate' as openpyxl shows it. *)
Record cell := {
  value : option string;
  font : option (string * bool);   (* Font(color, bold) *)
  fill : option string             (* solid PatternFill colour *)
}.
Definition blank_cell : cell := {| value := None; font := None; fill := None |}.

Record worksheet := {
  max_column : nat;
  cells : gmap (nat * nat) cell    (* keyed by (row, column), 1-based *)
}.

(** The console messages of [main] and its helpers that carry an outcome;
    banners and request echoes are left out. *)
Inductive message :=
| MVarsNotFound
| MMissingVars
| MExcelNotFound
| MExcelReadError
| MSkipMissingData (row_number : nat)
| MNoValidUuids (vm_name : string)
| MGetError
| MFailedEtag (vm_name : string)
| MPostError
| MAccepted (etag_updated : string)
| MFailed (status_code_text : string)
| MExcelUpdated (status timestamp : string)
| MExcelError
| MSkipNotOK (row_number : nat) (match_status : string)
| MCompleted.

Inductive event :=
| EGet (url : string) (hdrs : headers)
| EPost (url : string) (hdrs : headers) (body : payload)
| EExcel (row_index : nat) (status timestamp : string)
| EPrint (msg : message).

(** The outside world. *)
Class Env (World : Type) := {
  b64encode : string -> string;
  requests_get : string -> headers -> World -> get_outcome * World;
  requests_post : string -> headers -> payload -> World -> post_outcome * World;
  uuid4 : World -> string * World;
  (* datetime.now().strftime("%d%m%Y-%H%M") *)
  now_stamp : World -> string * World;
  (* whether load_workbook, the sheet lookup and workbook.save all succeed *)
  workbook_io : World -> bool * World
}.

Record state (World : Type) := {
  world : World;
  xlsx : worksheet     (* the sheet as stored in the workbook file *)
}.
Arguments world {World} s.
Arguments xlsx {World} s.

(** How the file 'scratch/VMsToUpdate-PROD.xlsx' presents itself at start. *)
Inductive excel_input :=
| ExcelAbsent
| ExcelUnreadable
| ExcelRows (df : list row).

(** *** Pure helpers *)

(** The body of the [for line in f] loop of [read_vars_file]. *)
Definition read_vars_line (vars_dict : gmap string string) (line : string)
  : gmap string string :=
  let line := strip line in
  if contains_char "=" line then
    match split1 "=" line with
    | [key; value] => <[key := value]> vars_dict
    | _ => vars_dict
    end
  else vars_dict.

Definition parse_vars (lines : list string) : gmap string string :=
  fold_left read_vars_line lines ∅.

Definition is_ascii (s : string) : bool :=
  forallb (fun c => code c <? 128) (String.list_ascii_of_string s).

(** [[uuid.strip() for uuid in s.split(',') if uuid.strip()]] *)
Definition parse_category_uuids (category_uuids_str : string) : list string :=
  map strip (List.filter (fun u => truthy (strip u)) (split "," category_uuids_str)).

Definition build_categories_payload (category_uuids : list string) : payload :=
  {| categories :=
       fold_left (fun categories uuid_str =>
                    let uuid_str := strip uuid_str in
                    if truthy uuid_str then categories ++ [{| extId := uuid_str |}]
                    else categories)
                 category_uuids [] |}.

(** The header scan of [update_excel_status]: the last matching column
    wins, and a header matching both names counts as the status column. *)
Definition find_columns (ws : worksheet) : option nat * option nat :=
  fold_left
    (fun '(status_col, timestamp_col) col =>
       let header := default blank_cell (cells ws !! (1, col)) in
       match value header with
       | Some h =>
           if truthy h && contains "STATUS OF UPDATE" (upper h)
           then (Some col, timestamp_col)
           else if truthy h && contains "TIMESTAMP" (upper h)
           then (status_col, Some col)
           else (status_col, timestamp_col)
       | None => (status_col, timestamp_col)
       end)
    (seq 1 (max_column ws)) (None, None).

Definition set_cell (ws : worksheet) (r c : nat) (f : cell -> cell) : worksheet :=
  {| max_column := max_column ws;
     cells := <[(r, c) := f (default blank_cell (cells ws !! (r, c)))]> (cells ws) |}.

(** The writes of [update_excel_status] on a loaded sheet. *)
Definition write_status (ws : worksheet) (row_index : nat)
    (status timestamp : string) : worksheet :=
  let '(status_col, timestamp_col) := find_columns ws in
  let ws1 :=
    match status_col with
    | Some col =>
        set_cell ws (row_index + 2) col
          (fun _ => {| value := Some status;
                       font := Some ("FFFFFF", true);
                       fill := Some "00FF00" |})
    | None => ws
    end in
  match timestamp_col with
  | Some col =>
      set_cell ws1 (row_index + 2) col
        (fun c => {| value := Some timestamp; font := font c; fill := fill c |})
  | None => ws1
  end.

(** *** Effectful code *)

Section WithEnv.
Context {World : Type} `{Env World}.

Abbreviation Run := (M (state World) event).

Definition print (m : message) : Run unit := emit (EPrint m).

Definition ask {A} (f : World -> A * World) : Run A :=
  fun s => let '(a, w) := f (world s) in
           (Ret a, {| world := w; xlsx := xlsx s |}, []).

Definition read_vars_file (vars_file : option (list string))
  : Run (gmap string string) :=
  match vars_file with
  | None => print MVarsNotFound ;;; sys_exit 1
  | Some lines => ret (parse_vars lines)
  end.

(** [credentials.encode('ascii')] raises on a non-ASCII character. *)
Definition create_auth_header (username password : string) : Run headers :=
  let credentials := username +:+ ":" +:+ password in
  if is_ascii credentials
  then ret ({[ "Authorization" := "Basic " +:+ b64encode credentials ]} : headers)
  else raise "UnicodeEncodeError".

(** Returns [vm_etag], the first component of the Python result. *)
Definition make_get_request (base_url uri_get : string) (hdrs : headers)
  : Run (option string) :=
  let full_url := base_url +:+ "/" +:+ uri_get in
  emit (EGet full_url hdrs) ;;;
  r <- ask (requests_get full_url hdrs) ;;
  match r with
  | GetReturned h => ret (Some (default "" h))
  | GetRaised => print MGetError ;;; ret None
  end.

Definition make_post_request (base_url uri_post : string) (hdrs : headers)
    (body : payload) : Run (option response) :=
  let full_url := base_url +:+ "/" +:+ uri_post in
  emit (EPost full_url hdrs body) ;;;
  r <- ask (requests_post full_url hdrs body) ;;
  match r with
  | PostReturned resp => ret (Some resp)
  | PostRaised => print MPostError ;;; ret None
  end.

Definition update_excel_status (row_index : nat) (status timestamp : string)
  : Run unit :=
  emit (EExcel row_index status timestamp) ;;;
  ok <- ask workbook_io ;;
  if ok : bool then
    (fun s => (Ret tt, {| world := world s;
                          xlsx := write_status (xlsx s) row_index status timestamp |},
               [])) ;;;
    print (MExcelUpdated status timestamp)
  else print MExcelError.

(** The body of the [for index, row in df.iterrows()] loop. *)
Definition process_row (base_url : string) (auth_headers : headers)
    (index : nat) (r : row) : Run unit :=
  let match_status := strip (match_cell r) in
  if String.eqb (upper match_status) "OK" then
    let vm_name := strip (vm_name_cell r) in
    let vm_extid := strip (vm_extid_cell r) in
    let category_uuids_str := strip (category_cell r) in
    if negb (all_truthy [vm_name; vm_extid; category_uuids_str]) then
      print (MSkipMissingData (index + 1))
    else
      let category_uuids := parse_category_uuids category_uuids_str in
      match category_uuids with
      | [] => print (MNoValidUuids vm_name)
      | _ =>
        let uri_get := "vmm/v4.1/ahv/config/vms/" +:+ vm_extid in
        let uri_post := "vmm/v4.1/ahv/config/vms/" +:+ vm_extid
                        +:+ "/$actions/associate-categories" in
        rest_uuid <- ask uuid4 ;;
        vm_etag <- make_get_request base_url uri_get auth_headers ;;
        if negb (truthy (default "" vm_etag)) then
          print (MFailedEtag vm_name)
        else
          let body := build_categories_payload category_uuids in
          let post_headers : headers :=
            <["Content-Type" := "application/json"]>
              (<["NTNX-Request-Id" := rest_uuid]>
                 (<["If-Match" := default "" vm_etag]> auth_headers)) in
          post_response <- make_post_request base_url uri_post post_headers body ;;
          match post_response with
          | Some resp =>
              if response_truthy resp && (status_code resp =? 202)%N then
                print (MAccepted (default "" (resp_etag resp))) ;;;
                timestamp <- ask now_stamp ;;
                update_excel_status index "ACCEPTED" timestamp
              else
                let status_code_text :=
                  if response_truthy resp then str_of_N (status_code resp)
                  else "N/A" in
                print (MFailed status_code_text) ;;;
                timestamp <- ask now_stamp ;;
                update_excel_status index ("FAILED (" +:+ status_code_text +:+ ")")
                                    timestamp
          | None =>
              print (MFailed "N/A") ;;;
              timestamp <- ask now_stamp ;;
              update_excel_status index "FAILED (N/A)" timestamp
          end
      end
  else
    print (MSkipNotOK (index + 1) match_status).

(** The loop over [df.iterrows()], rows numbered from [index]. *)
Fixpoint process_rows (base_url : string) (auth_headers : headers)
    (index : nat) (df : list row) : Run unit :=
  match df with
  | [] => ret tt
  | r :: rest =>
      process_row base_url auth_headers index r ;;;
      process_rows base_url auth_headers (S index) rest
  end.

Definition main (vars_file : option (list string)) (excel : excel_input)
  : Run unit :=
  vars_dict <- read_vars_file vars_file ;;
  let base_url := default "" (vars_dict !! "baseUrl") in
  let username := default "" (vars_dict !! "username") in
  let password := default "" (vars_dict !! "password") in
  if negb (all_truthy [base_url; username; password]) then
    print MMissingVars ;;; sys_exit 1
  else
    auth_headers <- create_auth_header username password ;;
    match excel with
    | ExcelAbsent => print MExcelNotFound ;;; sys_exit 1
    | ExcelUnreadable => print MExcelReadError ;;; sys_exit 1
    | ExcelRows df =>
        process_rows base_url auth_headers 0 df ;;;
        print MCompleted
    end.

(** A whole run of the script from a fresh console. *)
Definition run (vars_file : option (list string)) (excel : excel_input)
    (w : World) (ws : worksheet) : outcome unit * state World * list event :=
  main vars_file excel {| world := w; xlsx := ws |}.

End WithEnv.

End UpdateCategories.

(** ** The provisioning scripts, [deploy_windows_vm.py] *)

Module DeployVm.
Import PyStr Eff Eff.Notations.

(** *** Data *)

Abbreviation headers := (gmap string string).

(** The module-level constants.  [has_cli] tells the experimental script
    (argparse, safety check, dry run, selection by name) from the scratch
    one, whose [main] has none of them. *)
Record settings := {
  has_cli : bool;
  ALLOW_EXECUTION_WITHOUT_DOIT : bool;
  VM_DESCRIPTION : string;
  NUM_VCPUS : N;
  NUM_CORES_PER_VCPU : N;
  MEMORY_SIZE_MIB : N;
  BOOT_DISK_SIZE_GIB : N;
  BOOT_DISK_BUS : string;
  MACHINE_TYPE : string;
  BIOS_TYPE : string;
  SECURE_BOOT : bool;
  TPM_ENABLED : bool;
  BOOT_ORDER : list string
}.

Definition experimental : settings := {|
  has_cli := true;
  ALLOW_EXECUTION_WITHOUT_DOIT := false;
  VM_DESCRIPTION := "Windows VM deployed via Python script using Nutanix v4 API";
  NUM_VCPUS := 4; NUM_CORES_PER_VCPU := 1; MEMORY_SIZE_MIB := 8192;
  BOOT_DISK_SIZE_GIB := 80; BOOT_DISK_BUS := "SCSI";
  MACHINE_TYPE := "PC"; BIOS_TYPE := "LEGACY";
  SECURE_BOOT := false; TPM_ENABLED := false;
  BOOT_ORDER := ["DISK"; "CDROM"; "NETWORK"]
|}.

Definition scratch : settings := {|
  has_cli := false;
  ALLOW_EXECUTION_WITHOUT_DOIT := true;
  VM_DESCRIPTION := "Windows VM deployed via Python script using Nutanix v4 API";
  NUM_VCPUS := 4; NUM_CORES_PER_VCPU := 1; MEMORY_SIZE_MIB := 8192;
  BOOT_DISK_SIZE_GIB := 80; BOOT_DISK_BUS := "SCSI";
  MACHINE_TYPE := "PC"; BIOS_TYPE := "UEFI";
  SECURE_BOOT := true; TPM_ENABLED := true;
  BOOT_ORDER := ["DISK"; "CDROM"; "NETWORK"]
|}.

(** The namespace [parse_args] returns.  The scratch script takes no
    arguments: it runs as [no_args]. *)
Record args := {
  do_it : bool;
  dry_run : bool;
  image_name : option string;
  subnet : option string
}.
Definition no_args : args :=
  {| do_it := false; dry_run := false; image_name := None; subnet := None |}.

(** What [argparse] makes of the command line the script was started with:
    [-h] or [--help] is asked for, the command line is rejected (an unknown
    option, a missing value, a stray positional), or it parses to a
    namespace. *)
Inductive command_line :=
| HelpRequested
| UsageError
| Parsed (cli : args).

(** Inventory entries as the API lists them; every key may be missing. *)
Record image_entry := {
  img_name : option string;
  img_type : option string;
  img_sizeInBytes : option N;
  img_extId : option string
}.
Record network_entry := {
  net_name : option string;
  net_subnetType : option string;
  net_vlanId : option N;
  net_extId : option string
}.

(** The dict the listing and lookup helpers build for one entry
    ([size_gb] and [vlan_id] are only printed; they stay in [data]). *)
Record item (E : Type) := {
  name : string;
  type_ : string;
  ext_id : string;
  data : E
}.
Arguments name {E} i.
Arguments type_ {E} i.
Arguments ext_id {E} i.
Arguments data {E} i.

Definition image_item (image : image_entry) : item image_entry :=
  {| name := default "Unknown" (img_name image);
     type_ := default "Unknown" (img_type image);
     ext_id := default "Unknown" (img_extId image);
     data := image |}.

Definition network_item (network : network_entry) : item network_entry :=
  {| name := default "Unknown" (net_name network);
     type_ := default "Unknown" (net_subnetType network);
     ext_id := default "Unknown" (net_extId network);
     data := network |}.

Record boot_device := { bootDeviceType : string; bootDeviceOrder : nat }.
Record disk := {
  diskAddress_busType : string;
  diskAddress_index : nat;
  diskSizeBytes : N;
  storageContainer_extId : string;
  dataSourceReference_extId : string
}.
Record nic := { networkInfo_subnet_extId : string; nicType : string }.
Record vm_payload := {
  p_name : string;
  p_description : string;
  numSockets : N;
  numCoresPerSocket : N;
  memorySizeBytes : N;
  machineType : string;
  biosType : string;
  isSecureBootEnabled : bool;
  isTpmEnabled : bool;
  bootConfig_bootDevices : list boot_device;
  disks : list disk;
  nics : list nic;
  guestOs_osType : string;
  apcConfig_isEnabled : bool
}.

(** What one HTTP exchange inside [make_api_request] did: a
    [RequestException] (transport failure, or [raise_for_status] on a 4xx
    or 5xx status), or the decoded body. *)
Inductive api_outcome (A : Type) :=
| ApiFailed
| ApiData (d : A).
Arguments ApiFailed {A}.
Arguments ApiData {A} d.

(** The body of the VM-creation response: [{}] for an empty body,
    otherwise a dict with or without a 'data' key. *)
Record vm_data := { vm_extId : option string; vm_state : option string }.
Inductive create_result :=
| EmptyResult
| Result (d : option vm_data).

Inductive http_method := GET | POST.

Inductive message :=
| MSafetyCheck
| MDryRunBanner
| MVarsNotFound
| MMissingConfig (key : string)
| MApiFailed
| MConnectionOk
| MConnectionFailed
| MNoImages
| MNoNetworks
| MFoundExact (n : string)
| MFoundCaseInsensitive (n : string)
| MNotFound (n : string)
| MCannotProceedNotFound (n : string)
| MCannotProceedEmpty
| MNoItems
| MExiting
| MSelected (n eid : string)
| MInvalidIndex
| MInvalidInput
| MSummary (vm_name image network : string)
| MDryRunPayload (p : vm_payload)
| MDryRunDone
| MCancelled
| MDeployFailed
| MDeployOk (d : option vm_data)
| MSaved (file : string)
| MSaveWarning.

Inductive event :=
| ERequest (method : http_method) (url : string) (hdrs : headers)
           (body : option vm_payload)
| EInput
| EPrint (msg : message).

Class Env (World : Type) := {
  b64encode : string -> string;
  get_vms : string -> headers -> World -> api_outcome unit * World;
  get_images :
    string -> headers -> World -> api_outcome (option (list image_entry)) * World;
  get_subnets :
    string -> headers -> World -> api_outcome (option (list network_entry)) * World;
  post_vm : string -> headers -> vm_payload -> World -> api_outcome create_result * World;
  (* datetime.now().isoformat() *)
  now_isoformat : World -> string * World;
  (* datetime.now().strftime('%Y%m%d_%H%M%S') *)
  now_stamp : World -> string * World;
  (* whether the deployment record file could be written *)
  save_json : string -> World -> bool * World
}.

Record state (World : Type) := {
  world : World;
  stdin : list string      (* the lines still to be read by input() *)
}.
Arguments world {World} s.
Arguments stdin {World} s.

(** *** Pure helpers *)

Definition read_vars_line (config : gmap string string) (line : string)
  : gmap string string :=
  let line := strip line in
  if truthy line && negb (startswith "#" line) && contains_char "=" line then
    match split1 "=" line with
    | [key; value] => <[strip key := strip value]> config
    | _ => config
    end
  else config.

Definition parse_vars (lines : list string) : gmap string string :=
  fold_left read_vars_line lines ∅.

Definition required_keys : list string := ["baseUrl"; "username"; "password"].

(** The first required key that is not in [config], if any. *)
Definition first_missing (config : gmap string string) : option string :=
  List.find (fun key => negb (bool_decide (is_Some (config !! key)))) required_keys.

Definition create_auth_header (b64 : string -> string)
    (username password : string) : headers :=
  {[ "Authorization" := "Basic " +:+ b64 (username +:+ ":" +:+ password) ]}.

(** [int(s)] on ASCII text, base 10: optional sign, digits, single
    underscores between digits; and no more than [int_max_str_digits]
    digits. *)
Definition digit (c : ascii) : option Z :=
  if (48 <=? code c) && (code c <=? 57) then Some (Z.of_nat (code c - 48)) else None.

Fixpoint int_digits (s : string) (acc : Z) (after_digit : bool) : option Z :=
  match s with
  | EmptyString => if after_digit then Some acc else None
  | String c s' =>
      match digit c with
      | Some d => int_digits s' (acc * 10 + d)%Z true
      | None =>
          if Ascii.eqb c "_" && after_digit then int_digits s' acc false else None
      end
  end.

(** [sys.int_max_str_digits] as CPython 3.11 and later set it by default:
    [int()] raises ValueError on a decimal string with more digits.  Leading
    zeros count; the sign, the underscores and the surrounding white space do
    not. *)
Definition int_max_str_digits : nat := 4300.

Definition count_digits (s : string) : nat :=
  length (List.filter (fun c => bool_decide (is_Some (digit c)))
                      (String.list_ascii_of_string s)).

(** [None] stands for ValueError. *)
Definition py_int (s : string) : option Z :=
  if int_max_str_digits <? count_digits s then None
  else
    match strip s with
    | String "+" s' => int_digits s' 0 false
    | String "-" s' => Z.opp <$> int_digits s' 0 false
    | s' => int_digits s' 0 false
    end.

(** The two search loops of [find_image_by_name] and
    [find_network_by_name], over the entries' names. *)
Definition find_by_name {E} (get_name : E -> option string)
    (entries : list E) (wanted : string) : option (bool * E) :=
  match List.find (fun e => String.eqb (default "" (get_name e)) wanted) entries with
  | Some e => Some (true, e)
  | None =>
      match List.find (fun e => String.eqb (lower (default "" (get_name e)))
                                           (lower wanted)) entries with
      | Some e => Some (false, e)
      | None => None
      end
  end.

Definition create_vm_payload (cfg : settings) (vm_name : string)
    (image : item image_entry) (network : item network_entry) : vm_payload :=
  let boot_devices :=
    fold_left
      (fun boot_devices boot_type =>
         if String.eqb boot_type "DISK" then
           boot_devices ++ [{| bootDeviceType := "DISK";
                               bootDeviceOrder := length boot_devices |}]
         else if String.eqb boot_type "CDROM" then
           boot_devices ++ [{| bootDeviceType := "CDROM";
                               bootDeviceOrder := length boot_devices |}]
         else if String.eqb boot_type "NETWORK" then
           boot_devices ++ [{| bootDeviceType := "NETWORK";
                               bootDeviceOrder := length boot_devices |}]
         else boot_devices)
      (BOOT_ORDER cfg) [] in
  {| p_name := vm_name;
     p_description := VM_DESCRIPTION cfg;
     numSockets := NUM_VCPUS cfg;
     numCoresPerSocket := NUM_CORES_PER_VCPU cfg;
     memorySizeBytes := (MEMORY_SIZE_MIB cfg * 1024 * 1024)%N;
     machineType := MACHINE_TYPE cfg;
     biosType := BIOS_TYPE cfg;
     isSecureBootEnabled := SECURE_BOOT cfg;
     isTpmEnabled := TPM_ENABLED cfg;
     bootConfig_bootDevices := boot_devices;
     disks := [ {| diskAddress_busType := BOOT_DISK_BUS cfg;
                   diskAddress_index := 0;
                   diskSizeBytes := (BOOT_DISK_SIZE_GIB cfg * 1024 * 1024 * 1024)%N;
                   storageContainer_extId := ext_id image;
                   dataSourceReference_extId := ext_id image |} ];
     nics := [ {| networkInfo_subnet_extId := ext_id network;
                  nicType := "NORMAL_NIC" |} ];
     guestOs_osType := "WINDOWS";
     apcConfig_isEnabled := false |}.

(** *** Effectful code *)

(** The [while True] loop of [select_from_list] over the lines standard
    input still holds; running out of lines is [EOFError] from [input()]. *)
Fixpoint select_loop {E} (items : list (item E)) (lines : list string)
  : outcome (item E) * list string * list event :=
  match lines with
  | [] => (Uncaught "EOFError", [], [EInput])
  | line :: rest =>
      let choice := strip line in
      if bool_decide (lower choice ∈ ["q"; "quit"; "exit"]) then
        (Exit 0, rest, [EInput; EPrint MExiting])
      else
        let again (m : message) :=
          let '(o, rest', evs) := select_loop items rest in
          (o, rest', EInput :: EPrint m :: evs) in
        match py_int choice with
        | Some index =>
            if (0 <=? index)%Z && (index <? Z.of_nat (length items))%Z then
              match items !! Z.to_nat index with
              | Some selected =>
                  (Ret selected, rest,
                   [EInput; EPrint (MSelected (name selected) (ext_id selected))])
              | None => (Uncaught "IndexError", rest, [EInput])
              end
            else again MInvalidIndex
        | None => again MInvalidInput
        end
  end.

Section WithEnv.
Context {World : Type} `{Env World}.

Abbreviation Run := (M (state World) event).

Definition print (m : message) : Run unit := emit (EPrint m).

Definition ask {A} (f : World -> A * World) : Run A :=
  fun s => let '(a, w) := f (world s) in
           (Ret a, {| world := w; stdin := stdin s |}, []).

(** [input(prompt)] *)
Definition input : Run string :=
  fun s =>
    match stdin s with
    | [] => (Uncaught "EOFError", s, [EInput])
    | line :: rest => (Ret line, {| world := world s; stdin := rest |}, [EInput])
    end.

(** The loader, the same text in both scripts. *)
Definition read_vars_file (vars_file : option (list string))
  : Run (gmap string string) :=
  match vars_file with
  | None => print MVarsNotFound ;;; sys_exit 1
  | Some lines =>
      let config := parse_vars lines in
      match first_missing config with
      | Some key => print (MMissingConfig key) ;;; sys_exit 1
      | None => ret config
      end
  end.

(** [exchange] is the typed HTTP exchange behind [requests.get] or
    [requests.post] for the endpoint at [url]. *)
Definition make_api_request {A} (method : http_method) (url : string)
    (hdrs : headers) (data : option vm_payload)
    (exchange : World -> api_outcome A * World) : Run A :=
  emit (ERequest method url hdrs data) ;;;
  r <- ask exchange ;;
  match r with
  | ApiData d => ret d
  | ApiFailed => print MApiFailed ;;; sys_exit 1
  end.

Definition find_image_by_name (base_url : string) (hdrs : headers)
    (image_name : string) : Run (option (item image_entry)) :=
  let url := base_url +:+ "/vmm/v4.1/content/images" in
  images_data <- make_api_request GET url hdrs None (get_images url hdrs) ;;
  match images_data with
  | None | Some [] => print MNoImages ;;; ret None
  | Some entries =>
      match find_by_name img_name entries image_name with
      | Some (exact, image) =>
          match img_name image with
          | Some n =>
              print (if exact : bool then MFoundExact n else MFoundCaseInsensitive n) ;;;
              ret (Some (image_item image))
          | None => raise "KeyError"
          end
      | None => print (MNotFound image_name) ;;; ret None
      end
  end.

Definition find_network_by_name (base_url : string) (hdrs : headers)
    (subnet_name : string) : Run (option (item network_entry)) :=
  let url := base_url +:+ "/networking/v4.1/config/subnets" in
  networks_data <- make_api_request GET url hdrs None (get_subnets url hdrs) ;;
  match networks_data with
  | None | Some [] => print MNoNetworks ;;; ret None
  | Some entries =>
      match find_by_name net_name entries subnet_name with
      | Some (exact, network) =>
          match net_name network with
          | Some n =>
              print (if exact : bool then MFoundExact n else MFoundCaseInsensitive n) ;;;
              ret (Some (network_item network))
          | None => raise "KeyError"
          end
      | None => print (MNotFound subnet_name) ;;; ret None
      end
  end.

Definition list_images (base_url : string) (hdrs : headers)
  : Run (list (item image_entry)) :=
  let url := base_url +:+ "/vmm/v4.1/content/images" in
  images_data <- make_api_request GET url hdrs None (get_images url hdrs) ;;
  match images_data with
  | None | Some [] => print MNoImages ;;; ret []
  | Some entries => ret (map image_item entries)
  end.

Definition list_networks (base_url : string) (hdrs : headers)
  : Run (list (item network_entry)) :=
  let url := base_url +:+ "/networking/v4.1/config/subnets" in
  networks_data <- make_api_request GET url hdrs None (get_subnets url hdrs) ;;
  match networks_data with
  | None | Some [] => print MNoNetworks ;;; ret []
  | Some entries => ret (map network_item entries)
  end.

Definition select_from_list {E} (items : list (item E)) : Run (option (item E)) :=
  match items with
  | [] => print MNoItems ;;; ret None
  | _ =>
      fun s =>
        let '(o, rest, evs) := select_loop items (stdin s) in
        let s' := {| world := world s; stdin := rest |} in
        match o with
        | Ret selected => (Ret (Some selected), s', evs)
        | Exit c => (Exit c, s', evs)
        | Uncaught e => (Uncaught e, s', evs)
        end
  end.

Definition deploy_vm (base_url : string) (hdrs : headers) (body : vm_payload)
  : Run (option create_result) :=
  let url := base_url +:+ "/vmm/v4.1/ahv/config/vms" in
  try_except_Exception
    (response <- make_api_request POST url hdrs (Some body) (post_vm url hdrs body) ;;
     ret (Some response))
    (ret None).

(** [parser.parse_args()]: the help text and exit status 0, a usage message
    and exit status 2, or the namespace. *)
Definition parse_args (argv : command_line) : Run args :=
  match argv with
  | HelpRequested => sys_exit 0
  | UsageError => sys_exit 2
  | Parsed cli => ret cli
  end.

(** [main] of either script; [vm_name] is the module constant [VM_NAME],
    fixed from the clock at import.  The scratch script parses no
    arguments and has no safety check. *)
Definition main (cfg : settings) (argv : command_line) (vm_name : string)
    (vars_file : option (list string)) : Run unit :=
  cli <- (if has_cli cfg then parse_args argv else ret no_args) ;;
  (if has_cli cfg && negb (do_it cli) && negb (ALLOW_EXECUTION_WITHOUT_DOIT cfg)
   then print MSafetyCheck ;;; sys_exit 1
   else ret tt) ;;;
  (if dry_run cli then print MDryRunBanner else ret tt) ;;;
  config <- read_vars_file vars_file ;;
  let base_url := default "" (config !! "baseUrl") in
  let hdrs : headers :=
    <["Accept" := "application/json"]>
      (<["Content-Type" := "application/json"]>
         (create_auth_header b64encode (default "" (config !! "username"))
                             (default "" (config !! "password")))) in
  let test_url := base_url +:+ "/vmm/v4.1/ahv/config/vms" in
  try_except_all
    (make_api_request GET test_url hdrs None (get_vms test_url hdrs) ;;;
     print MConnectionOk)
    (print MConnectionFailed ;;; sys_exit 1) ;;;
  selected_image <-
    (if truthy (default "" (image_name cli)) then
       found <- find_image_by_name base_url hdrs (default "" (image_name cli)) ;;
       match found with
       | Some i => ret i
       | None => print (MCannotProceedNotFound (default "" (image_name cli))) ;;;
                 sys_exit 1
       end
     else
       images <- list_images base_url hdrs ;;
       match images with
       | [] => print MCannotProceedEmpty ;;; sys_exit 1
       | _ =>
           chosen <- select_from_list images ;;
           match chosen with
           | Some i => ret i
           | None => sys_exit 1
           end
       end) ;;
  selected_network <-
    (if truthy (default "" (subnet cli)) then
       found <- find_network_by_name base_url hdrs (default "" (subnet cli)) ;;
       match found with
       | Some i => ret i
       | None => print (MCannotProceedNotFound (default "" (subnet cli))) ;;;
                 sys_exit 1
       end
     else
       networks <- list_networks base_url hdrs ;;
       match networks with
       | [] => print MCannotProceedEmpty ;;; sys_exit 1
       | _ =>
           chosen <- select_from_list networks ;;
           match chosen with
           | Some i => ret i
           | None => sys_exit 1
           end
       end) ;;
  print (MSummary vm_name (name selected_image) (name selected_network)) ;;;
  if dry_run cli then
    let body := create_vm_payload cfg vm_name selected_image selected_network in
    print (MDryRunPayload body) ;;;
    print MDryRunDone ;;;
    sys_exit 0
  else
    confirm <- input ;;
    if negb (bool_decide (lower (strip confirm) ∈ ["y"; "yes"])) then
      print MCancelled ;;; sys_exit 0
    else
      let body := create_vm_payload cfg vm_name selected_image selected_network in
      result <- deploy_vm base_url hdrs body ;;
      match result with
      | Some (Result d) =>
          print (MDeployOk d) ;;;
          _ <- ask now_isoformat ;;
          stamp <- ask now_stamp ;;
          let deployment_file :=
            "deployment_" +:+ vm_name +:+ "_" +:+ stamp +:+ ".json" in
          saved <- ask (save_json deployment_file) ;;
          if saved : bool then print (MSaved deployment_file) else print MSaveWarning
      | _ => print MDeployFailed ;;; sys_exit 1
      end.

(** A whole run from a fresh console. *)
Definition run (cfg : settings) (argv : command_line) (vm_name : string)
    (vars_file : option (list string)) (w : World) (typed : list string)
  : outcome unit * state World * list event :=
  main cfg argv vm_name vars_file {| world := w; stdin := typed |}.

End WithEnv.

(** Observations on a log. *)
Definition is_post (e : event) : bool :=
  match e with ERequest POST _ _ _ => true | _ => false end.
Definition is_request (e : event) : bool :=
  match e with ERequest _ _ _ _ => true | _ => false end.
Definition posted (e : event) : option vm_payload :=
  match e with ERequest POST _ _ body => body | _ => None end.
Definition dry_printed (e : event) : option vm_payload :=
  match e with EPrint (MDryRunPayload p) => Some p | _ => None end.

End DeployVm.

(** ** Scripted environments for running the models on concrete inputs *)

Module Scripted.
Import Eff.

(** The answers the API will give, in order, and whether the workbook can
    be rewritten. *)
Record update_world := {
  get_answers : list UpdateCategories.get_outcome;
  post_answers : list UpdateCategories.post_outcome;
  workbook_writable : bool
}.

#[export] Instance update_env : UpdateCategories.Env update_world := {|
  UpdateCategories.b64encode := fun s => s;
  UpdateCategories.requests_get := fun _ _ w =>
    match get_answers w with
    | [] => (UpdateCategories.GetRaised, w)
    | a :: rest =>
        (a, {| get_answers := rest; post_answers := post_answers w;
               workbook_writable := workbook_writable w |})
    end;
  UpdateCategories.requests_post := fun _ _ _ w =>
    match post_answers w with
    | [] => (UpdateCategories.PostRaised, w)
    | a :: rest =>
        (a, {| get_answers := get_answers w; post_answers := rest;
               workbook_writable := workbook_writable w |})
    end;
  UpdateCategories.uuid4 := fun w => ("6f1c2a9e-0000-4000-8000-000000000001", w);
  UpdateCategories.now_stamp := fun w => ("04112025-0930", w);
  UpdateCategories.workbook_io := fun w => (workbook_writable w, w)
|}.

Definition text_cell (s : string) : UpdateCategories.cell :=
  {| UpdateCategories.value := Some s;
     UpdateCategories.font := None;
     UpdateCategories.fill := None |}.

(** A sheet with the six header cells and no data cells filled in. *)
Definition sheet : UpdateCategories.worksheet :=
  {| UpdateCategories.max_column := 6;
     UpdateCategories.cells :=
       list_to_map
         [ ((1, 1), text_cell "VM Name");
           ((1, 2), text_cell "VM extId");
           ((1, 3), text_cell "VM Name/extId & Category exId(s) Match");
           ((1, 4), text_cell "Category UUID(s)");
           ((1, 5), text_cell "Status of Update");
           ((1, 6), text_cell "Timestamp") ] |}.

Definition vars_txt : list string :=
  [ "baseUrl=https://10.0.0.1:9440/api" +:+ String "010" "";
    "username=admin" +:+ String "010" "";
    "password=secret" +:+ String "010" "" ].

(** A row of text cells, and a row of arbitrary cells. *)
Definition row_cells (flag vm_name vm_extid cats : UpdateCategories.scalar)
  : UpdateCategories.row :=
  {| UpdateCategories.col_match := Some flag;
     UpdateCategories.col_vm_name := Some vm_name;
     UpdateCategories.col_vm_extid := Some vm_extid;
     UpdateCategories.col_categories := Some cats |}.

Definition row_of (flag vm_name vm_extid cats : string) : UpdateCategories.row :=
  row_cells (UpdateCategories.Value flag) (UpdateCategories.Value vm_name)
            (UpdateCategories.Value vm_extid) (UpdateCategories.Value cats).

Definition table : list UpdateCategories.row :=
  [ row_of "OK" "vm1" "id1" "c1,c2"; row_of "SKIP" "vm2" "id2" "c3" ].

Definition answers (g : list UpdateCategories.get_outcome)
    (p : list UpdateCategories.post_outcome) : update_world :=
  {| get_answers := g; post_answers := p; workbook_writable := true |}.

(** The provisioning API: whether the connection test succeeds, the two
    inventories, and the answer to the creation request. *)
Record deploy_world := {
  reachable : bool;
  images : DeployVm.api_outcome (option (list DeployVm.image_entry));
  subnets : DeployVm.api_outcome (option (list DeployVm.network_entry));
  creation : DeployVm.api_outcome DeployVm.create_result
}.

#[export] Instance deploy_env : DeployVm.Env deploy_world := {|
  DeployVm.b64encode := fun s => s;
  DeployVm.get_vms := fun _ _ w =>
    (if reachable w then DeployVm.ApiData tt else DeployVm.ApiFailed, w);
  DeployVm.get_images := fun _ _ w => (images w, w);
  DeployVm.get_subnets := fun _ _ w => (subnets w, w);
  DeployVm.post_vm := fun _ _ _ w => (creation w, w);
  DeployVm.now_isoformat := fun w => ("2025-11-04T09:30:00", w);
  DeployVm.now_stamp := fun w => ("20251104_093000", w);
  DeployVm.save_json := fun _ w => (true, w)
|}.

Definition image (n eid : string) : DeployVm.image_entry :=
  {| DeployVm.img_name := Some n; DeployVm.img_type := Some "DISK_IMAGE";
     DeployVm.img_sizeInBytes := Some 42949672960%N;
     DeployVm.img_extId := Some eid |}.

Definition network (n eid : string) : DeployVm.network_entry :=
  {| DeployVm.net_name := Some n; DeployVm.net_subnetType := Some "VLAN";
     DeployVm.net_vlanId := Some 100%N; DeployVm.net_extId := Some eid |}.

(** A cluster with two images whose names differ only in case, listed with
    the case-insensitive match first, and two subnets likewise. *)
Definition cluster : deploy_world :=
  {| reachable := true;
     images := DeployVm.ApiData (Some [image "WINDOWS2019" "img-upper";
                                       image "Windows2019" "img-exact"]);
     subnets := DeployVm.ApiData (Some [network "prod-net" "net-lower";
                                        network "Prod-Net" "net-exact"]);
     creation := DeployVm.ApiData
                   (DeployVm.Result
                      (Some {| DeployVm.vm_extId := Some "vm-1";
                               DeployVm.vm_state := Some "OFF" |})) |}.

Definition by_name (run_dry : bool) : DeployVm.args :=
  {| DeployVm.do_it := true; DeployVm.dry_run := run_dry;
     DeployVm.image_name := Some "Windows2019";
     DeployVm.subnet := Some "Prod-Net" |}.

(** [--do-it] alone: image and subnet are chosen at the prompts. *)
Definition interactive : DeployVm.args :=
  {| DeployVm.do_it := true; DeployVm.dry_run := false;
     DeployVm.image_name := None; DeployVm.subnet := None |}.

End Scripted.


(** ** [main] of the provisioning script, cut into its consecutive phases

    The three phases below are the text of [DeployVm.main] from the safety
    check to the dry-run banner, from "Read configuration" to the end of the
    network selection, and from the deployment summary to the end;
    [main_phased] proves that running them in sequence is [main] once the
    command line is parsed. *)

Module DeployPhases.
Import PyStr Eff Eff.Notations DeployVm.

Record selection := {
  sel_base_url : string;
  sel_headers : headers;
  sel_image : item image_entry;
  sel_network : item network_entry
}.

Definition with_dry_run (b : bool) (cli : args) : args :=
  {| do_it := do_it cli; dry_run := b;
     image_name := image_name cli; subnet := subnet cli |}.

Section WithEnv.
Context {World : Type} `{Env World}.

Abbreviation Run := (M (state World) event).

Definition safety_check (cfg : settings) (cli : args) : Run unit :=
  (if has_cli cfg && negb (do_it cli) && negb (ALLOW_EXECUTION_WITHOUT_DOIT cfg)
   then print MSafetyCheck ;;; sys_exit 1
   else ret tt) ;;;
  (if dry_run cli then print MDryRunBanner else ret tt).

Definition connect (vars_file : option (list string)) : Run (string * headers) :=
  config <- read_vars_file vars_file ;;
  let base_url := default "" (config !! "baseUrl") in
  let hdrs : headers :=
    <["Accept" := "application/json"]>
      (<["Content-Type" := "application/json"]>
         (create_auth_header b64encode (default "" (config !! "username"))
                             (default "" (config !! "password")))) in
  let test_url := base_url +:+ "/vmm/v4.1/ahv/config/vms" in
  try_except_all
    (make_api_request GET test_url hdrs None (get_vms test_url hdrs) ;;;
     print MConnectionOk)
    (print MConnectionFailed ;;; sys_exit 1) ;;;
  ret (base_url, hdrs).

Definition choose_image (base_url : string) (hdrs : headers)
    (wanted : option string) : Run (item image_entry) :=
  if truthy (default "" wanted) then
    found <- find_image_by_name base_url hdrs (default "" wanted) ;;
    match found with
    | Some i => ret i
    | None => print (MCannotProceedNotFound (default "" wanted)) ;;; sys_exit 1
    end
  else
    images <- list_images base_url hdrs ;;
    match images with
    | [] => print MCannotProceedEmpty ;;; sys_exit 1
    | _ =>
        chosen <- select_from_list images ;;
        match chosen with
        | Some i => ret i
        | None => sys_exit 1
        end
    end.

Definition choose_network (base_url : string) (hdrs : headers)
    (wanted : option string) : Run (item network_entry) :=
  if truthy (default "" wanted) then
    found <- find_network_by_name base_url hdrs (default "" wanted) ;;
    match found with
    | Some i => ret i
    | None => print (MCannotProceedNotFound (default "" wanted)) ;;; sys_exit 1
    end
  else
    networks <- list_networks base_url hdrs ;;
    match networks with
    | [] => print MCannotProceedEmpty ;;; sys_exit 1
    | _ =>
        chosen <- select_from_list networks ;;
        match chosen with
        | Some i => ret i
        | None => sys_exit 1
        end
    end.

Definition prepare (wanted_image wanted_subnet : option string)
    (vars_file : option (list string)) : Run selection :=
  connection <- connect vars_file ;;
  selected_image <- choose_image connection.1 connection.2 wanted_image ;;
  selected_network <- choose_network connection.1 connection.2 wanted_subnet ;;
  ret {| sel_base_url := connection.1; sel_headers := connection.2;
         sel_image := selected_image; sel_network := selected_network |}.

Definition finish (cfg : settings) (dry : bool) (vm_name : string)
    (sel : selection) : Run unit :=
  print (MSummary vm_name (name (sel_image sel)) (name (sel_network sel))) ;;;
  if dry then
    let body := create_vm_payload cfg vm_name (sel_image sel) (sel_network sel) in
    print (MDryRunPayload body) ;;;
    print MDryRunDone ;;;
    sys_exit 0
  else
    confirm <- input ;;
    if negb (bool_decide (lower (strip confirm) ∈ ["y"; "yes"])) then
      print MCancelled ;;; sys_exit 0
    else
      let body := create_vm_payload cfg vm_name (sel_image sel) (sel_network sel) in
      result <- deploy_vm (sel_base_url sel) (sel_headers sel) body ;;
      match result with
      | Some (Result d) =>
          print (MDeployOk d) ;;;
          _ <- ask now_isoformat ;;
          stamp <- ask now_stamp ;;
          let deployment_file :=
            "deployment_" +:+ vm_name +:+ "_" +:+ stamp +:+ ".json" in
          saved <- ask (save_json deployment_file) ;;
          if saved : bool then print (MSaved deployment_file) else print MSaveWarning
      | _ => print MDeployFailed ;;; sys_exit 1
      end.

Definition phased (cfg : settings) (cli : args) (vm_name : string)
    (vars_file : option (list string)) : Run unit :=
  let cli := if has_cli cfg then cli else no_args in
  safety_check cfg cli ;;;
  sel <- prepare (image_name cli) (subnet cli) vars_file ;;
  finish cfg (dry_run cli) vm_name sel.

End WithEnv.

(** An event that is neither a POST nor the dry-run payload print, and a
    computation that logs only such events. *)
Definition harmless (e : event) : Prop :=
  is_post e = false /\ dry_printed e = None.

Definition quiet {World A} (m : M (state World) event A) : Prop :=
  forall s, Forall harmless (log (m s)).

(** A computation that, when it returns, has read some first lines of
    standard input and would do exactly the same whatever follows them. *)
Definition reads_prefix {World A} (m : M (state World) event A) : Prop :=
  forall s a s1 l,
    m s = (Ret a, s1, l) ->
    exists consumed,
      stdin s = consumed ++ stdin s1
      /\ forall rest, m {| world := world s; stdin := consumed ++ rest |}
                      = (Ret a, {| world := world s1; stdin := rest |}, l).

End DeployPhases.

(** ** Vocabulary of the specification *)

Module Spec.
Import PyStr.

(** A string that does not begin with white space. *)
Definition starts_clean (s : string) : Prop :=
  match s with
  | EmptyString => True
  | String c _ => isspace c = false
  end.

(** Apply [f] to the first, respectively the last, element of a list. *)
Definition map_head {A} (f : A -> A) (l : list A) : list A :=
  match l with
  | [] => []
  | x :: t => f x :: t
  end.

Fixpoint map_last {A} (f : A -> A) (l : list A) : list A :=
  match l with
  | [] => []
  | [x] => [f x]
  | x :: t => x :: map_last f t
  end.

(** The specification's reading of a category cell: the comma-separated
    segments, each trimmed, the empty ones dropped, order and repetitions
    kept. *)
Definition trimmed_segments (s : string) : list string :=
  List.filter truthy (map strip (split "," s)).

(** The association body for a list of identifiers. *)
Definition association_body (ids : list string) : UpdateCategories.payload :=
  {| UpdateCategories.categories :=
       map (fun t => {| UpdateCategories.extId := t |}) ids |}.

Import UpdateCategories.

(** The orchestrator's own tests on a row. *)
Definition eligible (r : row) : bool :=
  String.eqb (upper (strip (match_cell r))) "OK".

Definition complete (r : row) : bool :=
  all_truthy [strip (vm_name_cell r); strip (vm_extid_cell r);
              strip (category_cell r)].

(** The read step gave no usable version token. *)
Definition no_token (g : get_outcome) : Prop :=
  g = GetRaised \/ g = GetReturned None \/ g = GetReturned (Some "").

Definition url_get (base_url : string) (r : row) : string :=
  base_url +:+ "/" +:+ "vmm/v4.1/ahv/config/vms/" +:+ strip (vm_extid_cell r).

Definition url_post (base_url : string) (r : row) : string :=
  base_url +:+ "/" +:+ "vmm/v4.1/ahv/config/vms/" +:+ strip (vm_extid_cell r)
           +:+ "/$actions/associate-categories".

Definition is_http (e : event) : bool :=
  match e with EGet _ _ | EPost _ _ _ => true | _ => false end.

Definition is_post (e : event) : bool :=
  match e with EPost _ _ _ => true | _ => false end.

(** [e] is a call of the result sink for DataFrame row [i]. *)
Definition marks_row (i : nat) (e : event) : bool :=
  match e with EExcel j _ _ => Nat.eqb i j | _ => false end.

(** The headers of the conditional write. *)
Definition write_headers (auth_headers : headers) (etag rest_uuid : string)
  : headers :=
  <["Content-Type" := "application/json"]>
    (<["NTNX-Request-Id" := rest_uuid]> (<["If-Match" := etag]> auth_headers)).

(** The token [make_get_request] hands back. *)
Definition token_of (g : get_outcome) : string :=
  match g with GetReturned (Some e) => e | _ => "" end.

(** The console lines of a read and of a write outcome. *)
Definition get_lines (g : get_outcome) : list event :=
  match g with GetRaised => [EPrint MGetError] | _ => [] end.

Definition post_lines (p : post_outcome) : list event :=
  match p with
  | PostRaised => [EPrint MPostError; EPrint (MFailed "N/A")]
  | PostReturned resp =>
      if (status_code resp =? 202)%N
      then [EPrint (MAccepted (default "" (resp_etag resp)))]
      else if (400 <=? status_code resp)%N && (status_code resp <? 600)%N
           then [EPrint (MFailed "N/A")]
           else [EPrint (MFailed (str_of_N (status_code resp)))]
  end.

(** The calls of the result sink, and the requests, found in a log. *)
Definition sink_calls (l : list event) : list (nat * string * string) :=
  omap (fun e => match e with
                 | EExcel i status timestamp => Some (i, status, timestamp)
                 | _ => None
                 end) l.

Definition requests (l : list event) : list (string * string) :=
  omap (fun e => match e with
                 | EGet url _ => Some ("GET", url)
                 | EPost url _ _ => Some ("POST", url)
                 | _ => None
                 end) l.

(** The text of a sheet cell, if it has one. *)
Definition cell_text (ws : worksheet) (row col : nat) : option string :=
  cells ws !! (row, col) ≫= value.

(** The sink was called for row [i] with a FAILED status. *)
Definition marked_failed (i : nat) (l : list event) : Prop :=
  exists code timestamp,
    EExcel i ("FAILED (" +:+ code +:+ ")") timestamp ∈ l.

(** The keys every script requires of 'files/vars.txt'. *)
Definition required_keys : list string := ["baseUrl"; "username"; "password"].

(** The configuration file is absent, or a required key is not among the
    entries the loader [parse] finds in it. *)
Definition lacks_required (parse : list string -> gmap string string)
    (vars_file : option (list string)) : Prop :=
  match vars_file with
  | None => True
  | Some lines => exists key, key ∈ required_keys /\ parse lines !! key = None
  end.

(** The status text the result sink is called with on a write outcome. *)
Definition status_written (p : post_outcome) : string :=
  match p with
  | PostRaised => "FAILED (N/A)"
  | PostReturned resp =>
      if (status_code resp =? 202)%N then "ACCEPTED"
      else if (400 <=? status_code resp)%N && (status_code resp <? 600)%N
           then "FAILED (N/A)"
           else "FAILED (" +:+ str_of_N (status_code resp) +:+ ")"
  end.

End Spec.

(** ** Further vocabulary: the result sink, the loaders, the selection prompt *)

Module Obs.
Import PyStr UpdateCategories.

(** The header of column [col] names the status column, respectively the
    timestamp column (a header naming both is a status header). *)
Definition header_text (ws : worksheet) (col : nat) : option string :=
  cells ws !! (1, col) ≫= value.

Definition status_at (ws : worksheet) (col : nat) : bool :=
  match header_text ws col with
  | Some h => truthy h && contains "STATUS OF UPDATE" (upper h)
  | None => false
  end.

Definition timestamp_at (ws : worksheet) (col : nat) : bool :=
  match header_text ws col with
  | Some h => negb (truthy h && contains "STATUS OF UPDATE" (upper h))
              && (truthy h && contains "TIMESTAMP" (upper h))
  | None => false
  end.

(** The last column among [cols] that satisfies [P]. *)
Definition last_where (P : nat -> bool) (cols : list nat) : option nat :=
  fold_left (fun acc col => if P col then Some col else acc) cols None.

(** [col] is the last of the columns 1..[n] that satisfies [P]. *)
Definition is_last_where (P : nat -> bool) (n col : nat) : Prop :=
  1 <= col <= n /\ P col = true
  /\ forall col', col < col' <= n -> P col' = false.

(** The conditional writes found in a log. *)
Definition posts (l : list event) : list (string * headers * payload) :=
  omap (fun e => match e with
                 | EPost url hdrs body => Some (url, hdrs, body)
                 | _ => None
                 end) l.

(** A line the provisioning loader passes over without looking for '='. *)
Definition is_blank_or_comment (line : string) : bool :=
  negb (truthy (strip line)) || startswith "#" (strip line).

(** The three settings [main] reads from the loaded file. *)
Definition setting (lines : list string) (key : string) : string :=
  default "" (parse_vars lines !! key).

(** The file gives all three settings and ASCII credentials: [main] gets as
    far as the workbook. *)
Definition usable_config (lines : list string) : bool :=
  all_truthy [setting lines "baseUrl"; setting lines "username";
              setting lines "password"]
  && is_ascii (setting lines "username" +:+ ":" +:+ setting lines "password").

(** A row the loop passes over before it builds any request: its flag text
    is not OK, or the text of a required cell is blank, or its category text
    has no non-blank segment.  The texts are those of [str(row.get(...))]:
    a cell the sheet leaves empty reads 'nan', which fails the flag test and
    passes the other two. *)
Definition passed_over (r : row) : bool :=
  negb (Spec.eligible r) || negb (Spec.complete r)
  || bool_decide (Spec.trimmed_segments (category_cell r) = []).

End Obs.

(** ** Further vocabulary: the provisioning workflow *)

Module DeployObs.
Import PyStr Eff DeployVm.

(** The answer typed at the selection prompt is one of the quit words. *)
Definition is_quit (line : string) : bool :=
  bool_decide (lower (strip line) ∈ ["q"; "quit"; "exit"]).

(** The list position a typed answer selects among [n] items, if any: the
    answer is no quit word, [int()] accepts it, and the number is within
    0..[n]-1. *)
Definition choice (n : nat) (line : string) : option nat :=
  if is_quit line then None
  else match py_int (strip line) with
       | Some index =>
           if (0 <=? index)%Z && (index <? Z.of_nat n)%Z
           then Some (Z.to_nat index) else None
       | None => None
       end.

(** An answer that makes the prompt come back. *)
Definition invalid (n : nat) (line : string) : Prop :=
  is_quit line = false /\ choice n line = None.

(** The number of calls to [input()] in a log. *)
Definition prompts (l : list event) : nat :=
  length (List.filter (fun e => match e with EInput => true | _ => false end) l).

(** The answer typed at the confirmation prompt means yes. *)
Definition confirms (line : string) : bool :=
  bool_decide (lower (strip line) ∈ ["y"; "yes"]).

(** The diagnostics after which the script gives up. *)
Definition fatal (e : event) : bool :=
  match e with
  | EPrint MSafetyCheck | EPrint MVarsNotFound | EPrint (MMissingConfig _)
  | EPrint MApiFailed | EPrint MConnectionFailed
  | EPrint (MCannotProceedNotFound _) | EPrint MCannotProceedEmpty
  | EPrint MDeployFailed => true
  | _ => false
  end.

(** A computation that only ever consumes standard input from the front,
    exits with status 0 or 1 only, and exits with status 1 whenever it has
    printed a fatal diagnostic. *)
Definition tidy {World A} (m : M (state World) event A) : Prop :=
  forall s,
    stdin (final (m s)) `suffix_of` stdin s
    /\ (forall c, result (m s) = Exit c -> c = 0%Z \/ c = 1%Z)
    /\ (forall e, e ∈ log (m s) -> fatal e = true -> result (m s) = Exit 1).

Definition known_boot_type (boot_type : string) : bool :=
  String.eqb boot_type "DISK" || String.eqb boot_type "CDROM"
  || String.eqb boot_type "NETWORK".

(** The body of the boot-order loop of [create_vm_payload]. *)
Definition boot_step (boot_devices : list boot_device) (boot_type : string)
  : list boot_device :=
  if String.eqb boot_type "DISK" then
    boot_devices ++ [{| bootDeviceType := "DISK";
                        bootDeviceOrder := length boot_devices |}]
  else if String.eqb boot_type "CDROM" then
    boot_devices ++ [{| bootDeviceType := "CDROM";
                        bootDeviceOrder := length boot_devices |}]
  else if String.eqb boot_type "NETWORK" then
    boot_devices ++ [{| bootDeviceType := "NETWORK";
                        bootDeviceOrder := length boot_devices |}]
  else boot_devices.

(** The name of an inventory entry as the lookups compare it. *)
Definition entry_name {E} (get_name : E -> option string) (e : E) : string :=
  default "" (get_name e).

End DeployObs.

(** * Properties *)

(** ** String primitives *)

Section StringFacts.
Import PyStr Spec.

Lemma lstrip_starts_clean s : starts_clean (lstrip s).
Proof.
  induction s as [|c s IH]; simpl; [exact I|].
  destruct (isspace c) eqn:Hc; [exact IH | exact Hc].
Qed.

Lemma lstrip_clean_id s : starts_clean s -> lstrip s = s.
Proof. destruct s as [|c s]; simpl; [reflexivity|]. intros ->. reflexivity. Qed.

Lemma rstrip_starts_clean s : starts_clean s -> starts_clean (rstrip s).
Proof.
  destruct s as [|c s]; simpl; [exact id|]. intros Hc.
  destruct (rstrip s); simpl; [rewrite Hc|]; exact Hc.
Qed.

Lemma rstrip_idem s : rstrip (rstrip s) = rstrip s.
Proof.
  induction s as [|c s IH]; simpl; [reflexivity|].
  destruct (rstrip s) as [|d r] eqn:Hr.
  - destruct (isspace c) eqn:Hc; simpl; [reflexivity|]. rewrite Hc. reflexivity.
  - change (rstrip (String c (String d r))) with
      (match rstrip (String d r) with
       | EmptyString => if isspace c then EmptyString else String c EmptyString
       | String a b => String c (String a b)
       end).
    rewrite IH. reflexivity.
Qed.

Lemma strip_idem s : strip (strip s) = strip s.
Proof.
  unfold strip.
  rewrite (lstrip_clean_id (rstrip (lstrip s))).
  - apply rstrip_idem.
  - apply rstrip_starts_clean, lstrip_starts_clean.
Qed.

Lemma split_nonempty sep s : split sep s <> [].
Proof.
  destruct s as [|c s]; simpl; [discriminate|].
  destruct (Ascii.eqb c sep); [discriminate|].
  destruct (split sep s); discriminate.
Qed.

Lemma lstrip_idem s : lstrip (lstrip s) = lstrip s.
Proof. apply lstrip_clean_id, lstrip_starts_clean. Qed.

Lemma lstrip_rstrip s : lstrip (rstrip s) = rstrip (lstrip s).
Proof.
  induction s as [|c s IH]; [reflexivity|].
  cbn [lstrip rstrip]. destruct (isspace c) eqn:Hc.
  - rewrite <- IH. destruct (rstrip s) as [|d r]; [reflexivity|].
    cbn [lstrip]. rewrite Hc. reflexivity.
  - cbn [rstrip]. destruct (rstrip s) as [|d r]; rewrite ?Hc; cbn [lstrip];
      rewrite Hc; reflexivity.
Qed.

Lemma strip_lstrip s : strip (lstrip s) = strip s.
Proof. unfold strip. by rewrite lstrip_idem. Qed.

Lemma strip_rstrip s : strip (rstrip s) = strip s.
Proof. unfold strip. by rewrite lstrip_rstrip, rstrip_idem. Qed.

Lemma split_singleton_empty sep s : split sep s = [EmptyString] -> s = EmptyString.
Proof.
  destruct s as [|c s]; [reflexivity|]. cbn [split].
  destruct (Ascii.eqb c sep).
  - intros Heq. injection Heq as Heq. by apply split_nonempty in Heq.
  - destruct (split sep s); discriminate.
Qed.

Lemma isspace_not_sep sep c : isspace sep = false -> isspace c = true ->
  Ascii.eqb c sep = false.
Proof.
  intros Hsep Hc. destruct (Ascii.eqb_spec c sep) as [->|]; [congruence|reflexivity].
Qed.

Lemma split_lstrip sep s : isspace sep = false ->
  split sep (lstrip s) = map_head lstrip (split sep s).
Proof.
  intros Hsep. induction s as [|c s IH]; [reflexivity|].
  cbn [lstrip]. destruct (isspace c) eqn:Hc.
  - rewrite IH. cbn [split]. rewrite (isspace_not_sep sep c Hsep Hc).
    destruct (split sep s) as [|h t] eqn:Hs; [by apply split_nonempty in Hs|].
    cbn [map_head lstrip]. by rewrite Hc.
  - cbn [split]. destruct (Ascii.eqb c sep); [reflexivity|].
    destruct (split sep s) as [|h t]; cbn [map_head lstrip]; by rewrite Hc.
Qed.

Lemma map_last_cons {A} (f : A -> A) x l :
  l <> [] -> map_last f (x :: l) = x :: map_last f l.
Proof. destruct l; [done|reflexivity]. Qed.

Lemma map_last_nil {A} (f : A -> A) l : map_last f l = [] -> l = [].
Proof. destruct l as [|x [|y t]]; [reflexivity|discriminate..]. Qed.

Lemma split_rstrip sep s : isspace sep = false ->
  split sep (rstrip s) = map_last rstrip (split sep s).
Proof.
  intros Hsep. induction s as [|c s IH]; [reflexivity|].
  cbn [split]. destruct (Ascii.eqb c sep) eqn:Hcs.
  - apply Ascii.eqb_eq in Hcs. subst c.
    rewrite map_last_cons by apply split_nonempty. rewrite <- IH.
    cbn [rstrip]. destruct (rstrip s) as [|d r]; rewrite ?Hsep; cbn [split];
      rewrite Ascii.eqb_refl; reflexivity.
  - destruct (split sep s) as [|h t] eqn:Hs; [by apply split_nonempty in Hs|].
    cbn [rstrip]. destruct (rstrip s) as [|d r] eqn:Hr.
    + cbn [split] in IH. destruct t as [|t1 t2].
      2:{ rewrite map_last_cons in IH by done. injection IH as _ IH.
          symmetry in IH. by apply (map_last_nil rstrip (t1 :: t2)) in IH. }
      cbn in IH. injection IH as IH. cbn [map_last rstrip]. rewrite <- IH.
      destruct (isspace c); [reflexivity|]. cbn [split]. by rewrite Hcs.
    + change (split sep (String c (String d r))) with
        (if Ascii.eqb c sep then EmptyString :: split sep (String d r)
         else match split sep (String d r) with
              | [] => [String c EmptyString]
              | h' :: t' => String c h' :: t'
              end).
      rewrite Hcs, IH. destruct t as [|t1 t2].
      * cbn [map_last rstrip]. destruct (rstrip h) eqn:Hh; [|reflexivity].
        change (map_last rstrip [h]) with [rstrip h] in IH. rewrite Hh in IH.
        apply split_singleton_empty in IH. discriminate.
      * reflexivity.
Qed.

Lemma map_strip_map_head l : map strip (map_head lstrip l) = map strip l.
Proof. destruct l as [|x t]; [reflexivity|]. cbn. by rewrite strip_lstrip. Qed.

Lemma map_strip_map_last l : map strip (map_last rstrip l) = map strip l.
Proof.
  induction l as [|x t IH]; [reflexivity|].
  destruct t as [|y t]; [cbn; by rewrite strip_rstrip|].
  rewrite map_last_cons by done. cbn [map]. by rewrite IH.
Qed.

(** Trimming the whole cell first does not change its segments. *)
Lemma trimmed_segments_strip s : trimmed_segments (strip s) = trimmed_segments s.
Proof.
  unfold trimmed_segments, strip.
  rewrite split_rstrip, split_lstrip by reflexivity.
  by rewrite map_strip_map_last, map_strip_map_head.
Qed.

End StringFacts.

(** ** The category-association payload *)

Section Payload.
Import PyStr Spec UpdateCategories.

Lemma build_loop_spec (l : list string) (acc : list category_ref) :
  fold_left (fun categories uuid_str =>
               let uuid_str := strip uuid_str in
               if truthy uuid_str then categories ++ [{| extId := uuid_str |}]
               else categories) l acc
  = acc ++ map (fun t => {| extId := t |}) (List.filter truthy (map strip l)).
Proof.
  revert acc. induction l as [|u l IH]; intros acc; simpl.
  - by rewrite app_nil_r.
  - rewrite IH. destruct (truthy (strip u)); simpl; [|reflexivity].
    by rewrite <- app_assoc.
Qed.

Lemma filter_strip_twice (l : list string) :
  List.filter truthy (map strip (map strip (List.filter (fun u => truthy (strip u)) l)))
  = List.filter truthy (map strip l).
Proof.
  induction l as [|u l IH]; simpl; [reflexivity|].
  destruct (truthy (strip u)) eqn:Hu; simpl; [|exact IH].
  rewrite strip_idem, Hu, IH. reflexivity.
Qed.

Lemma parse_category_uuids_spec s : parse_category_uuids s = trimmed_segments s.
Proof.
  unfold parse_category_uuids, trimmed_segments.
  induction (split "," s) as [|u l IH]; simpl; [reflexivity|].
  destruct (truthy (strip u)); simpl; by rewrite IH.
Qed.

Lemma build_payload_spec (s : string) :
  build_categories_payload (parse_category_uuids s)
  = association_body (trimmed_segments s).
Proof.
  unfold build_categories_payload, association_body. f_equal.
  rewrite build_loop_spec. simpl. f_equal.
  unfold parse_category_uuids, trimmed_segments.
  apply filter_strip_twice.
Qed.

(** C5.  For every comma-separated identifier string, the body built for
    the write (the list comprehension of [main] fed to
    [build_categories_payload]) is [{"categories": [{"extId": t}, ...]}]
    with [t] ranging over the trimmed non-empty segments of the string, in
    order, repetitions kept; and since [main] trims the cell before it
    splits it, the same holds of the raw cell. *)
Theorem build_categories_payload_segments (s : string) :
  build_categories_payload (parse_category_uuids s)
    = association_body (trimmed_segments s)
  /\ build_categories_payload (parse_category_uuids (strip s))
    = association_body (trimmed_segments s).
Proof.
  split; [apply build_payload_spec|].
  rewrite build_payload_spec. by rewrite trimmed_segments_strip.
Qed.

Example payload_keeps_duplicates :
  build_categories_payload (parse_category_uuids " c1 ,c2,, c1,	")
  = {| categories := [ {| extId := "c1" |}; {| extId := "c2" |}; {| extId := "c1" |} ] |}.
Proof. reflexivity. Qed.

End Payload.

(** ** The update orchestrator, row by row *)

Section Orchestrator.
Import PyStr Eff Spec UpdateCategories.
Context {World : Type} `{Env World}.
Variables (base_url : string) (auth_headers : headers).

Ltac run_step :=
  unfold bind, print, emit, ask, ret; simpl.

Lemma process_row_not_eligible index r s :
  eligible r = false ->
  process_row base_url auth_headers index r s
  = (Ret tt, s, [EPrint (MSkipNotOK (index + 1) (strip (match_cell r)))]).
Proof. unfold eligible, process_row. intros ->. reflexivity. Qed.

Lemma process_row_incomplete index r s :
  eligible r = true -> complete r = false ->
  process_row base_url auth_headers index r s
  = (Ret tt, s, [EPrint (MSkipMissingData (index + 1))]).
Proof. unfold eligible, complete, process_row. intros -> ->. reflexivity. Qed.

Lemma process_row_no_categories index r s :
  eligible r = true -> complete r = true ->
  trimmed_segments (strip (category_cell r)) = [] ->
  process_row base_url auth_headers index r s
  = (Ret tt, s, [EPrint (MNoValidUuids (strip (vm_name_cell r)))]).
Proof.
  unfold eligible, complete, process_row. intros -> -> Hseg.
  rewrite parse_category_uuids_spec, Hseg. reflexivity.
Qed.

(** The sink call itself: one [EExcel] event, one console line, and the
    sheet rewritten by [write_status] unless the workbook cannot be loaded
    or saved. *)
Lemma update_excel_status_run index status timestamp s ok w' :
  workbook_io (world s) = (ok, w') ->
  update_excel_status index status timestamp s
  = (Ret tt,
     {| world := w';
        xlsx := if ok then write_status (xlsx s) index status timestamp
                else xlsx s |},
     [EExcel index status timestamp;
      EPrint (if ok then MExcelUpdated status timestamp else MExcelError)]).
Proof.
  intros Hio. unfold update_excel_status. run_step. rewrite Hio.
  destruct ok; reflexivity.
Qed.

(** An eligible, complete row with at least one category whose read step
    yields no token: one GET, no write, no sink call. *)
Lemma process_row_no_token index r s u w1 g w2 :
  eligible r = true -> complete r = true ->
  trimmed_segments (strip (category_cell r)) <> [] ->
  uuid4 (world s) = (u, w1) ->
  requests_get (url_get base_url r) auth_headers w1 = (g, w2) ->
  no_token g ->
  process_row base_url auth_headers index r s
  = (Ret tt, {| world := w2; xlsx := xlsx s |},
     EGet (url_get base_url r) auth_headers
       :: get_lines g ++ [EPrint (MFailedEtag (strip (vm_name_cell r)))]).
Proof.
  unfold eligible, complete, process_row, url_get.
  intros -> -> Hseg Hu Hg Hno.
  rewrite parse_category_uuids_spec.
  destruct (trimmed_segments (strip (category_cell r))) as [|c cs]; [done|].
  cbn [negb]. unfold bind at 1. unfold ask at 1. rewrite Hu.
  unfold make_get_request. unfold bind, ask, emit, print, ret. cbn [world xlsx].
  rewrite Hg.
  destruct Hno as [-> | [-> | ->]]; reflexivity.
Qed.

(** The same row when the read step yields a token: one GET, one
    conditional POST, one sink call whose status text is
    [status_written]. *)
Lemma process_row_write index r s u w1 etag w2 p w3 ts w4 ok w5 :
  eligible r = true -> complete r = true ->
  trimmed_segments (strip (category_cell r)) <> [] ->
  uuid4 (world s) = (u, w1) ->
  requests_get (url_get base_url r) auth_headers w1
    = (GetReturned (Some etag), w2) ->
  etag <> "" ->
  requests_post (url_post base_url r) (write_headers auth_headers etag u)
                (association_body (trimmed_segments (strip (category_cell r)))) w2
    = (p, w3) ->
  now_stamp w3 = (ts, w4) ->
  workbook_io w4 = (ok, w5) ->
  process_row base_url auth_headers index r s
  = (Ret tt,
     {| world := w5;
        xlsx := if ok then write_status (xlsx s) index (status_written p) ts
                else xlsx s |},
     [EGet (url_get base_url r) auth_headers;
      EPost (url_post base_url r) (write_headers auth_headers etag u)
            (association_body (trimmed_segments (strip (category_cell r))))]
     ++ post_lines p
     ++ [EExcel index (status_written p) ts;
         EPrint (if ok then MExcelUpdated (status_written p) ts else MExcelError)]).
Proof.
  unfold eligible, complete, process_row, url_get, url_post.
  intros -> -> Hseg Hu Hg Hetag Hp Hts Hio.
  rewrite build_payload_spec.
  rewrite parse_category_uuids_spec.
  destruct (trimmed_segments (strip (category_cell r))) as [|c cs] eqn:Hcs; [done|].
  cbn [negb]. unfold bind at 1. unfold ask at 1. rewrite Hu.
  unfold make_get_request. unfold bind at 1. unfold bind at 1.
  unfold emit at 1. unfold bind at 1. unfold ask at 1. cbn [world xlsx].
  rewrite Hg. unfold ret at 1. cbn [default from_option]. unfold id.
  assert (truthy etag = true) as -> by (destruct etag; done).
  cbn [negb]. unfold make_post_request.
  unfold bind at 1. unfold bind at 1. unfold emit at 1.
  unfold bind at 1. unfold ask at 1. cbn [world xlsx].
  fold (write_headers auth_headers etag u). rewrite Hp.
  assert (forall st, update_excel_status index st ts
                         {| world := w4; xlsx := xlsx s |}
          = (Ret tt, {| world := w5;
                        xlsx := if ok then write_status (xlsx s) index st ts
                                else xlsx s |},
             [EExcel index st ts;
              EPrint (if ok then MExcelUpdated st ts else MExcelError)])) as Hsink.
  { intros st.
    exact (update_excel_status_run index st ts
             {| world := w4; xlsx := xlsx s |} ok w5 Hio). }
  destruct p as [|resp]; cbn [status_written post_lines];
    unfold response_truthy, print, emit, bind, ret, ask; cbn [world xlsx].
  - rewrite Hts. cbn [world xlsx]. rewrite Hsink. reflexivity.
  - destruct (N.eqb_spec (status_code resp) 202) as [E|NE].
    + rewrite E. cbn [N.leb N.ltb N.compare Pos.compare Pos.compare_cont negb andb].
      cbn [world xlsx]. rewrite Hts. cbn [world xlsx]. rewrite Hsink. reflexivity.
    + rewrite andb_false_r.
      destruct ((400 <=? status_code resp)%N && (status_code resp <? 600)%N);
        cbn [negb]; cbn [world xlsx]; rewrite Hts; cbn [world xlsx];
        rewrite Hsink; reflexivity.
Qed.

(** *** What a row can touch *)

Lemma write_status_other_row ws index status timestamp row col :
  row <> index + 2 ->
  cells (write_status ws index status timestamp) !! (row, col) = cells ws !! (row, col).
Proof.
  intros Hrow. unfold write_status.
  destruct (find_columns ws) as [[sc|] [tc|]]; cbn [set_cell cells];
    rewrite ?lookup_insert_ne by congruence; reflexivity.
Qed.

Lemma marks_row_eq j index status timestamp :
  marks_row j (EExcel index status timestamp) = true -> j = index.
Proof. cbn. intros Hj. by apply Nat.eqb_eq in Hj. Qed.

Lemma get_lines_no_mark g :
  Forall (fun e => forall j, marks_row j e = false) (get_lines g).
Proof. destruct g; cbn; repeat constructor. Qed.

Lemma post_lines_no_mark p :
  Forall (fun e => forall j, marks_row j e = false) (post_lines p).
Proof.
  destruct p as [|resp]; cbn; [repeat constructor|].
  repeat case_match; repeat constructor.
Qed.

Lemma no_mark_weaken index l :
  Forall (fun e => forall j, marks_row j e = false) l ->
  Forall (fun e => forall j, marks_row j e = true -> j = index) l.
Proof.
  intros Hl. eapply Forall_impl; [exact Hl|].
  intros e He j Hj. rewrite He in Hj. discriminate.
Qed.

Lemma no_token_dec g :
  no_token g \/ exists etag, g = GetReturned (Some etag) /\ etag <> "".
Proof.
  unfold no_token. destruct g as [|[e|]]; auto.
  destruct e as [|c e]; auto. right. eexists; split; [reflexivity|discriminate].
Qed.

(** Every row returns, and can only touch its own sheet row and only call
    the sink for its own index. *)
Lemma process_row_frame index r s :
  exists s' l,
    process_row base_url auth_headers index r s = (Ret tt, s', l)
    /\ (forall row col, row <> index + 2 ->
           cells (xlsx s') !! (row, col) = cells (xlsx s) !! (row, col))
    /\ Forall (fun e => forall j, marks_row j e = true -> j = index) l.
Proof.
  destruct (eligible r) eqn:Hel.
  2:{ eexists _, _. split; [by apply process_row_not_eligible|].
      split; [done|]. repeat constructor. discriminate. }
  destruct (complete r) eqn:Hco.
  2:{ eexists _, _. split; [by apply process_row_incomplete|].
      split; [done|]. repeat constructor. discriminate. }
  destruct (decide (trimmed_segments (strip (category_cell r)) = [])) as [Hseg|Hseg].
  { eexists _, _. split; [by apply process_row_no_categories|].
    split; [done|]. repeat constructor. discriminate. }
  destruct (uuid4 (world s)) as [u w1] eqn:Hu.
  destruct (requests_get (url_get base_url r) auth_headers w1) as [g w2] eqn:Hg.
  destruct (no_token_dec g) as [Hno | (etag & -> & Hetag)].
  { eexists _, _. split; [by eapply process_row_no_token|].
    split; [done|]. constructor; [discriminate|].
    apply Forall_app. split.
    - apply no_mark_weaken, get_lines_no_mark.
    - repeat constructor. discriminate. }
  destruct (requests_post (url_post base_url r) (write_headers auth_headers etag u)
              (association_body (trimmed_segments (strip (category_cell r)))) w2)
    as [p w3] eqn:Hp.
  destruct (now_stamp w3) as [ts w4] eqn:Hts.
  destruct (workbook_io w4) as [ok w5] eqn:Hio.
  eexists _, _. split; [by eapply process_row_write|].
  split.
  - intros row col Hrow. cbn [xlsx]. destruct ok; [|done].
    by apply write_status_other_row.
  - apply Forall_app; split; [repeat constructor; discriminate|].
    apply Forall_app; split; [apply no_mark_weaken, post_lines_no_mark|].
    constructor; [intros j; apply marks_row_eq|].
    repeat constructor; discriminate.
Qed.

End Orchestrator.

(** ** The update loop and the whole run *)

Section UpdateRun.
Import PyStr Eff Spec UpdateCategories.
Context {World : Type} `{Env World}.

Lemma process_rows_step base_url auth_headers index r post s s' l :
  process_row base_url auth_headers index r s = (Ret tt, s', l) ->
  process_rows base_url auth_headers index (r :: post) s
  = (let '(o, s'', l') := process_rows base_url auth_headers (S index) post s' in
     (o, s'', l ++ l')).
Proof. intros Hrow. cbn [process_rows]. unfold bind. rewrite Hrow. reflexivity. Qed.

(** The loop always runs to its end; rows [index .. index + length df - 1]
    touch only the sheet rows [index + 2 ..] that belong to them. *)
Lemma process_rows_frame base_url auth_headers df : forall index s,
  exists s' l,
    process_rows base_url auth_headers index df s = (Ret tt, s', l)
    /\ (forall row col, row < index + 2 \/ index + 2 + length df <= row ->
          cells (xlsx s') !! (row, col) = cells (xlsx s) !! (row, col))
    /\ Forall (fun e => forall j, marks_row j e = true ->
                                  index <= j < index + length df) l.
Proof.
  induction df as [|r df IH]; intros index s.
  - exists s, []. split; [reflexivity|]. split; [done|constructor].
  - destruct (process_row_frame base_url auth_headers index r s)
      as (s1 & l1 & Hrow & Hcells1 & Hmarks1).
    destruct (IH (S index) s1) as (s2 & l2 & Hrows & Hcells2 & Hmarks2).
    exists s2, (l1 ++ l2). split; [|split].
    + rewrite (process_rows_step _ _ _ _ _ _ _ _ Hrow), Hrows. reflexivity.
    + intros row col Hrow'. cbn [length] in Hrow'.
      rewrite Hcells2 by lia. apply Hcells1. lia.
    + apply Forall_app. split.
      * eapply Forall_impl; [exact Hmarks1|]. cbn [length].
        intros e He j Hj. apply He in Hj. lia.
      * eapply Forall_impl; [exact Hmarks2|]. cbn [length].
        intros e He j Hj. apply He in Hj. lia.
Qed.

(** A row that only prints is invisible in the sheet and to the sink,
    wherever it stands in the table. *)
Lemma process_rows_around base_url auth_headers r post
    (Hskip : forall index s, exists m,
        process_row base_url auth_headers index r s = (Ret tt, s, [EPrint m])) :
  forall pre index s,
  exists s' l,
    process_rows base_url auth_headers index (pre ++ r :: post) s = (Ret tt, s', l)
    /\ (forall col, cells (xlsx s') !! (index + length pre + 2, col)
                    = cells (xlsx s) !! (index + length pre + 2, col))
    /\ Forall (fun e => marks_row (index + length pre) e = false) l.
Proof.
  induction pre as [|x pre IH]; intros index s.
  - destruct (Hskip index s) as [m Hrow].
    destruct (process_rows_frame base_url auth_headers post (S index) s)
      as (s2 & l2 & Hrows & Hcells & Hmarks).
    exists s2, ([EPrint m] ++ l2). cbn [app length]. split; [|split].
    + rewrite (process_rows_step _ _ _ _ _ _ _ _ Hrow), Hrows. reflexivity.
    + intros col. apply Hcells. lia.
    + constructor; [reflexivity|].
      eapply Forall_impl; [exact Hmarks|]. intros e He.
      destruct (marks_row (index + 0) e) eqn:Hm; [|reflexivity].
      apply He in Hm. lia.
  - destruct (process_row_frame base_url auth_headers index x s)
      as (s1 & l1 & Hrow & Hcells1 & Hmarks1).
    destruct (IH (S index) s1) as (s2 & l2 & Hrows & Hcells2 & Hmarks2).
    exists s2, (l1 ++ l2). cbn [app length].
    replace (index + S (length pre)) with (S index + length pre) by lia.
    split; [|split].
    + rewrite (process_rows_step _ _ _ _ _ _ _ _ Hrow), Hrows. reflexivity.
    + intros col. rewrite Hcells2. apply Hcells1. lia.
    + apply Forall_app. split; [|exact Hmarks2].
      eapply Forall_impl; [exact Hmarks1|]. intros e He.
      destruct (marks_row (S index + length pre) e) eqn:Hm; [|reflexivity].
      apply He in Hm. lia.
Qed.

(** [main] on a readable table: it stops before the loop with a
    diagnostic, or dies in [create_auth_header], or runs the loop over the
    whole table and reports completion. *)
Lemma main_rows vars_file df s :
  (exists m, main vars_file (ExcelRows df) s = (Exit 1, s, [EPrint m]))
  \/ (exists e, main vars_file (ExcelRows df) s = (Uncaught e, s, []))
  \/ (exists base_url auth_headers s' l,
        process_rows base_url auth_headers 0 df s = (Ret tt, s', l)
        /\ main vars_file (ExcelRows df) s = (Ret tt, s', l ++ [EPrint MCompleted])).
Proof.
  unfold main, read_vars_file, create_auth_header.
  unfold bind, ret, print, emit, sys_exit, raise.
  destruct vars_file as [lines|]; [|left; eexists; reflexivity].
  cbv beta iota zeta.
  set (base_url := default "" (parse_vars lines !! "baseUrl")).
  set (username := default "" (parse_vars lines !! "username")).
  set (password := default "" (parse_vars lines !! "password")).
  destruct (all_truthy [base_url; username; password]); cbn [negb];
    [|left; eexists; reflexivity].
  destruct (is_ascii (username +:+ ":" +:+ password));
    [|right; left; eexists; reflexivity].
  right; right.
  match goal with |- context [process_rows ?b ?a 0 df] =>
    destruct (process_rows_frame b a df 0 s) as (s' & l & Hrows & _);
    exists b, a, s', l end.
  split; [exact Hrows|]. rewrite Hrows. reflexivity.
Qed.

(** The same, for a row that only prints, over a whole run. *)
Lemma run_around r
    (Hskip : forall base_url auth_headers index s, exists m,
        process_row base_url auth_headers index r s = (Ret tt, s, [EPrint m]))
    vars_file pre post w ws :
  let res := run vars_file (ExcelRows (pre ++ r :: post)) w ws in
  (forall col, cells (xlsx (final res)) !! (length pre + 2, col)
               = cells ws !! (length pre + 2, col))
  /\ Forall (fun e => marks_row (length pre) e = false) (log res).
Proof.
  unfold run.
  destruct (main_rows vars_file (pre ++ r :: post) {| world := w; xlsx := ws |})
    as [[m ->] | [[e ->] | (b & a & s' & l & Hrows & ->)]]; cbn.
  - split; [done|]. repeat constructor.
  - split; [done|]. constructor.
  - destruct (process_rows_around b a r post (Hskip b a) pre 0
                {| world := w; xlsx := ws |}) as (s2 & l2 & Hrows2 & Hcells & Hmarks).
    rewrite Hrows in Hrows2. injection Hrows2 as <- <-.
    split; [exact Hcells|].
    apply Forall_app. split; [exact Hmarks|]. repeat constructor.
Qed.

End UpdateRun.

(** ** Rows the orchestrator passes over *)

Section SkippedRows.
Import PyStr Eff Spec UpdateCategories.

Lemma exact_OK_eligible r : match_cell r = "OK" -> eligible r = true.
Proof. unfold eligible. intros ->. reflexivity. Qed.

Lemma complete_segments_strip r :
  trimmed_segments (category_cell r) = [] ->
  trimmed_segments (strip (category_cell r)) = [].
Proof. by rewrite trimmed_segments_strip. Qed.

(** C3 (as amended).  The eligibility test is [match_status.upper() == 'OK']
    on the trimmed cell.  A row that fails it makes no HTTP call and changes
    nothing: processing it leaves the world and the workbook as they were
    and only prints the skip line; over a whole run, wherever the row
    stands, its sheet row is the same at the end as at the start and the
    result sink is never called for it. *)
Theorem not_eligible_row_untouched {World : Type} `{Env World} (r : row) :
  eligible r = false ->
  (forall base_url auth_headers index (s : state World),
      process_row base_url auth_headers index r s
      = (Ret tt, s, [EPrint (MSkipNotOK (index + 1) (strip (match_cell r)))]))
  /\ (forall vars_file pre post (w : World) ws,
        let res := run vars_file (ExcelRows (pre ++ r :: post)) w ws in
        (forall col, cells (xlsx (final res)) !! (length pre + 2, col)
                     = cells ws !! (length pre + 2, col))
        /\ Forall (fun e => marks_row (length pre) e = false) (log res)).
Proof.
  intros Hel. split.
  - intros. by apply process_row_not_eligible.
  - intros. apply run_around. intros. eexists.
    by apply process_row_not_eligible.
Qed.

(** An eligible row whose category text has no non-empty trimmed segment
    (a cell holding only blanks and commas, or a sheet without the column)
    never reaches the API: processing it leaves the world and the workbook
    as they were and only prints one line, so there is neither a GET nor a
    POST; and over a whole run the result sink is never called for it.  A
    cell left empty in the sheet does not make such a row: its text is
    'nan'. *)
Lemma empty_category_list_skips_write {World : Type} `{Env World} (r : row) :
  eligible r = true ->
  trimmed_segments (category_cell r) = [] ->
  (forall base_url auth_headers index (s : state World),
      exists m, process_row base_url auth_headers index r s = (Ret tt, s, [EPrint m]))
  /\ (forall vars_file pre post (w : World) ws,
        Forall (fun e => marks_row (length pre) e = false)
               (log (run vars_file (ExcelRows (pre ++ r :: post)) w ws))).
Proof.
  intros Hel Hseg.
  assert (forall base_url auth_headers index (s : state World),
             exists m, process_row base_url auth_headers index r s
                       = (Ret tt, s, [EPrint m])) as Hskip.
  { intros. destruct (complete r) eqn:Hco.
    - eexists. apply process_row_no_categories; [done..|].
      by apply complete_segments_strip.
    - eexists. by apply process_row_incomplete. }
  split; [exact Hskip|].
  intros. by apply (run_around r Hskip).
Qed.

(** A row whose flag passes the eligibility test but whose VM name, VM
    extId or category text is empty after trimming (a cell holding only
    blanks, or a sheet without the column) is passed over silently:
    processing it leaves the world and the workbook as they were and only
    prints "Skipping row ...: Missing required data"; the loop goes on with
    the next row from the very same state; and over a whole run its sheet
    row is unchanged and the result sink is never called for it.  A cell
    left empty in the sheet does not make such a row: its text is 'nan'. *)
Lemma incomplete_row_skipped_silently {World : Type} `{Env World} (r : row) :
  eligible r = true ->
  complete r = false ->
  (forall base_url auth_headers index (s : state World),
      process_row base_url auth_headers index r s
      = (Ret tt, s, [EPrint (MSkipMissingData (index + 1))]))
  /\ (forall base_url auth_headers index post (s : state World),
        process_rows base_url auth_headers index (r :: post) s
        = (let '(o, s', l) := process_rows base_url auth_headers (S index) post s in
           (o, s', EPrint (MSkipMissingData (index + 1)) :: l)))
  /\ (forall vars_file pre post (w : World) ws,
        let res := run vars_file (ExcelRows (pre ++ r :: post)) w ws in
        (forall col, cells (xlsx (final res)) !! (length pre + 2, col)
                     = cells ws !! (length pre + 2, col))
        /\ Forall (fun e => marks_row (length pre) e = false) (log res)).
Proof.
  intros Hel Hco. split; [|split].
  - intros. by apply process_row_incomplete.
  - intros. erewrite process_rows_step by (by apply process_row_incomplete).
    reflexivity.
  - intros. apply run_around. intros. eexists. by apply process_row_incomplete.
Qed.

(** C2 (as amended).  An eligible, complete row with at least one category
    whose read step yields no version token (the GET raised, or answered
    without an ETag or with an empty one): exactly one GET is made, no POST
    follows, the result sink is NOT called (the row is not marked, the
    script only prints "Failed to get ETag ..., skipping..."), the workbook
    is unchanged, and the loop goes on with the next row. *)
Theorem missing_token_skips_write_unmarked {World : Type} `{Env World}
    base_url auth_headers index (r : row) post (s : state World) u w1 g w2 :
  eligible r = true ->
  complete r = true ->
  trimmed_segments (category_cell r) <> [] ->
  uuid4 (world s) = (u, w1) ->
  requests_get (url_get base_url r) auth_headers w1 = (g, w2) ->
  no_token g ->
  let l := EGet (url_get base_url r) auth_headers
             :: get_lines g ++ [EPrint (MFailedEtag (strip (vm_name_cell r)))] in
  process_row base_url auth_headers index r s
    = (Ret tt, {| world := w2; xlsx := xlsx s |}, l)
  /\ Forall (fun e => is_post e = false /\ forall j, marks_row j e = false) l
  /\ process_rows base_url auth_headers index (r :: post) s
     = (let '(o, s', l') :=
          process_rows base_url auth_headers (S index) post
                       {| world := w2; xlsx := xlsx s |} in
        (o, s', l ++ l')).
Proof.
  intros Hel Hco Hseg Hu Hg Hno l.
  assert (process_row base_url auth_headers index r s
          = (Ret tt, {| world := w2; xlsx := xlsx s |}, l)) as Hrow.
  { eapply process_row_no_token; try done. by rewrite trimmed_segments_strip. }
  split; [exact Hrow|]. split.
  - subst l. constructor; [split; [reflexivity|intros; reflexivity]|].
    apply Forall_app. split.
    + destruct g; cbn; repeat constructor.
    + repeat constructor.
  - by apply process_rows_step.
Qed.

End SkippedRows.

(** ** Outcomes of the write step, and runs on concrete tables *)

Section WriteOutcome.
Import PyStr Eff Spec UpdateCategories Scripted.

Lemma status_written_202 resp :
  status_code resp = 202%N -> status_written (PostReturned resp) = "ACCEPTED".
Proof. cbn. intros ->. reflexivity. Qed.

(** Statuses outside 400..599 other than 202 are written with their
    number. *)
Lemma status_written_other resp :
  status_code resp <> 202%N ->
  ((status_code resp < 400)%N \/ (600 <= status_code resp)%N) ->
  status_written (PostReturned resp)
  = "FAILED (" +:+ str_of_N (status_code resp) +:+ ")".
Proof.
  intros H202 Hrange. cbn [status_written].
  destruct (N.eqb_spec (status_code resp) 202); [done|].
  destruct (N.leb_spec 400 (status_code resp));
    destruct (N.ltb_spec (status_code resp) 600); cbn; try reflexivity; lia.
Qed.

(** On 4xx and 5xx the response object is falsy, and the number is lost. *)
Lemma status_written_error resp :
  (400 <= status_code resp < 600)%N ->
  status_written (PostReturned resp) = "FAILED (N/A)".
Proof.
  intros [Hlo Hhi]. cbn [status_written].
  destruct (N.eqb_spec (status_code resp) 202); [lia|].
  destruct (N.leb_spec 400 (status_code resp)); [|lia].
  destruct (N.ltb_spec (status_code resp) 600); [|lia]. reflexivity.
Qed.

(** The example of the specification: row 1 accepted, row 2 not touched. *)
Example round_trip :
  let res := run (Some vars_txt) (ExcelRows table)
                 (answers [GetReturned (Some "W/abc")]
                          [PostReturned {| status_code := 202; resp_etag := None |}])
                 sheet in
  result res = Ret tt
  /\ requests (log res)
     = [("GET", "https://10.0.0.1:9440/api/vmm/v4.1/ahv/config/vms/id1");
        ("POST", "https://10.0.0.1:9440/api/vmm/v4.1/ahv/config/vms/id1/$actions/associate-categories")]
  /\ sink_calls (log res) = [(0, "ACCEPTED", "04112025-0930")]
  /\ cell_text (xlsx (final res)) 2 5 = Some "ACCEPTED"
  /\ cell_text (xlsx (final res)) 2 6 = Some "04112025-0930"
  /\ cell_text (xlsx (final res)) 3 5 = None
  /\ cell_text (xlsx (final res)) 3 6 = None.
Proof. vm_compute. repeat split. Qed.

(** C1 (the code departs from it).  A write answered 412 Precondition
    Failed, the status a stale token gives: the sink is called with
    "FAILED (N/A)" and that is what lands in the sheet, although a response
    was received and its status code is 412. *)
Theorem write_412_marked_without_code :
  sink_calls
    (log (run (Some vars_txt) (ExcelRows [row_of "OK" "vm1" "id1" "c1,c2"])
              (answers [GetReturned (Some "W/abc")]
                       [PostReturned {| status_code := 412; resp_etag := None |}])
              sheet))
  = [(0, "FAILED (N/A)", "04112025-0930")]
  /\ cell_text
       (xlsx (final (run (Some vars_txt)
                         (ExcelRows [row_of "OK" "vm1" "id1" "c1,c2"])
                         (answers [GetReturned (Some "W/abc")]
                                  [PostReturned {| status_code := 412;
                                                   resp_etag := None |}])
                         sheet))) 2 5
     = Some "FAILED (N/A)"
  /\ "FAILED (N/A)" <> "FAILED (" +:+ str_of_N 412 +:+ ")".
Proof. vm_compute. repeat split. discriminate. Qed.

(** A cell the sheet leaves empty passes the "Missing required data" test:
    [str] makes 'nan' of it, which is neither empty nor blank. *)
Remark empty_cell_taken_for_filled (r : row) :
  col_vm_name r = Some NaN -> col_vm_extid r = Some NaN ->
  col_categories r = Some NaN ->
  complete r = true /\ trimmed_segments (category_cell r) = ["nan"].
Proof.
  unfold complete, vm_name_cell, vm_extid_cell, category_cell.
  intros -> -> ->. split; reflexivity.
Qed.

(** C4 (the code departs from it).  An eligible row whose category cell
    is empty in the sheet.  [pd.read_excel] gives NaN for the cell and
    [str] turns it into 'nan', so the list the code parses is not empty: the
    row is read, written with the one category 'nan', and, the write being
    answered 202, marked ACCEPTED. *)
Theorem empty_category_cell_is_written :
  let r := row_cells (Value "OK") (Value "vm1") (Value "id1") NaN in
  let res := run (Some vars_txt) (ExcelRows [r])
                 (answers [GetReturned (Some "W/abc")]
                          [PostReturned {| status_code := 202; resp_etag := None |}])
                 sheet in
  col_categories r = Some NaN
  /\ requests (log res)
     = [("GET", "https://10.0.0.1:9440/api/vmm/v4.1/ahv/config/vms/id1");
        ("POST", "https://10.0.0.1:9440/api/vmm/v4.1/ahv/config/vms/id1/$actions/associate-categories")]
  /\ omap (fun e => match e with EPost _ _ body => Some body | _ => None end) (log res)
     = [association_body ["nan"]]
  /\ (EPrint (MNoValidUuids "vm1") ∉ log res)
  /\ sink_calls (log res) = [(0, "ACCEPTED", "04112025-0930")]
  /\ cell_text (xlsx (final res)) 2 5 = Some "ACCEPTED".
Proof.
  repeat apply conj; try (vm_compute; reflexivity).
  vm_compute. intros Hin.
  repeat (apply elem_of_cons in Hin as [Hin|Hin]; [discriminate|]).
  by apply elem_of_nil in Hin.
Qed.

(** C10 (the code departs from it).  An eligible row whose VM extId cell
    is empty in the sheet.  The cell reaches the loop as the text 'nan', the
    "Missing required data" check lets it through, and the row is read and
    written at .../vms/nan and marked; likewise a row whose VM name cell is
    empty is read and written under its extId. *)
Theorem empty_cell_row_is_contacted :
  let r := row_cells (Value "OK") (Value "vm3") NaN (Value "c1") in
  let res := run (Some vars_txt) (ExcelRows [r])
                 (answers [GetReturned (Some "W/abc")]
                          [PostReturned {| status_code := 202; resp_etag := None |}])
                 sheet in
  let r' := row_cells (Value "OK") NaN (Value "id4") (Value "c1") in
  let res' := run (Some vars_txt) (ExcelRows [r'])
                  (answers [GetReturned (Some "W/abc")]
                           [PostReturned {| status_code := 202; resp_etag := None |}])
                  sheet in
  col_vm_extid r = Some NaN
  /\ complete r = true
  /\ (EPrint (MSkipMissingData 1) ∉ log res)
  /\ requests (log res)
     = [("GET", "https://10.0.0.1:9440/api/vmm/v4.1/ahv/config/vms/nan");
        ("POST", "https://10.0.0.1:9440/api/vmm/v4.1/ahv/config/vms/nan/$actions/associate-categories")]
  /\ sink_calls (log res) = [(0, "ACCEPTED", "04112025-0930")]
  /\ cell_text (xlsx (final res)) 2 5 = Some "ACCEPTED"
  /\ col_vm_name r' = Some NaN
  /\ requests (log res')
     = [("GET", "https://10.0.0.1:9440/api/vmm/v4.1/ahv/config/vms/id4");
        ("POST", "https://10.0.0.1:9440/api/vmm/v4.1/ahv/config/vms/id4/$actions/associate-categories")]
  /\ sink_calls (log res') = [(0, "ACCEPTED", "04112025-0930")].
Proof.
  repeat apply conj; try (vm_compute; reflexivity).
  vm_compute. intros Hin.
  repeat (apply elem_of_cons in Hin as [Hin|Hin]; [discriminate|]).
  by apply elem_of_nil in Hin.
Qed.

Example write_200_marked_with_code :
  sink_calls
    (log (run (Some vars_txt) (ExcelRows [row_of "OK" "vm1" "id1" "c1,c2"])
              (answers [GetReturned (Some "W/abc")]
                       [PostReturned {| status_code := 200; resp_etag := None |}])
              sheet))
  = [(0, "FAILED (200)", "04112025-0930")].
Proof. vm_compute. reflexivity. Qed.

Example write_raised_marked_NA :
  sink_calls
    (log (run (Some vars_txt) (ExcelRows [row_of "OK" "vm1" "id1" "c1,c2"])
              (answers [GetReturned (Some "W/abc")] [PostRaised]) sheet))
  = [(0, "FAILED (N/A)", "04112025-0930")].
Proof. vm_compute. reflexivity. Qed.

(** Against C2 as stated: the read of row 0 comes back without an ETag;
    the row is not marked FAILED, the sink is not called at all, and the
    next row is processed. *)
Lemma missing_token_row_is_not_marked :
  ~ marked_failed 0
      (log (run (Some vars_txt)
                (ExcelRows [row_of "OK" "vm1" "id1" "c1"; row_of "OK" "vm2" "id2" "c2"])
                (answers [GetReturned None; GetReturned (Some "W/abc")]
                         [PostReturned {| status_code := 202; resp_etag := None |}])
                sheet)).
Proof.
  intros (code & timestamp & Hin). vm_compute in Hin.
  repeat (apply elem_of_cons in Hin as [Hin|Hin]; [discriminate|]).
  by apply elem_of_nil in Hin.
Qed.

(** Against C3 as stated: the flag "ok" is not exactly 'OK', yet the row is
    read, written and marked. *)
Lemma lowercase_flag_row_is_contacted :
  match_cell (row_of "ok" "vm1" "id1" "c1") <> "OK"
  /\ requests
       (log (run (Some vars_txt) (ExcelRows [row_of "ok" "vm1" "id1" "c1"])
                 (answers [GetReturned (Some "W/abc")]
                          [PostReturned {| status_code := 202; resp_etag := None |}])
                 sheet))
     = [("GET", "https://10.0.0.1:9440/api/vmm/v4.1/ahv/config/vms/id1");
        ("POST", "https://10.0.0.1:9440/api/vmm/v4.1/ahv/config/vms/id1/$actions/associate-categories")]
  /\ sink_calls
       (log (run (Some vars_txt) (ExcelRows [row_of "ok" "vm1" "id1" "c1"])
                 (answers [GetReturned (Some "W/abc")]
                          [PostReturned {| status_code := 202; resp_etag := None |}])
                 sheet))
     = [(0, "ACCEPTED", "04112025-0930")].
Proof. split; [discriminate|]. vm_compute. split; reflexivity. Qed.

End WriteOutcome.

(** ** The provisioning workflow *)

Section MonadLaws.
Import Eff.
Context {S E : Type}.

Lemma bind_assoc {A B C} (m : M S E A) (f : A -> M S E B) (g : B -> M S E C) s :
  bind (bind m f) g s = bind m (fun a => bind (f a) g) s.
Proof.
  unfold bind. destruct (m s) as [[[a|c|e] s1] l1]; [|reflexivity..].
  destruct (f a s1) as [[[b|c|e] s2] l2]; [|reflexivity..].
  destruct (g b s2) as [[o s3] l3]. by rewrite app_assoc.
Qed.

Lemma bind_ext {A B} (m : M S E A) (k k' : A -> M S E B) s :
  (forall a s', k a s' = k' a s') -> bind m k s = bind m k' s.
Proof.
  intros Hk. unfold bind. destruct (m s) as [[[a|c|e] s1] l1]; [|reflexivity..].
  by rewrite Hk.
Qed.

Lemma bind_ret_l {A B} (a : A) (k : A -> M S E B) s : bind (ret a) k s = k a s.
Proof. unfold bind, ret. by destruct (k a s) as [[o s1] l1]. Qed.

End MonadLaws.

Section DeployMain.
Import PyStr Eff DeployVm DeployPhases.
Context {World : Type} `{Env World}.

Lemma main_phased cfg cli vm_name vars_file (s : state World) :
  main cfg (Parsed cli) vm_name vars_file s = phased cfg cli vm_name vars_file s.
Proof.
  unfold main, phased, safety_check, prepare, connect. cbv zeta.
  replace (if has_cli cfg then parse_args (Parsed cli) else ret no_args)
    with (ret (S := state World) (E := event) (if has_cli cfg then cli else no_args))
    by by destruct (has_cli cfg).
  rewrite bind_ret_l.
  rewrite bind_assoc. apply bind_ext. intros _ s1.
  apply bind_ext. intros _ s2.
  rewrite !bind_assoc. apply bind_ext. intros config s3.
  rewrite !bind_assoc. apply bind_ext. intros _ s4.
  rewrite bind_ret_l. cbn [fst snd]. unfold choose_image, choose_network.
  rewrite bind_assoc.
  apply bind_ext. intros selected_image s5.
  rewrite bind_assoc.
  apply bind_ext. intros selected_network s6.
  rewrite bind_ret_l. reflexivity.
Qed.

(** [main] from the command line on: [argparse] may end the experimental
    script before anything else happens; the scratch script has no command
    line. *)
Lemma main_cases cfg argv vm_name vars_file (s : state World) :
  main cfg argv vm_name vars_file s
  = match (if has_cli cfg then argv else Parsed no_args) with
    | HelpRequested => (Exit 0, s, [])
    | UsageError => (Exit 2, s, [])
    | Parsed cli => phased cfg cli vm_name vars_file s
    end.
Proof.
  destruct (has_cli cfg) eqn:Hcli.
  - destruct argv as [| |cli]; [unfold main; by rewrite Hcli..|apply main_phased].
  - rewrite <- main_phased. unfold main. by rewrite Hcli.
Qed.

(** *** Computations that neither POST nor print a dry-run payload *)

Local Abbreviation quiet := (DeployPhases.quiet (World := World)).

Lemma quiet_ret {A} (a : A) : quiet (ret a).
Proof. intros s. constructor. Qed.

Lemma quiet_sys_exit {A} c : quiet (sys_exit (A := A) c).
Proof. intros s. constructor. Qed.

Lemma quiet_raise {A} e : quiet (raise (A := A) e).
Proof. intros s. constructor. Qed.

Lemma quiet_emit e : harmless e -> quiet (emit e).
Proof. intros He s. constructor; [exact He|constructor]. Qed.

Lemma quiet_print m : dry_printed (EPrint m) = None -> quiet (print m).
Proof. intros Hm. apply quiet_emit. by split. Qed.

Lemma quiet_ask {A} (f : World -> A * World) : quiet (ask f).
Proof. intros s. unfold ask. destruct (f (world s)). constructor. Qed.

Lemma quiet_bind {A B} (m : M (state World) event A) (k : A -> M (state World) event B) :
  quiet m -> (forall a, quiet (k a)) -> quiet (bind m k).
Proof.
  intros Hm Hk s. specialize (Hm s). unfold bind.
  destruct (m s) as [[[a|c|e] s1] l1]; cbn in *; try done.
  specialize (Hk a s1). destruct (k a s1) as [[o s2] l2]. cbn in *.
  by apply Forall_app.
Qed.

Lemma quiet_try_except_all {A} (m h : M (state World) event A) :
  quiet m -> quiet h -> quiet (try_except_all m h).
Proof.
  intros Hm Hh s. specialize (Hm s). unfold try_except_all.
  destruct (m s) as [[[a|c|e] s1] l1]; cbn in *; try done;
    specialize (Hh s1); destruct (h s1) as [[o s2] l2]; cbn in *;
    by apply Forall_app.
Qed.

Lemma quiet_input : quiet input.
Proof. intros s. unfold input. destruct (stdin s); by repeat constructor. Qed.

Lemma select_loop_harmless {E} (items : list (item E)) lines :
  Forall harmless (select_loop items lines).2.
Proof.
  induction lines as [|line rest IH]; cbn [select_loop].
  - by repeat constructor.
  - repeat case_match; cbn; try (by repeat constructor).
    all: destruct (select_loop items rest) as [[o r] evs]; cbn in *;
      by repeat constructor.
Qed.

Lemma quiet_select_from_list {E} (items : list (item E)) : quiet (select_from_list items).
Proof.
  destruct items as [|i items].
  - apply quiet_bind; [by apply quiet_print|intros; apply quiet_ret].
  - intros s. unfold select_from_list.
    pose proof (select_loop_harmless (i :: items) (stdin s)) as Hl.
    destruct (select_loop (i :: items) (stdin s)) as [[[a|c|e] r] evs]; exact Hl.
Qed.

Lemma quiet_get {A} url hdrs (exchange : World -> api_outcome A * World) :
  quiet (make_api_request GET url hdrs None exchange).
Proof.
  unfold make_api_request.
  apply quiet_bind; [by apply quiet_emit|intros _].
  apply quiet_bind; [apply quiet_ask|intros [|d]].
  - apply quiet_bind; [by apply quiet_print|intros; apply quiet_sys_exit].
  - apply quiet_ret.
Qed.

Ltac quiet_tac :=
  repeat first
    [ apply quiet_ret | apply quiet_sys_exit | apply quiet_raise
    | apply quiet_get | apply quiet_ask | apply quiet_input
    | apply quiet_select_from_list
    | apply quiet_print; reflexivity
    | apply quiet_bind; [|intros ?]
    | apply quiet_try_except_all
    | case_match ].

Lemma quiet_find_image_by_name base_url hdrs wanted :
  quiet (find_image_by_name base_url hdrs wanted).
Proof. unfold find_image_by_name. quiet_tac. Qed.

Lemma quiet_find_network_by_name base_url hdrs wanted :
  quiet (find_network_by_name base_url hdrs wanted).
Proof. unfold find_network_by_name. quiet_tac. Qed.

Lemma quiet_prepare wanted_image wanted_subnet vars_file :
  quiet (prepare wanted_image wanted_subnet vars_file).
Proof.
  unfold prepare, connect, choose_image, choose_network, read_vars_file,
    list_images, list_networks.
  quiet_tac; try apply quiet_find_image_by_name;
    try apply quiet_find_network_by_name; quiet_tac.
Qed.


Lemma posted_harmless e : harmless e -> posted e = None.
Proof. intros [Hp _]. destruct e as [[] ? ? ?| |]; cbn in *; done. Qed.

Lemma harmless_log l :
  Forall harmless l ->
  omap posted l = [] /\ omap dry_printed l = []
  /\ Forall (fun e => is_post e = false) l.
Proof.
  induction 1 as [|e l He Hl (IH1 & IH2 & IH3)]; [by repeat split|].
  cbn. rewrite (posted_harmless e He), IH1, (proj2 He), IH2.
  repeat split. constructor; [exact (proj1 He)|exact IH3].
Qed.

Lemma safety_check_run cfg cli (s : state World) :
  safety_check cfg cli s
  = if has_cli cfg && negb (do_it cli) && negb (ALLOW_EXECUTION_WITHOUT_DOIT cfg)
    then (Exit 1, s, [EPrint MSafetyCheck])
    else (Ret tt, s, if dry_run cli then [EPrint MDryRunBanner] else []).
Proof.
  unfold safety_check.
  destruct (has_cli cfg && negb (do_it cli) && negb (ALLOW_EXECUTION_WITHOUT_DOIT cfg));
    [reflexivity|].
  destruct (dry_run cli); reflexivity.
Qed.

Lemma finish_dry cfg vm_name sel (s : state World) :
  finish cfg true vm_name sel s
  = (Exit 0, s,
     [EPrint (MSummary vm_name (name (sel_image sel)) (name (sel_network sel)));
      EPrint (MDryRunPayload
                (create_vm_payload cfg vm_name (sel_image sel) (sel_network sel)));
      EPrint MDryRunDone]).
Proof. reflexivity. Qed.

(** Without [--dry-run] the last phase sends at most one POST, and its
    body is the payload built from the selection. *)
Lemma finish_wet cfg vm_name sel (s : state World) :
  omap posted (log (finish cfg false vm_name sel s)) = []
  \/ omap posted (log (finish cfg false vm_name sel s))
     = [create_vm_payload cfg vm_name (sel_image sel) (sel_network sel)].
Proof.
  unfold finish, deploy_vm, make_api_request, try_except_Exception, input.
  unfold bind, print, emit, ask, ret, sys_exit, log.
  repeat (case_match; simplify_eq; cbn); auto.
Qed.


Lemma phased_run cfg cli vm_name vars_file (s : state World) :
  has_cli cfg = true ->
  phased cfg cli vm_name vars_file s
  = if negb (do_it cli) && negb (ALLOW_EXECUTION_WITHOUT_DOIT cfg)
    then (Exit 1, s, [EPrint MSafetyCheck])
    else
      let banner := if dry_run cli then [EPrint MDryRunBanner] else [] in
      match prepare (image_name cli) (subnet cli) vars_file s with
      | (Ret sel, s1, l1) =>
          let '(o, s2, l2) := finish cfg (dry_run cli) vm_name sel s1 in
          (o, s2, banner ++ l1 ++ l2)
      | (Exit c, s1, l1) => (Exit c, s1, banner ++ l1)
      | (Uncaught e, s1, l1) => (Uncaught e, s1, banner ++ l1)
      end.
Proof.
  intros Hcli. unfold phased. rewrite Hcli. unfold bind at 1.
  rewrite safety_check_run, Hcli. cbn [andb].
  destruct (negb (do_it cli) && negb (ALLOW_EXECUTION_WITHOUT_DOIT cfg));
    [reflexivity|].
  unfold bind.
  destruct (prepare (image_name cli) (subnet cli) vars_file s)
    as [[[sel|c|e] s1] l1]; try reflexivity.
  by destruct (finish cfg (dry_run cli) vm_name sel s1) as [[o s2] l2].
Qed.

(** *** A run reads standard input from the front only *)

Local Abbreviation reads_prefix := (DeployPhases.reads_prefix (World := World)).

Lemma reads_prefix_ret {A} (a : A) : reads_prefix (ret a).
Proof. intros s a' s1 l [= <- <- <-]. by exists []. Qed.

Lemma reads_prefix_sys_exit {A} c : reads_prefix (sys_exit (A := A) c).
Proof. intros s a s1 l [=]. Qed.

Lemma reads_prefix_raise {A} e : reads_prefix (raise (A := A) e).
Proof. intros s a s1 l [=]. Qed.

Lemma reads_prefix_emit e : reads_prefix (emit e).
Proof. intros s a' s1 l [= <- <- <-]. by exists []. Qed.

Lemma reads_prefix_print m : reads_prefix (print m).
Proof. apply reads_prefix_emit. Qed.

Lemma reads_prefix_ask {A} (f : World -> A * World) : reads_prefix (ask f).
Proof.
  intros s a s1 l. unfold ask. destruct (f (world s)) as [a' w'] eqn:Hf.
  intros [= <- <- <-]. exists []. split; [reflexivity|].
  intros rest. cbn. by rewrite Hf.
Qed.

Lemma reads_prefix_input : reads_prefix input.
Proof.
  intros s a s1 l. unfold input. destruct (stdin s) as [|line rest0] eqn:Hs; [done|].
  intros [= <- <- <-]. exists [line]. split; [reflexivity|]. by intros rest.
Qed.

Lemma reads_prefix_bind {A B} (m : M (state World) event A)
    (k : A -> M (state World) event B) :
  reads_prefix m -> (forall a, reads_prefix (k a)) -> reads_prefix (bind m k).
Proof.
  intros Hm Hk s b s2 l. unfold bind.
  destruct (m s) as [[[a|c|e] s1] l1] eqn:Hms; [|done..].
  destruct (k a s1) as [[o s2'] l2] eqn:Hks. intros [= -> -> <-].
  destruct (Hm s a s1 l1 Hms) as (c1 & Hc1 & Hre1).
  destruct (Hk a s1 b s2 l2 Hks) as (c2 & Hc2 & Hre2).
  exists (c1 ++ c2). split; [by rewrite Hc1, Hc2, app_assoc|].
  intros rest. rewrite <- app_assoc, Hre1, Hre2. reflexivity.
Qed.

Lemma reads_prefix_try_except_all {A} (m h : M (state World) event A) :
  reads_prefix m -> (forall s a, result (h s) <> Ret a) ->
  reads_prefix (try_except_all m h).
Proof.
  intros Hm Hh s a s1 l. unfold try_except_all.
  destruct (m s) as [[[a'|c|e] s1'] l1] eqn:Hms.
  - intros [= <- <- <-]. destruct (Hm s a' s1' l1 Hms) as (c1 & Hc1 & Hre1).
    exists c1. split; [exact Hc1|]. intros rest. by rewrite Hre1.
  - pose proof (Hh s1' a) as Hno. destruct (h s1') as [[o s2] l2].
    intros [= -> _ _]. by destruct Hno.
  - pose proof (Hh s1' a) as Hno. destruct (h s1') as [[o s2] l2].
    intros [= -> _ _]. by destruct Hno.
Qed.

Lemma select_loop_replay {E} (items : list (item E)) lines selected rest evs :
  select_loop items lines = (Ret selected, rest, evs) ->
  exists consumed,
    lines = consumed ++ rest
    /\ forall rest', select_loop items (consumed ++ rest') = (Ret selected, rest', evs).
Proof.
  revert evs. induction lines as [|line rest0 IH]; intros evs; cbn [select_loop]; [intros [=]|].
  destruct (bool_decide (lower (strip line) ∈ ["q"; "quit"; "exit"])) eqn:Hq;
    [intros [=]|].
  destruct (py_int (strip line)) as [index|] eqn:Hint.
  - destruct ((0 <=? index)%Z && (index <? Z.of_nat (length items))%Z) eqn:Hrange.
    + destruct (items !! Z.to_nat index) as [sel|] eqn:Hsel; [|intros [=]].
      intros [= <- <- <-]. exists [line]. split; [reflexivity|].
      intros rest'. cbn [app select_loop]. by rewrite Hq, Hint, Hrange, Hsel.
    + destruct (select_loop items rest0) as [[o r] evs0] eqn:Hrec.
      intros [= -> -> <-]. destruct (IH evs0 eq_refl) as (c & -> & Hre).
      exists (line :: c). split; [reflexivity|].
      intros rest'. cbn [app select_loop]. by rewrite Hq, Hint, Hrange, Hre.
  - destruct (select_loop items rest0) as [[o r] evs0] eqn:Hrec.
    intros [= -> -> <-]. destruct (IH evs0 eq_refl) as (c & -> & Hre).
    exists (line :: c). split; [reflexivity|].
    intros rest'. cbn [app select_loop]. by rewrite Hq, Hint, Hre.
Qed.

Lemma reads_prefix_select_from_list {E} (items : list (item E)) :
  reads_prefix (select_from_list items).
Proof.
  destruct items as [|i items].
  - apply reads_prefix_bind; [apply reads_prefix_print|intros; apply reads_prefix_ret].
  - intros s a s1 l. unfold select_from_list.
    destruct (select_loop (i :: items) (stdin s)) as [[[sel|c|e] r] evs] eqn:Hloop; [|done..].
    intros [= <- <- <-]. destruct (select_loop_replay _ _ _ _ _ Hloop) as (c & Hc & Hre).
    exists c. split; [exact Hc|]. intros rest. cbn [stdin world]. by rewrite Hre.
Qed.

Lemma reads_prefix_api {A} method url hdrs data (exchange : World -> api_outcome A * World) :
  reads_prefix (make_api_request method url hdrs data exchange).
Proof.
  unfold make_api_request.
  apply reads_prefix_bind; [apply reads_prefix_emit|intros _].
  apply reads_prefix_bind; [apply reads_prefix_ask|intros [|d]].
  - apply reads_prefix_bind; [apply reads_prefix_print|intros; apply reads_prefix_sys_exit].
  - apply reads_prefix_ret.
Qed.

Ltac replay_tac :=
  repeat first
    [ apply reads_prefix_ret | apply reads_prefix_sys_exit | apply reads_prefix_raise
    | apply reads_prefix_api | apply reads_prefix_ask | apply reads_prefix_input
    | apply reads_prefix_select_from_list
    | apply reads_prefix_print
    | apply reads_prefix_bind; [|intros ?]
    | case_match ].

Lemma reads_prefix_prepare wanted_image wanted_subnet vars_file :
  reads_prefix (prepare wanted_image wanted_subnet vars_file).
Proof.
  unfold prepare, connect, choose_image, choose_network, read_vars_file,
    find_image_by_name, find_network_by_name, list_images, list_networks.
  replay_tac.
  all: try (apply reads_prefix_try_except_all; [replay_tac|]).
  all: replay_tac.
  all: intros s0 a0; unfold bind, print, emit, sys_exit; cbn; done.
Qed.


Lemma finish_wet_answer cfg vm_name sel (s : state World) answer more :
  stdin s = answer :: more ->
  omap posted (log (finish cfg false vm_name sel s))
  = if DeployObs.confirms answer
    then [create_vm_payload cfg vm_name (sel_image sel) (sel_network sel)]
    else [].
Proof.
  intros Hin. unfold finish, input, DeployObs.confirms.
  unfold bind at 1. unfold print, emit. cbv beta iota.
  unfold bind at 1. rewrite Hin. cbv beta iota.
  destruct (bool_decide (lower (strip answer) ∈ ["y"; "yes"])); cbn [negb].
  - unfold deploy_vm, make_api_request, try_except_Exception.
    unfold bind, print, emit, ask, ret, sys_exit, log. cbn [world stdin].
    repeat (case_match; simplify_eq; cbn); auto.
  - reflexivity.
Qed.



(** *** Selection by name *)

Lemma find_first_some {A} (f : A -> bool) (l : list A) x :
  List.find f l = Some x ->
  f x = true
  /\ exists before after, l = before ++ x :: after /\ Forall (fun y => f y = false) before.
Proof.
  induction l as [|y l IH]; [done|]. cbn [List.find].
  destruct (f y) eqn:Hy.
  - intros [= <-]. split; [exact Hy|]. by exists [], l.
  - intros Hfind. destruct (IH Hfind) as (Hx & before & after & -> & Hbefore).
    split; [exact Hx|]. exists (y :: before), after. split; [reflexivity|].
    by constructor.
Qed.

Lemma find_by_name_exact {E} (get_name : E -> option string) entries wanted e0 :
  wanted <> "" -> e0 ∈ entries -> get_name e0 = Some wanted ->
  exists e, find_by_name get_name entries wanted = Some (true, e)
            /\ get_name e = Some wanted
            /\ exists before after,
                 entries = before ++ e :: after
                 /\ Forall (fun e' => get_name e' <> Some wanted) before.
Proof.
  intros Hne Hin Hname. unfold find_by_name.
  destruct (List.find (fun e => String.eqb (default "" (get_name e)) wanted) entries)
    as [e|] eqn:Hfind.
  - apply find_first_some in Hfind as (Heq & before & after & -> & Hbefore).
    apply String.eqb_eq in Heq.
    exists e. split; [reflexivity|]. split.
    { destruct (get_name e) as [n|]; cbn in Heq; congruence. }
    exists before, after. split; [reflexivity|].
    eapply Forall_impl; [exact Hbefore|]. cbv beta. intros e' He' Hn.
    rewrite Hn in He'. cbn in He'. by rewrite String.eqb_refl in He'.
  - apply list_elem_of_In in Hin.
    pose proof (List.find_none _ _ Hfind e0 Hin) as Hfalse.
    cbv beta in Hfalse. rewrite Hname in Hfalse. cbn in Hfalse.
    by rewrite String.eqb_refl in Hfalse.
Qed.

(** C9.  When the inventory holds an entry named exactly as requested, the
    lookup by name answers with the item of an entry of exactly that name,
    found by the first (exact) search loop, whatever other entries match up
    to case and wherever they stand in the list: the item carries the
    requested name, the type and extId of that entry ("Unknown" for a
    missing one) and the entry itself as its data, and the entry is the
    first of the inventory with that exact name.  If only one entry has the
    exact name, it is the one returned.  The same holds for images and for
    subnets. *)
Theorem exact_name_takes_precedence base_url hdrs wanted (s : state World) w' :
  wanted <> "" ->
  (forall entries e0,
      e0 ∈ entries -> img_name e0 = Some wanted ->
      get_images (base_url +:+ "/vmm/v4.1/content/images") hdrs (world s)
        = (ApiData (Some entries), w') ->
      exists e,
        find_image_by_name base_url hdrs wanted s
        = (Ret (Some {| name := wanted;
                        type_ := default "Unknown" (img_type e);
                        ext_id := default "Unknown" (img_extId e);
                        data := e |}),
           {| world := w'; stdin := stdin s |},
           [ERequest GET (base_url +:+ "/vmm/v4.1/content/images") hdrs None;
            EPrint (MFoundExact wanted)])
        /\ img_name e = Some wanted
        /\ (exists before after,
              entries = before ++ e :: after
              /\ Forall (fun e' => img_name e' <> Some wanted) before)
        /\ ((forall e', e' ∈ entries -> img_name e' = Some wanted -> e' = e0) -> e = e0))
  /\ (forall entries e0,
        e0 ∈ entries -> net_name e0 = Some wanted ->
        get_subnets (base_url +:+ "/networking/v4.1/config/subnets") hdrs (world s)
          = (ApiData (Some entries), w') ->
        exists e,
          find_network_by_name base_url hdrs wanted s
          = (Ret (Some {| name := wanted;
                          type_ := default "Unknown" (net_subnetType e);
                          ext_id := default "Unknown" (net_extId e);
                          data := e |}),
             {| world := w'; stdin := stdin s |},
             [ERequest GET (base_url +:+ "/networking/v4.1/config/subnets") hdrs None;
              EPrint (MFoundExact wanted)])
          /\ net_name e = Some wanted
          /\ (exists before after,
                entries = before ++ e :: after
                /\ Forall (fun e' => net_name e' <> Some wanted) before)
          /\ ((forall e', e' ∈ entries -> net_name e' = Some wanted -> e' = e0) -> e = e0)).
Proof.
  intros Hne. split; intros entries e0 Hin Hname Hget.
  - destruct (find_by_name_exact img_name entries wanted e0 Hne Hin Hname)
      as (e & Hfind & Hnamee & Hfirst).
    exists e. split; [|split; [exact Hnamee|split; [exact Hfirst|]]].
    + unfold find_image_by_name, make_api_request.
      unfold bind, emit, ask, ret, print. cbn [world stdin]. rewrite Hget.
      cbn. destruct entries as [|x xs]; [by apply elem_of_nil in Hin|].
      rewrite Hfind, Hnamee. unfold image_item. rewrite Hnamee. reflexivity.
    + intros Huniq. apply Huniq; [|exact Hnamee].
      destruct Hfirst as (before & after & -> & _).
      apply elem_of_app. right. apply elem_of_cons. by left.
  - destruct (find_by_name_exact net_name entries wanted e0 Hne Hin Hname)
      as (e & Hfind & Hnamee & Hfirst).
    exists e. split; [|split; [exact Hnamee|split; [exact Hfirst|]]].
    + unfold find_network_by_name, make_api_request.
      unfold bind, emit, ask, ret, print. cbn [world stdin]. rewrite Hget.
      cbn. destruct entries as [|x xs]; [by apply elem_of_nil in Hin|].
      rewrite Hfind, Hnamee. unfold network_item. rewrite Hnamee. reflexivity.
    + intros Huniq. apply Huniq; [|exact Hnamee].
      destruct Hfirst as (before & after & -> & _).
      apply elem_of_app. right. apply elem_of_cons. by left.
Qed.

End DeployMain.

(** ** The configuration loaders *)

Section Loaders.
Import PyStr Eff Spec.

Lemma update_loader_ignores_line_without_equals vars_dict line :
  contains_char "=" (strip line) = false ->
  UpdateCategories.read_vars_line vars_dict line = vars_dict.
Proof. unfold UpdateCategories.read_vars_line. intros ->. reflexivity. Qed.

Lemma update_loader_ignores_blank vars_dict line :
  strip line = "" -> UpdateCategories.read_vars_line vars_dict line = vars_dict.
Proof. intros Hb. apply update_loader_ignores_line_without_equals. by rewrite Hb. Qed.

(** Both provisioning scripts skip blank lines and '#' comments. *)
Lemma deploy_loader_ignores_blank_or_comment config line :
  strip line = "" \/ startswith "#" (strip line) = true ->
  DeployVm.read_vars_line config line = config.
Proof.
  unfold DeployVm.read_vars_line. intros [-> | ->]; [reflexivity|].
  cbn [negb]. by rewrite andb_false_r.
Qed.

(** C7 (the code departs from it).  The loader of
    [update_categories_for_vm.py] has no test for '#': a commented-out
    assignment is a line with an '=' like any other and lands in the
    returned mapping, while the loader of the provisioning scripts drops
    the same line. *)
Theorem update_loader_keeps_commented_entry :
  startswith "#" (strip "#password=old") = true
  /\ UpdateCategories.parse_vars ["#password=old"] = {[ "#password" := "old" ]}
  /\ UpdateCategories.parse_vars ["username=admin"; "#password=old"]
       !! "#password" = Some "old"
  /\ DeployVm.parse_vars ["username=admin"; "#password=old"]
     = {[ "username" := "admin" ]}.
Proof. repeat apply conj; vm_compute; reflexivity. Qed.

Lemma first_missing_some (config : gmap string string) :
  (exists key, key ∈ required_keys /\ config !! key = None) ->
  exists key, DeployVm.first_missing config = Some key.
Proof.
  intros (key & Hkey & Hnone). unfold DeployVm.first_missing, DeployVm.required_keys.
  cbn [List.find].
  destruct (config !! "baseUrl") as [v1|] eqn:H1;
    [rewrite bool_decide_true by eauto; cbn [negb]
    |rewrite bool_decide_false by apply is_Some_None; eauto].
  destruct (config !! "username") as [v2|] eqn:H2;
    [rewrite bool_decide_true by eauto; cbn [negb]
    |rewrite bool_decide_false by apply is_Some_None; eauto].
  destruct (config !! "password") as [v3|] eqn:H3;
    [rewrite bool_decide_true by eauto; cbn [negb]
    |rewrite bool_decide_false by apply is_Some_None; eauto].
  unfold required_keys in Hkey.
  apply elem_of_cons in Hkey as [-> | Hkey]; [congruence|].
  apply elem_of_cons in Hkey as [-> | Hkey]; [congruence|].
  apply elem_of_cons in Hkey as [-> | Hkey]; [congruence|].
  by apply elem_of_nil in Hkey.
Qed.

Lemma all_truthy_missing (vars_dict : gmap string string) :
  (exists key, key ∈ required_keys /\ vars_dict !! key = None) ->
  all_truthy [default "" (vars_dict !! "baseUrl");
              default "" (vars_dict !! "username");
              default "" (vars_dict !! "password")] = false.
Proof.
  intros (key & Hkey & Hnone). unfold required_keys in Hkey. unfold all_truthy.
  cbn [forallb].
  apply elem_of_cons in Hkey as [-> | Hkey]; [by rewrite Hnone|].
  apply elem_of_cons in Hkey as [-> | Hkey];
    [rewrite Hnone; cbn [default from_option truthy]; by rewrite ?andb_false_r|].
  apply elem_of_cons in Hkey as [-> | Hkey];
    [rewrite Hnone; cbn [default from_option truthy]; by rewrite ?andb_false_r|].
  by apply elem_of_nil in Hkey.
Qed.

(** C6.  When 'files/vars.txt' is absent, or the loader finds one of
    baseUrl, username, password missing in it, each script stops with exit
    status 1 after printing a diagnostic, the outside world untouched: no
    request has been made.  (The experimental script, its command line
    parsed, may stop a step earlier, at its [--do-it] check, equally without
    a request.) *)
Theorem missing_configuration_is_fatal
    {UWorld : Type} `{UpdateCategories.Env UWorld}
    {DWorld : Type} `{DeployVm.Env DWorld} vars_file :
  (lacks_required UpdateCategories.parse_vars vars_file ->
   forall excel (w : UWorld) ws,
   exists m,
     UpdateCategories.run vars_file excel w ws
     = (Exit 1, {| UpdateCategories.world := w; UpdateCategories.xlsx := ws |},
        [UpdateCategories.EPrint m]))
  /\ (lacks_required DeployVm.parse_vars vars_file ->
      forall cfg cli vm_name (w : DWorld) typed,
      exists l m,
        DeployVm.run cfg (DeployVm.Parsed cli) vm_name vars_file w typed
        = (Exit 1, {| DeployVm.world := w; DeployVm.stdin := typed |},
           l ++ [DeployVm.EPrint m])
        /\ Forall (fun e => DeployVm.is_request e = false) l).
Proof.
  split.
  - intros Hlack excel w ws. unfold UpdateCategories.run, UpdateCategories.main.
    destruct vars_file as [lines|]; [|eexists; reflexivity].
    cbn in Hlack. unfold UpdateCategories.read_vars_file.
    unfold bind at 1. unfold ret at 1. cbv beta iota zeta.
    rewrite (all_truthy_missing _ Hlack). eexists. reflexivity.
  - intros Hlack cfg cli vm_name w typed. unfold DeployVm.run.
    rewrite main_phased. unfold DeployPhases.phased. unfold bind at 1.
    rewrite safety_check_run.
    set (cli' := if DeployVm.has_cli cfg then cli else DeployVm.no_args).
    destruct (DeployVm.has_cli cfg && negb (DeployVm.do_it cli')
              && negb (DeployVm.ALLOW_EXECUTION_WITHOUT_DOIT cfg)).
    { exists [], DeployVm.MSafetyCheck. split; [reflexivity|constructor]. }
    unfold DeployPhases.prepare, DeployPhases.connect, DeployVm.read_vars_file.
    destruct vars_file as [lines|].
    + cbn in Hlack. destruct (first_missing_some _ Hlack) as [key ->].
      exists (if DeployVm.dry_run cli' then [DeployVm.EPrint DeployVm.MDryRunBanner] else []),
             (DeployVm.MMissingConfig key).
      split; [reflexivity|]. destruct (DeployVm.dry_run cli'); repeat constructor.
    + exists (if DeployVm.dry_run cli' then [DeployVm.EPrint DeployVm.MDryRunBanner] else []),
             DeployVm.MVarsNotFound.
      split; [reflexivity|]. destruct (DeployVm.dry_run cli'); repeat constructor.
Qed.

End Loaders.

(** ** The theorems at work on concrete tables, files and inventories *)

Section Instances.
Import PyStr Eff Spec Scripted.

Lemma not_eligible_row_untouched_witness :
  UpdateCategories.process_row "https://10.0.0.1:9440/api" ∅ 1
    (row_of "SKIP" "vm2" "id2" "c3")
    {| UpdateCategories.world := answers [] []; UpdateCategories.xlsx := sheet |}
  = (Ret tt,
     {| UpdateCategories.world := answers [] []; UpdateCategories.xlsx := sheet |},
     [UpdateCategories.EPrint (UpdateCategories.MSkipNotOK 2 "SKIP")]).
Proof.
  exact (proj1 (not_eligible_row_untouched (row_of "SKIP" "vm2" "id2" "c3") eq_refl)
               "https://10.0.0.1:9440/api" ∅ 1
               {| UpdateCategories.world := answers [] [];
                  UpdateCategories.xlsx := sheet |}).
Defined.

Lemma empty_category_list_skips_write_witness :
  exists m,
    UpdateCategories.process_row "https://10.0.0.1:9440/api" ∅ 0
      (row_of "OK" "vm1" "id1" " , ,")
      {| UpdateCategories.world := answers [] []; UpdateCategories.xlsx := sheet |}
    = (Ret tt,
       {| UpdateCategories.world := answers [] []; UpdateCategories.xlsx := sheet |},
       [UpdateCategories.EPrint m]).
Proof.
  exact (proj1 (empty_category_list_skips_write (row_of "OK" "vm1" "id1" " , ,")
                  eq_refl eq_refl)
               "https://10.0.0.1:9440/api" ∅ 0
               {| UpdateCategories.world := answers [] [];
                  UpdateCategories.xlsx := sheet |}).
Defined.

Lemma incomplete_row_skipped_silently_witness :
  UpdateCategories.process_row "https://10.0.0.1:9440/api" ∅ 4
    (row_of "OK" "vm5" "   " "c1")
    {| UpdateCategories.world := answers [] []; UpdateCategories.xlsx := sheet |}
  = (Ret tt,
     {| UpdateCategories.world := answers [] []; UpdateCategories.xlsx := sheet |},
     [UpdateCategories.EPrint (UpdateCategories.MSkipMissingData 5)]).
Proof.
  exact (proj1 (incomplete_row_skipped_silently (row_of "OK" "vm5" "   " "c1")
                  eq_refl eq_refl)
               "https://10.0.0.1:9440/api" ∅ 4
               {| UpdateCategories.world := answers [] [];
                  UpdateCategories.xlsx := sheet |}).
Defined.

Lemma missing_token_skips_write_unmarked_witness :
  UpdateCategories.process_row "https://10.0.0.1:9440/api" ∅ 0
    (row_of "OK" "vm1" "id1" "c1")
    {| UpdateCategories.world := answers [UpdateCategories.GetReturned None] [];
       UpdateCategories.xlsx := sheet |}
  = (Ret tt,
     {| UpdateCategories.world := answers [] []; UpdateCategories.xlsx := sheet |},
     [UpdateCategories.EGet "https://10.0.0.1:9440/api/vmm/v4.1/ahv/config/vms/id1" ∅;
      UpdateCategories.EPrint (UpdateCategories.MFailedEtag "vm1")]).
Proof.
  refine (proj1 (missing_token_skips_write_unmarked
                   "https://10.0.0.1:9440/api" ∅ 0 (row_of "OK" "vm1" "id1" "c1") []
                   {| UpdateCategories.world := answers [UpdateCategories.GetReturned None] [];
                      UpdateCategories.xlsx := sheet |}
                   "6f1c2a9e-0000-4000-8000-000000000001"
                   (answers [UpdateCategories.GetReturned None] [])
                   (UpdateCategories.GetReturned None) (answers [] [])
                   eq_refl eq_refl _ eq_refl eq_refl _)).
  - vm_compute. discriminate.
  - right. left. reflexivity.
Defined.

Lemma missing_configuration_is_fatal_witness :
  (exists m,
      UpdateCategories.run (Some ["baseUrl=https://10.0.0.1:9440/api"; "username=admin"])
        (UpdateCategories.ExcelRows table) (answers [] []) sheet
      = (Exit 1,
         {| UpdateCategories.world := answers [] []; UpdateCategories.xlsx := sheet |},
         [UpdateCategories.EPrint m]))
  /\ (exists l m,
        DeployVm.run DeployVm.experimental (DeployVm.Parsed (by_name false))
          "Windows-VM-20251104-093000"
          (Some ["baseUrl=https://10.0.0.1:9440/api"; "username=admin"]) cluster []
        = (Exit 1, {| DeployVm.world := cluster; DeployVm.stdin := [] |},
           l ++ [DeployVm.EPrint m])
        /\ Forall (fun e => DeployVm.is_request e = false) l).
Proof.
  destruct (missing_configuration_is_fatal
              (UWorld := update_world) (DWorld := deploy_world)
              (Some ["baseUrl=https://10.0.0.1:9440/api"; "username=admin"]))
    as [Hupdate Hdeploy].
  split; [apply Hupdate|apply Hdeploy];
    (exists "password"; split; [|vm_compute; reflexivity]);
    unfold required_keys; apply elem_of_cons; right;
    apply elem_of_cons; right; apply elem_of_cons; left; reflexivity.
Defined.


Lemma exact_name_takes_precedence_witness :
  exists e,
    DeployVm.find_image_by_name "https://10.0.0.1:9440/api" ∅ "Windows2019"
      {| DeployVm.world := cluster; DeployVm.stdin := [] |}
    = (Ret (Some {| DeployVm.name := "Windows2019";
                    DeployVm.type_ := default "Unknown" (DeployVm.img_type e);
                    DeployVm.ext_id := default "Unknown" (DeployVm.img_extId e);
                    DeployVm.data := e |}),
       {| DeployVm.world := cluster; DeployVm.stdin := [] |},
       [DeployVm.ERequest DeployVm.GET
          ("https://10.0.0.1:9440/api" +:+ "/vmm/v4.1/content/images") ∅ None;
        DeployVm.EPrint (DeployVm.MFoundExact "Windows2019")])
    /\ DeployVm.img_name e = Some "Windows2019"
    /\ (exists before after,
          [image "WINDOWS2019" "img-upper"; image "Windows2019" "img-exact"]
          = before ++ e :: after
          /\ Forall (fun e' => DeployVm.img_name e' <> Some "Windows2019") before)
    /\ ((forall e', e' ∈ [image "WINDOWS2019" "img-upper"; image "Windows2019" "img-exact"] ->
                    DeployVm.img_name e' = Some "Windows2019" ->
                    e' = image "Windows2019" "img-exact") ->
        e = image "Windows2019" "img-exact").
Proof.
  refine (proj1 (exact_name_takes_precedence "https://10.0.0.1:9440/api" ∅
                   "Windows2019"
                   {| DeployVm.world := cluster; DeployVm.stdin := [] |} cluster _)
                [image "WINDOWS2019" "img-upper"; image "Windows2019" "img-exact"]
                (image "Windows2019" "img-exact") _ eq_refl eq_refl).
  - discriminate.
  - apply elem_of_cons. right. apply elem_of_cons. left. reflexivity.
Defined.

(** With the case-insensitive match listed first, the exact one is still
    the one selected, for the image and for the subnet. *)
Example exact_match_selected_over_earlier_case_variant :
  omap DeployVm.dry_printed
    (log (DeployVm.run DeployVm.experimental (DeployVm.Parsed (by_name true))
            "Windows-VM-20251104-093000" (Some vars_txt) cluster []))
  = [DeployVm.create_vm_payload DeployVm.experimental "Windows-VM-20251104-093000"
       (DeployVm.image_item (image "Windows2019" "img-exact"))
       (DeployVm.network_item (network "Prod-Net" "net-exact"))].
Proof. vm_compute. reflexivity. Qed.

(** [--dry-run] without [--do-it] stops at the safety check. *)
Example dry_run_needs_do_it :
  DeployVm.run DeployVm.experimental
    (DeployVm.Parsed
       {| DeployVm.do_it := false; DeployVm.dry_run := true;
          DeployVm.image_name := Some "Windows2019"; DeployVm.subnet := None |})
    "Windows-VM-20251104-093000" (Some vars_txt) cluster []
  = (Exit 1, {| DeployVm.world := cluster; DeployVm.stdin := [] |},
     [DeployVm.EPrint DeployVm.MSafetyCheck]).
Proof. reflexivity. Qed.

End Instances.

(** ** The result sink *)

Section Sink.
Import PyStr Eff Spec Obs UpdateCategories.

Lemma last_where_snoc P cols col :
  last_where P (cols ++ [col]) = if P col then Some col else last_where P cols.
Proof. unfold last_where. by rewrite fold_left_app. Qed.

Lemma last_where_seq P n col :
  last_where P (seq 1 n) = Some col <-> is_last_where P n col.
Proof.
  unfold is_last_where. revert col. induction n as [|n IH]; intros col.
  - cbn. split; [discriminate|lia].
  - rewrite seq_S, last_where_snoc. cbn [Nat.add].
    destruct (P (S n)) eqn:HP.
    + split.
      * intros [= <-]. repeat split; [lia..|exact HP|intros; lia].
      * intros (Hb & HPc & Hlater).
        destruct (decide (col = S n)) as [->|Hne]; [reflexivity|].
        rewrite Hlater in HP by lia. discriminate.
    + rewrite IH. split.
      * intros (Hb & HPc & Hlater). repeat split; [lia..|exact HPc|].
        intros col' Hc'. destruct (decide (col' = S n)) as [->|]; [exact HP|].
        apply Hlater. lia.
      * intros (Hb & HPc & Hlater).
        assert (col <> S n) by congruence.
        repeat split; [lia..|exact HPc|]. intros col' Hc'. apply Hlater. lia.
Qed.

Lemma last_where_seq_none P n :
  last_where P (seq 1 n) = None <-> forall col, 1 <= col <= n -> P col = false.
Proof.
  induction n as [|n IH].
  - cbn. split; [intros _ col; lia|done].
  - rewrite seq_S, last_where_snoc. cbn [Nat.add]. destruct (P (S n)) eqn:HP.
    + split; [discriminate|]. intros Hall. rewrite Hall in HP by lia. discriminate.
    + rewrite IH. split.
      * intros Hall col Hc. destruct (decide (col = S n)) as [->|]; [exact HP|].
        apply Hall. lia.
      * intros Hall col Hc. apply Hall. lia.
Qed.

Lemma find_columns_last_where ws :
  find_columns ws
  = (last_where (status_at ws) (seq 1 (max_column ws)),
     last_where (timestamp_at ws) (seq 1 (max_column ws))).
Proof.
  unfold find_columns. induction (max_column ws) as [|n IH]; [reflexivity|].
  rewrite seq_S, fold_left_app, IH, !last_where_snoc. cbn [fold_left Nat.add].
  unfold status_at, timestamp_at, header_text.
  destruct (cells ws !! (1, S n)) as [c|]; cbn; [|reflexivity].
  destruct (value c) as [h|]; cbn; [|reflexivity].
  destruct (truthy h && contains "STATUS OF UPDATE" (upper h)); cbn; [reflexivity|].
  destruct (truthy h && contains "TIMESTAMP" (upper h)); reflexivity.
Qed.

(** X1.  The header scan of [update_excel_status] finds, for the status and
    for the timestamp, the LAST column of row 1 whose header names it
    (upper-cased substring test; a header naming both counts as status
    only), and nothing when no header does. *)
Theorem find_columns_spec ws :
  (forall col, (find_columns ws).1 = Some col
               <-> is_last_where (status_at ws) (max_column ws) col)
  /\ (forall col, (find_columns ws).2 = Some col
                  <-> is_last_where (timestamp_at ws) (max_column ws) col)
  /\ ((find_columns ws).1 = None
      <-> forall col, 1 <= col <= max_column ws -> status_at ws col = false)
  /\ ((find_columns ws).2 = None
      <-> forall col, 1 <= col <= max_column ws -> timestamp_at ws col = false).
Proof.
  rewrite find_columns_last_where. cbn [fst snd].
  split; [intros col; apply last_where_seq|].
  split; [intros col; apply last_where_seq|].
  split; apply last_where_seq_none.
Qed.

Lemma find_columns_distinct ws sc tc :
  find_columns ws = (Some sc, Some tc) -> sc <> tc.
Proof.
  rewrite find_columns_last_where. intros [= Hs Ht].
  apply last_where_seq in Hs as (_ & Hs & _).
  apply last_where_seq in Ht as (_ & Ht & _).
  intros ->. unfold status_at, timestamp_at in *.
  destruct (header_text ws tc) as [h|]; [|discriminate].
  rewrite Hs in Ht. discriminate.
Qed.


(** X2.  What one call of the sink writes, on a sheet that has been loaded:
    when a status column is found, the cell of that column in sheet row
    [row_index + 2] gets the status text in white bold on solid green
    (whatever the status says); when a timestamp column is found, the cell of
    that column in the same row gets the timestamp and keeps its font and
    fill; every other cell, and the column count, stay as they were. *)
Theorem sink_fills_status_and_timestamp ws row_index status timestamp :
  (forall sc, (find_columns ws).1 = Some sc ->
      cells (write_status ws row_index status timestamp) !! (row_index + 2, sc)
      = Some {| value := Some status; font := Some ("FFFFFF", true);
                fill := Some "00FF00" |})
  /\ (forall tc, (find_columns ws).2 = Some tc ->
        exists c,
          cells (write_status ws row_index status timestamp) !! (row_index + 2, tc)
            = Some c
          /\ value c = Some timestamp
          /\ font c = font (default blank_cell (cells ws !! (row_index + 2, tc)))
          /\ fill c = fill (default blank_cell (cells ws !! (row_index + 2, tc))))
  /\ (forall row col,
        (find_columns ws).1 <> Some col \/ row <> row_index + 2 ->
        (find_columns ws).2 <> Some col \/ row <> row_index + 2 ->
        cells (write_status ws row_index status timestamp) !! (row, col)
        = cells ws !! (row, col))
  /\ max_column (write_status ws row_index status timestamp) = max_column ws.
Proof.
  pose proof (find_columns_distinct ws) as Hdistinct.
  unfold write_status.
  destruct (find_columns ws) as [[sc|] [tc|]];
    cbn [fst snd set_cell cells max_column].
  - assert (sc <> tc) as Hne by by apply Hdistinct.
    split; [|split; [|split; [|reflexivity]]].
    + intros ? [= <-]. rewrite lookup_insert_ne by congruence.
      by rewrite lookup_insert_eq.
    + intros ? [= <-]. rewrite lookup_insert_eq. eexists. split; [reflexivity|].
      rewrite lookup_insert_ne by congruence. by repeat split.
    + intros row col H1 H2.
      rewrite !lookup_insert_ne; [reflexivity|..]; intros [= <- <-];
        destruct H1 as [H1|H1]; destruct H2 as [H2|H2]; congruence.
  - split; [|split; [|split; [|reflexivity]]].
    + intros ? [= <-]. by rewrite lookup_insert_eq.
    + intros ? [=].
    + intros row col H1 _. rewrite lookup_insert_ne; [reflexivity|].
      intros [= <- <-]. destruct H1 as [H1|H1]; congruence.
  - split; [|split; [|split; [|reflexivity]]].
    + intros ? [=].
    + intros ? [= <-]. rewrite lookup_insert_eq. eexists. by repeat split.
    + intros row col _ H2. rewrite lookup_insert_ne; [reflexivity|].
      intros [= <- <-]. destruct H2 as [H2|H2]; congruence.
  - split; [|split; [|split; [|reflexivity]]]; [intros ? [=]..|reflexivity].
Qed.

Lemma write_status_no_columns ws row_index status timestamp :
  (forall col, 1 <= col <= max_column ws ->
               status_at ws col = false /\ timestamp_at ws col = false) ->
  write_status ws row_index status timestamp = ws.
Proof.
  intros Hnone. unfold write_status. rewrite find_columns_last_where.
  assert (last_where (status_at ws) (seq 1 (max_column ws)) = None) as ->.
  { apply last_where_seq_none. intros col Hc. by apply Hnone. }
  assert (last_where (timestamp_at ws) (seq 1 (max_column ws)) = None) as ->.
  { apply last_where_seq_none. intros col Hc. by apply Hnone. }
  reflexivity.
Qed.

Lemma last_where_ext P Q cols :
  (forall col, P col = Q col) -> last_where P cols = last_where Q cols.
Proof.
  intros HPQ. unfold last_where. generalize (@None nat).
  induction cols as [|c cols IH]; intros acc; [reflexivity|].
  cbn. rewrite HPQ. apply IH.
Qed.

Lemma find_columns_header_only ws ws' :
  max_column ws' = max_column ws ->
  (forall col, cells ws' !! (1, col) = cells ws !! (1, col)) ->
  find_columns ws' = find_columns ws.
Proof.
  intros Hmax Hrow. rewrite !find_columns_last_where, Hmax.
  f_equal; apply last_where_ext; intros col;
    unfold status_at, timestamp_at, header_text; by rewrite Hrow.
Qed.

Lemma write_status_max_column ws row_index status timestamp :
  max_column (write_status ws row_index status timestamp) = max_column ws.
Proof. unfold write_status. by destruct (find_columns ws) as [[sc|] [tc|]]. Qed.

End Sink.

(** ** The orchestrator: shape of a row, budgets, and the whole batch *)

Section Batch.
Import PyStr Eff Spec Obs UpdateCategories.
Context {World : Type} `{Env World}.

(** The three ways a row can go. *)
Lemma process_row_cases base_url auth_headers index r (s : state World) :
  (exists m, process_row base_url auth_headers index r s = (Ret tt, s, [EPrint m]))
  \/ (exists g w2,
        no_token g
        /\ process_row base_url auth_headers index r s
           = (Ret tt, {| world := w2; xlsx := xlsx s |},
              EGet (url_get base_url r) auth_headers
                :: get_lines g ++ [EPrint (MFailedEtag (strip (vm_name_cell r)))]))
  \/ (exists etag u p ts ok w5,
        etag <> ""
        /\ process_row base_url auth_headers index r s
           = (Ret tt,
              {| world := w5;
                 xlsx := if ok : bool
                         then write_status (xlsx s) index (status_written p) ts
                         else xlsx s |},
              [EGet (url_get base_url r) auth_headers;
               EPost (url_post base_url r) (write_headers auth_headers etag u)
                     (association_body (trimmed_segments (strip (category_cell r))))]
              ++ post_lines p
              ++ [EExcel index (status_written p) ts;
                  EPrint (if ok then MExcelUpdated (status_written p) ts
                          else MExcelError)])).
Proof.
  destruct (eligible r) eqn:Hel;
    [|left; eexists; by apply process_row_not_eligible].
  destruct (complete r) eqn:Hco;
    [|left; eexists; by apply process_row_incomplete].
  destruct (decide (trimmed_segments (strip (category_cell r)) = [])) as [Hseg|Hseg];
    [left; eexists; by apply process_row_no_categories|].
  destruct (uuid4 (world s)) as [u w1] eqn:Hu.
  destruct (requests_get (url_get base_url r) auth_headers w1) as [g w2] eqn:Hg.
  destruct (no_token_dec g) as [Hno | (etag & -> & Hetag)].
  { right; left. exists g, w2. split; [exact Hno|]. by eapply process_row_no_token. }
  destruct (requests_post (url_post base_url r) (write_headers auth_headers etag u)
              (association_body (trimmed_segments (strip (category_cell r)))) w2)
    as [p w3] eqn:Hp.
  destruct (now_stamp w3) as [ts w4] eqn:Hts.
  destruct (workbook_io w4) as [ok w5] eqn:Hio.
  right; right. exists etag, u, p, ts, ok, w5. split; [exact Hetag|].
  by eapply process_row_write.
Qed.

Lemma requests_app l1 l2 : requests (l1 ++ l2) = requests l1 ++ requests l2.
Proof. apply omap_app. Qed.

Lemma sink_calls_app l1 l2 : sink_calls (l1 ++ l2) = sink_calls l1 ++ sink_calls l2.
Proof. apply omap_app. Qed.

Lemma requests_get url hdrs l : requests (EGet url hdrs :: l) = ("GET", url) :: requests l.
Proof. reflexivity. Qed.

Lemma requests_post url hdrs body l :
  requests (EPost url hdrs body :: l) = ("POST", url) :: requests l.
Proof. reflexivity. Qed.

Lemma sink_calls_get url hdrs l : sink_calls (EGet url hdrs :: l) = sink_calls l.
Proof. reflexivity. Qed.

Lemma sink_calls_post url hdrs body l : sink_calls (EPost url hdrs body :: l) = sink_calls l.
Proof. reflexivity. Qed.

Lemma requests_get_lines g : requests (get_lines g) = [].
Proof. by destruct g. Qed.

Lemma requests_post_lines p : requests (post_lines p) = [].
Proof. destruct p as [|resp]; cbn; [reflexivity|]. by repeat case_match. Qed.

Lemma sink_calls_get_lines g : sink_calls (get_lines g) = [].
Proof. by destruct g. Qed.

Lemma sink_calls_post_lines p : sink_calls (post_lines p) = [].
Proof. destruct p as [|resp]; cbn; [reflexivity|]. by repeat case_match. Qed.

Ltac count_events :=
  rewrite ?requests_get, ?requests_post, ?sink_calls_get, ?sink_calls_post,
    ?requests_app, ?sink_calls_app, ?requests_get_lines, ?sink_calls_get_lines,
    ?requests_post_lines, ?sink_calls_post_lines.

(** X3.  One row costs at most one GET and one POST, in that order and to
    the row's own URLs, and the result sink is called at most once, for the
    row's own index and only when the POST was made. *)
Theorem row_request_budget base_url auth_headers index r (s : state World) :
  let l := log (process_row base_url auth_headers index r s) in
  (requests l = [] /\ sink_calls l = [])
  \/ (requests l = [("GET", url_get base_url r)] /\ sink_calls l = [])
  \/ (requests l = [("GET", url_get base_url r); ("POST", url_post base_url r)]
      /\ exists status timestamp, sink_calls l = [(index, status, timestamp)]).
Proof.
  destruct (process_row_cases base_url auth_headers index r s)
    as [[m ->] | [(g & w2 & _ & ->) | (etag & u & p & ts & ok & w5 & _ & ->)]];
    cbn [log snd].
  - left. by split.
  - right; left. count_events. by split.
  - right; right. cbn [app]. count_events. cbn. eauto.
Qed.

(** Over a table: at most two requests and one sink call per row. *)
Lemma process_rows_budget base_url auth_headers df : forall index (s : state World),
  length (requests (log (process_rows base_url auth_headers index df s)))
    <= 2 * length df
  /\ length (sink_calls (log (process_rows base_url auth_headers index df s)))
     <= length df.
Proof.
  induction df as [|r df IH]; intros index s; [cbn; lia|].
  destruct (process_row_frame base_url auth_headers index r s)
    as (s1 & l1 & Hrow & _).
  pose proof (row_budget_aux := process_row_cases base_url auth_headers index r s).
  rewrite (process_rows_step _ _ _ _ _ _ _ _ Hrow).
  specialize (IH (S index) s1).
  destruct (process_rows base_url auth_headers (S index) df s1) as [[o s2] l2].
  cbn [log snd length] in *.
  rewrite requests_app, sink_calls_app, !length_app.
  assert (length (requests l1) <= 2 /\ length (sink_calls l1) <= 1) as [Hr Hs]; [|lia].
  rewrite Hrow in row_budget_aux.
  destruct row_budget_aux
    as [[m [= -> ->]] | [(g & w2 & _ & [= -> ->])
                        | (etag & u & p & ts & ok & w5 & _ & [= -> ->])]].
  - cbn. lia.
  - count_events. cbn. lia.
  - count_events. cbn. lia.
Qed.

Lemma process_rows_max_column base_url auth_headers df : forall index (s : state World),
  max_column (xlsx (final (process_rows base_url auth_headers index df s)))
  = max_column (xlsx s).
Proof.
  induction df as [|r df IH]; intros index s; [reflexivity|].
  assert (exists s1 l1, process_row base_url auth_headers index r s = (Ret tt, s1, l1)
                        /\ max_column (xlsx s1) = max_column (xlsx s))
    as (s1 & l1 & Hrow & Hmax).
  { destruct (process_row_cases base_url auth_headers index r s)
      as [[m ->] | [(g & w2 & _ & ->) | (etag & u & p & ts & ok & w5 & _ & ->)]];
      eexists _, _; (split; [reflexivity|]); cbn [xlsx]; [done..|].
    destruct ok; [apply write_status_max_column|done]. }
  rewrite (process_rows_step _ _ _ _ _ _ _ _ Hrow).
  specialize (IH (S index) s1).
  destruct (process_rows base_url auth_headers (S index) df s1) as [[o s2] l2].
  cbn [final fst snd] in *. congruence.
Qed.

(** With a usable configuration [main] reaches the loop and reports
    completion. *)
Lemma main_usable lines df (s : state World) :
  usable_config lines = true ->
  exists s' l,
    process_rows (setting lines "baseUrl")
      {[ "Authorization" :=
           "Basic " +:+ b64encode (setting lines "username" +:+ ":"
                                   +:+ setting lines "password") ]}
      0 df s = (Ret tt, s', l)
    /\ main (Some lines) (ExcelRows df) s = (Ret tt, s', l ++ [EPrint MCompleted]).
Proof.
  unfold usable_config, setting. intros [Hall Hascii]%andb_true_iff.
  match goal with |- context [process_rows ?b ?a 0 df s] =>
    destruct (process_rows_frame b a df 0 s) as (s' & l & Hrows & _) end.
  exists s', l. split; [exact Hrows|].
  unfold main, read_vars_file, create_auth_header.
  unfold bind, ret, print, emit, sys_exit, raise. cbv beta iota zeta.
  rewrite Hall, Hascii. cbn [negb]. rewrite Hrows. reflexivity.
Qed.

(** X4.  With a usable configuration and a readable table, whatever the API
    answers and whether or not the workbook can be rewritten, the batch runs
    to its end: [main] returns normally after "Script completed!", having
    made at most two requests and one sink call per row; row 1 of the sheet
    (the headers), the rows below the table and the column count are as
    before, so the sink keeps finding the same two columns. *)
Theorem batch_runs_to_completion lines df (w : World) ws :
  usable_config lines = true ->
  exists s' l,
    run (Some lines) (ExcelRows df) w ws = (Ret tt, s', l ++ [EPrint MCompleted])
    /\ length (requests l) <= 2 * length df
    /\ length (sink_calls l) <= length df
    /\ (forall row col, row < 2 \/ length df + 2 <= row ->
          cells (xlsx s') !! (row, col) = cells ws !! (row, col))
    /\ max_column (xlsx s') = max_column ws
    /\ find_columns (xlsx s') = find_columns ws.
Proof.
  intros Husable. unfold run.
  destruct (main_usable lines df {| world := w; xlsx := ws |} Husable)
    as (s' & l & Hrows & Hmain).
  exists s', l. split; [exact Hmain|].
  match type of Hrows with process_rows ?b ?a 0 df ?s = _ =>
    pose proof (process_rows_budget b a df 0 s) as [Hreq Hsink];
    pose proof (process_rows_max_column b a df 0 s) as Hmax;
    destruct (process_rows_frame b a df 0 s) as (s2 & l2 & Hrows2 & Hcells & _)
  end.
  rewrite Hrows in Hreq, Hsink, Hmax, Hrows2. injection Hrows2 as <- <-.
  cbn [log final fst snd xlsx] in *.
  assert (forall row col, row < 2 \/ length df + 2 <= row ->
            cells (xlsx s') !! (row, col) = cells ws !! (row, col)) as Hframe.
  { intros row col Hr. apply Hcells. lia. }
  repeat split; try done.
  apply find_columns_header_only; [exact Hmax|]. intros col. apply Hframe. lia.
Qed.

Lemma process_rows_passed_over base_url auth_headers df :
  Forall (fun r => passed_over r = true) df ->
  forall index (s : state World),
  exists l, process_rows base_url auth_headers index df s = (Ret tt, s, l)
            /\ requests l = [] /\ sink_calls l = [].
Proof.
  induction 1 as [|r df Hr Hdf IH]; intros index s.
  - exists []. by repeat split.
  - assert (exists m, process_row base_url auth_headers index r s
                      = (Ret tt, s, [EPrint m])) as [m Hrow].
    { unfold passed_over in Hr.
      destruct (eligible r) eqn:Hel;
        [|eexists; by apply process_row_not_eligible].
      destruct (complete r) eqn:Hco;
        [|eexists; by apply process_row_incomplete].
      cbn in Hr. apply bool_decide_eq_true in Hr.
      eexists. apply process_row_no_categories; [done..|].
      by rewrite trimmed_segments_strip. }
    destruct (IH (S index) s) as (l & Hrows & Hreq & Hsink).
    exists ([EPrint m] ++ l).
    rewrite (process_rows_step _ _ _ _ _ _ _ _ Hrow), Hrows.
    by rewrite requests_app, sink_calls_app, Hreq, Hsink.
Qed.

(** X5.  A table in which every row is passed over (its flag text is not
    OK, or a required cell holds only blanks or its column is missing, or no
    category is left after trimming) costs nothing: whatever the
    configuration, the run makes no request, never calls the sink, and
    leaves the outside world and the workbook exactly as they were.  (A
    required cell left empty in the sheet does not make a row passed over:
    its text is 'nan'.) *)
Theorem passed_over_table_costs_nothing vars_file df (w : World) ws :
  Forall (fun r => passed_over r = true) df ->
  requests (log (run vars_file (ExcelRows df) w ws)) = []
  /\ sink_calls (log (run vars_file (ExcelRows df) w ws)) = []
  /\ final (run vars_file (ExcelRows df) w ws) = {| world := w; xlsx := ws |}.
Proof.
  intros Hdf. unfold run.
  destruct (main_rows vars_file df {| world := w; xlsx := ws |})
    as [[m ->] | [[e ->] | (b & a & s' & l & Hrows & ->)]]; [done..|].
  destruct (process_rows_passed_over b a df Hdf 0 {| world := w; xlsx := ws |})
    as (l' & Hrows' & Hreq & Hsink).
  rewrite Hrows in Hrows'. injection Hrows' as -> ->.
  cbn [log final fst snd]. by rewrite requests_app, sink_calls_app, Hreq, Hsink.
Qed.

(** X6.  The start-up checks of [main], in the order the code makes them,
    each ending the run before the table is read and before any request:
    a required setting that is missing or EMPTY is fatal (exit 1); then
    credentials with a non-ASCII character kill the script with an uncaught
    UnicodeEncodeError from [create_auth_header]; then a workbook that is
    absent or cannot be read is fatal (exit 1). *)
Theorem start_up_checks lines excel (w : World) ws :
  let s := {| world := w; xlsx := ws |} in
  ((exists key, key ∈ required_keys /\ setting lines key = "") ->
   run (Some lines) excel w ws = (Exit 1, s, [EPrint MMissingVars]))
  /\ (all_truthy [setting lines "baseUrl"; setting lines "username";
                  setting lines "password"] = true ->
      is_ascii (setting lines "username" +:+ ":" +:+ setting lines "password") = false ->
      run (Some lines) excel w ws = (Uncaught "UnicodeEncodeError", s, []))
  /\ (usable_config lines = true ->
      (excel = ExcelAbsent ->
       run (Some lines) excel w ws = (Exit 1, s, [EPrint MExcelNotFound]))
      /\ (excel = ExcelUnreadable ->
          run (Some lines) excel w ws = (Exit 1, s, [EPrint MExcelReadError]))).
Proof.
  intros s. unfold run, main, read_vars_file, create_auth_header, usable_config, setting.
  unfold bind, ret, print, emit, sys_exit, raise. cbv beta iota zeta.
  split; [|split].
  - intros (key & Hkey & Hempty).
    assert (all_truthy [default "" (parse_vars lines !! "baseUrl");
                        default "" (parse_vars lines !! "username");
                        default "" (parse_vars lines !! "password")] = false) as ->;
      [|reflexivity].
    unfold required_keys in Hkey. unfold all_truthy. cbn [forallb].
    apply elem_of_cons in Hkey as [-> | Hkey]; [by rewrite Hempty|].
    apply elem_of_cons in Hkey as [-> | Hkey];
      [rewrite Hempty; cbn [truthy]; by rewrite ?andb_false_r|].
    apply elem_of_cons in Hkey as [-> | Hkey];
      [rewrite Hempty; cbn [truthy]; by rewrite ?andb_false_r|].
    by apply elem_of_nil in Hkey.
  - intros -> ->. reflexivity.
  - intros [-> ->]%andb_true_iff. cbn [negb]. split; intros ->; reflexivity.
Qed.

End Batch.

(** ** The write step *)

Section WriteStep.
Import PyStr Eff Spec Obs UpdateCategories.
Context {World : Type} `{Env World}.

Lemma posts_app l1 l2 : posts (l1 ++ l2) = posts l1 ++ posts l2.
Proof. apply omap_app. Qed.

Lemma posts_post_lines p : posts (post_lines p) = [].
Proof. destruct p as [|resp]; cbn; [reflexivity|]. by repeat case_match. Qed.

(** X7.  The write is guarded by the token just read.  For an eligible,
    complete row with categories whose GET answers with a non-empty ETag,
    exactly one POST is made, to the row's associate-categories URL; its
    If-Match header is that very ETag, its NTNX-Request-Id the uuid drawn for
    this row, its Content-Type application/json, every other header is the
    authentication header unchanged, and its body lists the trimmed
    non-empty segments of the category cell. *)
Theorem write_guarded_by_fresh_token
    base_url auth_headers index r (s : state World) u w1 etag w2 :
  eligible r = true -> complete r = true ->
  trimmed_segments (category_cell r) <> [] ->
  uuid4 (world s) = (u, w1) ->
  requests_get (url_get base_url r) auth_headers w1 = (GetReturned (Some etag), w2) ->
  etag <> "" ->
  exists hdrs,
    posts (log (process_row base_url auth_headers index r s))
    = [(url_post base_url r, hdrs, association_body (trimmed_segments (category_cell r)))]
    /\ hdrs !! "If-Match" = Some etag
    /\ hdrs !! "NTNX-Request-Id" = Some u
    /\ hdrs !! "Content-Type" = Some "application/json"
    /\ forall key, key <> "If-Match" -> key <> "NTNX-Request-Id" ->
                   key <> "Content-Type" -> hdrs !! key = auth_headers !! key.
Proof.
  intros Hel Hco Hseg Hu Hg Hetag.
  rewrite <- trimmed_segments_strip in Hseg |- *.
  destruct (requests_post (url_post base_url r) (write_headers auth_headers etag u)
              (association_body (trimmed_segments (strip (category_cell r)))) w2)
    as [p w3] eqn:Hp.
  destruct (now_stamp w3) as [ts w4] eqn:Hts.
  destruct (workbook_io w4) as [ok w5] eqn:Hio.
  rewrite (process_row_write base_url auth_headers index r s u w1 etag w2 p w3 ts w4
             ok w5 Hel Hco Hseg Hu Hg Hetag Hp Hts Hio).
  exists (write_headers auth_headers etag u). cbn [log snd].
  split; [|unfold write_headers; repeat split].
  - rewrite !posts_app, posts_post_lines. reflexivity.
  - rewrite lookup_insert_ne by done. rewrite lookup_insert_ne by done.
    by rewrite lookup_insert_eq.
  - rewrite lookup_insert_ne by done. by rewrite lookup_insert_eq.
  - by rewrite lookup_insert_eq.
  - intros key H1 H2 H3. by rewrite !lookup_insert_ne by done.
Qed.

Lemma status_written_accepted p :
  status_written p = "ACCEPTED"
  <-> exists resp, p = PostReturned resp /\ status_code resp = 202%N.
Proof.
  destruct p as [|resp]; cbn [status_written].
  - split; [discriminate|]. by intros (resp & ? & _).
  - destruct (N.eqb_spec (status_code resp) 202) as [E|NE].
    + split; [eauto|reflexivity].
    + split.
      * destruct ((400 <=? status_code resp)%N && (status_code resp <? 600)%N);
          discriminate.
      * intros (resp' & [= <-] & E). done.
Qed.

(** X8.  Success is 202 and nothing else.  On the write path the sink is
    called exactly once, for the row's own index, and the status it is given
    is "ACCEPTED" if and only if the POST returned a response whose status
    code is 202; in every other case (another status, 2xx included, or no
    response at all) the status text has the form "FAILED (...)". *)
Theorem accepted_exactly_on_202
    base_url auth_headers index r (s : state World) u w1 etag w2 p w3 :
  eligible r = true -> complete r = true ->
  trimmed_segments (category_cell r) <> [] ->
  uuid4 (world s) = (u, w1) ->
  requests_get (url_get base_url r) auth_headers w1 = (GetReturned (Some etag), w2) ->
  etag <> "" ->
  requests_post (url_post base_url r) (write_headers auth_headers etag u)
                (association_body (trimmed_segments (category_cell r))) w2
    = (p, w3) ->
  exists status timestamp,
    sink_calls (log (process_row base_url auth_headers index r s))
      = [(index, status, timestamp)]
    /\ (status = "ACCEPTED"
        <-> exists resp, p = PostReturned resp /\ status_code resp = 202%N)
    /\ (status <> "ACCEPTED" -> exists code, status = "FAILED (" +:+ code +:+ ")").
Proof.
  intros Hel Hco Hseg Hu Hg Hetag Hp.
  rewrite <- trimmed_segments_strip in Hseg, Hp.
  destruct (now_stamp w3) as [ts w4] eqn:Hts.
  destruct (workbook_io w4) as [ok w5] eqn:Hio.
  rewrite (process_row_write base_url auth_headers index r s u w1 etag w2 p w3 ts w4
             ok w5 Hel Hco Hseg Hu Hg Hetag Hp Hts Hio).
  exists (status_written p), ts. cbn [log snd]. split; [|split].
  - rewrite !sink_calls_app, sink_calls_post_lines. reflexivity.
  - apply status_written_accepted.
  - intros Hne. destruct p as [|resp]; cbn [status_written] in *; [by exists "N/A"|].
    destruct (status_code resp =? 202)%N; [done|].
    destruct ((400 <=? status_code resp)%N && (status_code resp <? 600)%N);
      [by exists "N/A"|by eexists].
Qed.

End WriteStep.

(** ** The payload builder and the two loaders *)

Section BuilderAndLoaders.
Import PyStr Eff Spec Obs.

(** X9.  Whatever list it is given, [build_categories_payload] yields only
    identifiers that are non-empty and carry no surrounding white space, no
    more of them than it was given, and feeding it its own output changes
    nothing. *)
Theorem payload_entries_trimmed_nonempty (category_uuids : list string) :
  let body := UpdateCategories.build_categories_payload category_uuids in
  Forall (fun c => UpdateCategories.extId c <> ""
                   /\ strip (UpdateCategories.extId c) = UpdateCategories.extId c)
         (UpdateCategories.categories body)
  /\ length (UpdateCategories.categories body) <= length category_uuids
  /\ UpdateCategories.build_categories_payload
       (map UpdateCategories.extId (UpdateCategories.categories body)) = body.
Proof.
  intros body. subst body.
  unfold UpdateCategories.build_categories_payload. cbn [UpdateCategories.categories].
  rewrite !build_loop_spec. cbn [app].
  set (L := List.filter truthy (map strip category_uuids)).
  assert (Forall (fun t => t <> "" /\ strip t = t) L
          /\ length L <= length category_uuids) as [HL Hlen].
  { subst L. induction category_uuids as [|u l [IH1 IH2]]; [by split|].
    cbn [map List.filter]. destruct (truthy (strip u)) eqn:Hu; cbn [length].
    - split; [|lia]. constructor; [|exact IH1].
      split; [by destruct (strip u)|apply strip_idem].
    - split; [exact IH1|lia]. }
  split; [|split].
  - apply Forall_map. exact HL.
  - by rewrite length_map.
  - f_equal. f_equal. rewrite map_map. cbn [UpdateCategories.extId].
    clear Hlen. induction HL as [|t L [Ht1 Ht2] HL IH]; [reflexivity|].
    cbn [map List.filter UpdateCategories.extId]. rewrite Ht2.
    destruct t; [done|]. cbn [truthy]. by rewrite IH.
Qed.

Lemma split1_assignment sep key value :
  contains_char sep key = false ->
  split1 sep (key +:+ String sep value) = [key; value].
Proof.
  induction key as [|c key IH]; simpl.
  - by rewrite Ascii.eqb_refl.
  - destruct (Ascii.eqb c sep); [discriminate|]. intros Hk. by rewrite IH.
Qed.

Lemma contains_char_assignment sep key value :
  contains_char sep (key +:+ String sep value) = true.
Proof.
  induction key as [|c key IH]; simpl.
  - by rewrite Ascii.eqb_refl.
  - by destruct (Ascii.eqb c sep).
Qed.

(** X10.  The loader of the update script: a line whose stripped text is
    [key=value], [key] being free of '=', binds [key] to [value] exactly as
    written (neither is trimmed further, and [value] may itself contain
    '='); it overrides any earlier binding of [key] and leaves every other
    key as the earlier lines set it. *)
Theorem update_loader_assignment lines line key value :
  strip line = key +:+ String "=" value ->
  contains_char "=" key = false ->
  UpdateCategories.parse_vars (lines ++ [line]) !! key = Some value
  /\ forall other, other <> key ->
       UpdateCategories.parse_vars (lines ++ [line]) !! other
       = UpdateCategories.parse_vars lines !! other.
Proof.
  intros Hline Hkey. unfold UpdateCategories.parse_vars.
  rewrite fold_left_app. cbn [fold_left].
  unfold UpdateCategories.read_vars_line at 1 3.
  rewrite Hline, contains_char_assignment, split1_assignment by exact Hkey.
  split; [apply lookup_insert_eq|]. intros other Hne. by apply lookup_insert_ne.
Qed.

(** X11.  The loader of the provisioning scripts: such a line, unless it is
    a '#' comment, binds the TRIMMED key to the TRIMMED value, overriding
    any earlier binding of that key and leaving the others alone. *)
Theorem deploy_loader_assignment lines line key value :
  strip line = key +:+ String "=" value ->
  contains_char "=" key = false ->
  startswith "#" (strip line) = false ->
  DeployVm.parse_vars (lines ++ [line]) !! strip key = Some (strip value)
  /\ forall other, other <> strip key ->
       DeployVm.parse_vars (lines ++ [line]) !! other
       = DeployVm.parse_vars lines !! other.
Proof.
  intros Hline Hkey Hhash. unfold DeployVm.parse_vars.
  rewrite fold_left_app. cbn [fold_left].
  unfold DeployVm.read_vars_line at 1 3.
  rewrite Hhash. rewrite Hline, contains_char_assignment, split1_assignment by exact Hkey.
  assert (truthy (key +:+ String "=" value) = true) as -> by by destruct key.
  cbn [negb andb].
  split; [apply lookup_insert_eq|]. intros other Hne. by apply lookup_insert_ne.
Qed.

Lemma fold_left_filter_neutral {A B} (f : A -> B -> A) (keep : B -> bool) l :
  (forall a x, keep x = false -> f a x = a) ->
  forall a, fold_left f (List.filter keep l) a = fold_left f l a.
Proof.
  intros Hneutral. induction l as [|x l IH]; intros a; [reflexivity|].
  cbn. destruct (keep x) eqn:Hx; cbn; [apply IH|].
  rewrite (Hneutral a x Hx). apply IH.
Qed.

(** X12.  Lines that do not count.  Deleting from the file every line
    without an '=' changes nothing for the update script's loader; deleting
    every blank line, every line whose first non-blank character is '#', and
    every line without an '=' changes nothing for the provisioning
    scripts' loader. *)
Theorem loaders_ignore_other_lines lines :
  UpdateCategories.parse_vars
    (List.filter (fun l => contains_char "=" (strip l)) lines)
  = UpdateCategories.parse_vars lines
  /\ DeployVm.parse_vars
       (List.filter (fun l => negb (is_blank_or_comment l)
                              && contains_char "=" (strip l)) lines)
     = DeployVm.parse_vars lines.
Proof.
  split.
  - apply fold_left_filter_neutral. intros d line Hl.
    unfold UpdateCategories.read_vars_line. by rewrite Hl.
  - apply fold_left_filter_neutral. intros d line Hl.
    unfold DeployVm.read_vars_line, is_blank_or_comment in *.
    destruct (truthy (strip line)); [|reflexivity].
    destruct (startswith "#" (strip line)); [reflexivity|].
    cbn in Hl. by rewrite Hl.
Qed.

End BuilderAndLoaders.

(** ** The selection prompt *)

Section Prompt.
Import PyStr Eff DeployVm DeployObs.

Lemma prompts_cons_input l : prompts (EInput :: l) = S (prompts l).
Proof. reflexivity. Qed.

Lemma prompts_cons_print m l : prompts (EPrint m :: l) = prompts l.
Proof. reflexivity. Qed.

(** X13.  The prompt loop of [select_from_list], answer by answer: it skips
    every invalid answer (not a quit word, and not an integer within
    0..len-1 that [int()] accepts), asking again each time; it returns the item at the first valid
    index typed, which is therefore one of the listed items; it exits with
    status 0 at the first quit word (q, quit, exit, in any case); and if the
    input ends first, [input()] raises EOFError.  It reads no line beyond the
    one that decides, and prompts once per line read. *)
Theorem select_loop_spec {E} (items : list (item E)) (lines : list string) :
  match select_loop items lines with
  | (Ret selected, rest, evs) =>
      exists skipped answer k,
        lines = skipped ++ answer :: rest
        /\ Forall (invalid (length items)) skipped
        /\ choice (length items) answer = Some k
        /\ items !! k = Some selected
        /\ prompts evs = length skipped + 1
  | (Exit c, rest, evs) =>
      c = 0%Z
      /\ exists skipped answer,
           lines = skipped ++ answer :: rest
           /\ Forall (invalid (length items)) skipped
           /\ is_quit answer = true
           /\ prompts evs = length skipped + 1
  | (Uncaught e, rest, evs) =>
      e = "EOFError" /\ rest = []
      /\ Forall (invalid (length items)) lines
      /\ prompts evs = length lines + 1
  end.
Proof.
  induction lines as [|line lines IH]; cbn [select_loop].
  - repeat split. constructor.
  - fold (is_quit line). destruct (is_quit line) eqn:Hq.
    { split; [reflexivity|]. exists [], line. by repeat split. }
    assert (forall m,
      choice (length items) line = None ->
      match (let '(o, rest', evs) := select_loop items lines in
             (o, rest', EInput :: EPrint m :: evs)) with
      | (Ret selected, rest, evs) =>
          exists skipped answer k,
            line :: lines = skipped ++ answer :: rest
            /\ Forall (invalid (length items)) skipped
            /\ choice (length items) answer = Some k
            /\ items !! k = Some selected
            /\ prompts evs = length skipped + 1
      | (Exit c, rest, evs) =>
          c = 0%Z
          /\ exists skipped answer,
               line :: lines = skipped ++ answer :: rest
               /\ Forall (invalid (length items)) skipped
               /\ is_quit answer = true
               /\ prompts evs = length skipped + 1
      | (Uncaught e, rest, evs) =>
          e = "EOFError" /\ rest = []
          /\ Forall (invalid (length items)) (line :: lines)
          /\ prompts evs = length (line :: lines) + 1
      end) as Hagain.
    { intros m Hnone.
      destruct (select_loop items lines) as [[[selected|c|e] rest] evs].
      - destruct IH as (skipped & answer & k & -> & Hsk & Hch & Hk & Hpr).
        exists (line :: skipped), answer, k. repeat split; try done.
        + by constructor.
        + rewrite prompts_cons_input, prompts_cons_print, Hpr. reflexivity.
      - destruct IH as (-> & skipped & answer & -> & Hsk & Hqu & Hpr).
        split; [reflexivity|]. exists (line :: skipped), answer.
        repeat split; try done.
        + by constructor.
        + rewrite prompts_cons_input, prompts_cons_print, Hpr. reflexivity.
      - destruct IH as (-> & -> & Hsk & Hpr). repeat split; try done.
        + by constructor.
        + rewrite prompts_cons_input, prompts_cons_print, Hpr. reflexivity. }
    assert (choice (length items) line
            = match py_int (strip line) with
              | Some index =>
                  if (0 <=? index)%Z && (index <? Z.of_nat (length items))%Z
                  then Some (Z.to_nat index) else None
              | None => None
              end) as Hchoice by (unfold choice; by rewrite Hq).
    destruct (py_int (strip line)) as [index|]; [|by apply Hagain].
    destruct ((0 <=? index)%Z && (index <? Z.of_nat (length items))%Z) eqn:Hrange;
      [|by apply Hagain].
    apply andb_true_iff in Hrange as [Hlo%Z.leb_le Hhi%Z.ltb_lt].
    destruct (items !! Z.to_nat index) as [selected|] eqn:Hsel.
    + exists [], line, (Z.to_nat index). by repeat split.
    + apply lookup_ge_None in Hsel. lia.
Qed.

End Prompt.

(** ** Lookup by name and the creation payload *)

Section LookupAndPayload.
Import PyStr Eff DeployVm DeployObs.

(** X14.  The lookup by name, in full.  It answers with the FIRST entry
    whose name is exactly the requested one; failing any, with the FIRST
    entry whose name equals it when both are lower-cased; failing that too,
    with nothing.  (An entry without a name counts as named "".) *)
Theorem find_by_name_spec {E} (get_name : E -> option string)
    (entries : list E) (wanted : string) :
  match find_by_name get_name entries wanted with
  | Some (true, e) =>
      exists before after,
        entries = before ++ e :: after
        /\ entry_name get_name e = wanted
        /\ Forall (fun e' => entry_name get_name e' <> wanted) before
  | Some (false, e) =>
      Forall (fun e' => entry_name get_name e' <> wanted) entries
      /\ exists before after,
           entries = before ++ e :: after
           /\ lower (entry_name get_name e) = lower wanted
           /\ Forall (fun e' => lower (entry_name get_name e') <> lower wanted) before
  | None =>
      Forall (fun e' => lower (entry_name get_name e') <> lower wanted) entries
  end.
Proof.
  assert (forall (p : E -> bool),
             match List.find p entries with
             | Some e => exists before after,
                           entries = before ++ e :: after /\ p e = true
                           /\ Forall (fun e' => p e' = false) before
             | None => Forall (fun e' => p e' = false) entries
             end) as Hfind.
  { intros p. induction entries as [|x xs IH]; cbn [List.find]; [constructor|].
    destruct (p x) eqn:Hx.
    - exists [], xs. by repeat split.
    - destruct (List.find p xs) as [e|].
      + destruct IH as (before & after & -> & He & Hb).
        exists (x :: before), after. repeat split; try done. by constructor.
      + by constructor. }
  unfold find_by_name, entry_name.
  pose proof (Hfind (fun e => String.eqb (default "" (get_name e)) wanted)) as H1.
  destruct (List.find _ entries) as [e|].
  - destruct H1 as (before & after & -> & He%String.eqb_eq & Hb).
    exists before, after. repeat split; try done.
    eapply Forall_impl; [exact Hb|]. intros e' He'. by apply String.eqb_neq.
  - pose proof (Hfind (fun e => String.eqb (lower (default "" (get_name e)))
                                           (lower wanted))) as H2.
    destruct (List.find _ entries) as [e|].
    + split.
      * eapply Forall_impl; [exact H1|]. intros e' He'. by apply String.eqb_neq.
      * destruct H2 as (before & after & -> & He%String.eqb_eq & Hb).
        exists before, after. repeat split; try done.
        eapply Forall_impl; [exact Hb|]. intros e' He'. by apply String.eqb_neq.
    + eapply Forall_impl; [exact H2|]. intros e' He'. by apply String.eqb_neq.
Qed.

Lemma boot_step_known acc t :
  known_boot_type t = true ->
  boot_step acc t = acc ++ [{| bootDeviceType := t; bootDeviceOrder := length acc |}].
Proof.
  unfold known_boot_type, boot_step.
  destruct (String.eqb_spec t "DISK") as [->|]; [done|].
  destruct (String.eqb_spec t "CDROM") as [->|]; [done|].
  destruct (String.eqb_spec t "NETWORK") as [->|]; done.
Qed.

Lemma boot_step_unknown acc t : known_boot_type t = false -> boot_step acc t = acc.
Proof.
  unfold known_boot_type, boot_step.
  destruct (String.eqb t "DISK"); [done|].
  destruct (String.eqb t "CDROM"); [done|].
  destruct (String.eqb t "NETWORK"); done.
Qed.

Lemma boot_loop_spec (order : list string) : forall acc : list boot_device,
  map bootDeviceType (fold_left boot_step order acc)
    = map bootDeviceType acc ++ List.filter known_boot_type order
  /\ map bootDeviceOrder (fold_left boot_step order acc)
     = map bootDeviceOrder acc
       ++ seq (length acc) (length (List.filter known_boot_type order)).
Proof.
  induction order as [|t order IH]; intros acc; cbn [fold_left List.filter].
  - cbn. by rewrite !app_nil_r.
  - destruct (known_boot_type t) eqn:Ht.
    + rewrite (boot_step_known acc t Ht).
      destruct (IH (acc ++ [{| bootDeviceType := t; bootDeviceOrder := length acc |}]))
        as [IH1 IH2].
      rewrite IH1, IH2, !map_app, length_app, <- !app_assoc.
      cbn [map app length seq bootDeviceType bootDeviceOrder].
      by rewrite Nat.add_1_r.
    + rewrite (boot_step_unknown acc t Ht). apply IH.
Qed.

(** X15.  The boot configuration of the creation payload, for any setting
    of BOOT_ORDER: the devices are the entries of BOOT_ORDER that are DISK,
    CDROM or NETWORK, in that order (any other entry is dropped), numbered
    0, 1, 2, ... without gaps; the single disk and the single NIC point at
    the selected image and subnet. *)
Theorem boot_devices_numbered_in_order cfg vm_name image network :
  let body := create_vm_payload cfg vm_name image network in
  map bootDeviceType (bootConfig_bootDevices body)
    = List.filter known_boot_type (BOOT_ORDER cfg)
  /\ map bootDeviceOrder (bootConfig_bootDevices body)
     = seq 0 (length (List.filter known_boot_type (BOOT_ORDER cfg)))
  /\ map dataSourceReference_extId (disks body) = [ext_id image]
  /\ map networkInfo_subnet_extId (nics body) = [ext_id network].
Proof.
  intros body. subst body. unfold create_vm_payload.
  cbn [bootConfig_bootDevices disks nics map dataSourceReference_extId
       networkInfo_subnet_extId].
  destruct (boot_loop_spec (BOOT_ORDER cfg) []) as [H1 H2].
  unfold boot_step in H1, H2. by rewrite H1, H2.
Qed.

End LookupAndPayload.

(** ** Exit statuses, fatal diagnostics and standard input *)

Section Tidy.
Import PyStr Eff DeployVm DeployPhases DeployObs.
Context {World : Type} `{Env World}.

Local Abbreviation tidy := (DeployObs.tidy (World := World)).

Lemma tidy_ret {A} (a : A) : tidy (ret a).
Proof.
  intros s. cbn. repeat split; [done|discriminate|].
  intros e He. by apply elem_of_nil in He.
Qed.

Lemma tidy_sys_exit {A} c : c = 0%Z \/ c = 1%Z -> tidy (sys_exit (A := A) c).
Proof.
  intros Hc s. cbn. repeat split; [done|by intros ? [= <-]|].
  intros e He. by apply elem_of_nil in He.
Qed.

Lemma tidy_raise {A} e : tidy (raise (A := A) e).
Proof.
  intros s. cbn. repeat split; [done|discriminate|].
  intros e' He. by apply elem_of_nil in He.
Qed.

Lemma tidy_print m : fatal (EPrint m) = false -> tidy (print m).
Proof.
  intros Hm s. cbn. repeat split; [done|discriminate|].
  intros e He%list_elem_of_singleton Hf. subst e. congruence.
Qed.

Lemma tidy_emit_request method url hdrs body :
  tidy (emit (ERequest method url hdrs body)).
Proof.
  intros s. cbn. repeat split; [done|discriminate|].
  intros e He%list_elem_of_singleton Hf. subst e. discriminate.
Qed.

(** A fatal diagnostic followed at once by [sys.exit(1)]. *)
Lemma tidy_give_up {A} m : tidy (bind (print m) (fun _ => sys_exit (A := A) 1)).
Proof.
  intros s. cbn. split; [done|]. split; [intros ? [= <-]; by right|by intros].
Qed.

Lemma tidy_ask {A} (f : World -> A * World) : tidy (ask f).
Proof.
  intros s. unfold ask. destruct (f (world s)) as [a w]. cbn.
  repeat split; [done|discriminate|]. intros e He. by apply elem_of_nil in He.
Qed.

Lemma tidy_input : tidy input.
Proof.
  intros s. unfold input. destruct (stdin s) as [|line rest] eqn:Hs; cbn.
  - rewrite Hs. repeat split; [done|discriminate|].
    intros e He%list_elem_of_singleton Hf. subst e. discriminate.
  - repeat split; [by apply suffix_cons_r|discriminate|].
    intros e He%list_elem_of_singleton Hf. subst e. discriminate.
Qed.

Lemma tidy_bind {A B} (m : M (state World) event A) (k : A -> M (state World) event B) :
  tidy m -> (forall a, tidy (k a)) -> tidy (bind m k).
Proof.
  intros Hm Hk s. destruct (Hm s) as (Hm1 & Hm2 & Hm3). unfold bind.
  destruct (m s) as [[[a|c|e] s1] l1]; cbn [final result log fst snd] in *.
  - destruct (Hk a s1) as (Hk1 & Hk2 & Hk3).
    destruct (k a s1) as [[o s2] l2]. cbn [final result log fst snd] in *.
    split; [by etrans|]. split; [exact Hk2|].
    intros e [He|He]%elem_of_app Hf; [|by apply (Hk3 e)].
    by specialize (Hm3 e He Hf).
  - split; [exact Hm1|]. split.
    + intros c0 [= <-]. by apply Hm2.
    + intros e He Hf. by injection (Hm3 e He Hf) as ->.
  - split; [exact Hm1|]. split; [discriminate|].
    intros e' He Hf. by specialize (Hm3 e' He Hf).
Qed.

Lemma tidy_try_except_all {A} (m h : M (state World) event A) :
  tidy m -> tidy h -> (forall s, result (h s) = Exit 1) ->
  tidy (try_except_all m h).
Proof.
  intros Hm Hh Hexit s. destruct (Hm s) as (Hm1 & Hm2 & Hm3). unfold try_except_all.
  destruct (m s) as [[[a|c|e] s1] l1]; cbn [final result log fst snd] in *.
  - split; [exact Hm1|]. split; [exact Hm2|exact Hm3].
  - specialize (Hexit s1). destruct (Hh s1) as (Hh1 & Hh2 & Hh3).
    destruct (h s1) as [[o s2] l2]. cbn [final result log fst snd] in *.
    split; [by etrans|]. split; [exact Hh2|by intros].
  - specialize (Hexit s1). destruct (Hh s1) as (Hh1 & Hh2 & Hh3).
    destruct (h s1) as [[o s2] l2]. cbn [final result log fst snd] in *.
    split; [by etrans|]. split; [exact Hh2|by intros].
Qed.

Lemma tidy_try_except_Exception {A} (m h : M (state World) event A) :
  tidy m -> tidy h -> tidy (try_except_Exception m h).
Proof.
  intros Hm Hh s. destruct (Hm s) as (Hm1 & Hm2 & Hm3). unfold try_except_Exception.
  destruct (m s) as [[[a|c|e] s1] l1]; cbn [final result log fst snd] in *.
  - split; [exact Hm1|]. split; [exact Hm2|exact Hm3].
  - split; [exact Hm1|]. split; [exact Hm2|exact Hm3].
  - destruct (Hh s1) as (Hh1 & Hh2 & Hh3).
    destruct (h s1) as [[o s2] l2]. cbn [final result log fst snd] in *.
    split; [by etrans|]. split; [exact Hh2|].
    intros e' [He|He]%elem_of_app Hf; [|by apply (Hh3 e')].
    by specialize (Hm3 e' He Hf).
Qed.

Lemma select_loop_tidy {E} (items : list (item E)) lines :
  (select_loop items lines).1.2 `suffix_of` lines
  /\ (forall c, (select_loop items lines).1.1 = Exit c -> c = 0%Z)
  /\ Forall (fun e => fatal e = false) (select_loop items lines).2.
Proof.
  induction lines as [|line rest (IH1 & IH2 & IH3)]; cbn [select_loop].
  - split; [done|]. split; [discriminate|by repeat constructor].
  - assert (forall m, fatal (EPrint m) = false ->
      let r := (let '(o, rest', evs) := select_loop items rest in
                (o, rest', EInput :: EPrint m :: evs)) in
      r.1.2 `suffix_of` line :: rest
      /\ (forall c, r.1.1 = Exit c -> c = 0%Z)
      /\ Forall (fun e => fatal e = false) r.2) as Hagain.
    { intros m Hm. destruct (select_loop items rest) as [[o r] evs].
      cbn [fst snd] in *. split; [by apply suffix_cons_r|]. split; [exact IH2|].
      constructor; [done|]. by constructor. }
    destruct (bool_decide (lower (strip line) ∈ ["q"; "quit"; "exit"])).
    { cbn [fst snd]. split; [by apply suffix_cons_r|].
      split; [by intros ? [= <-]|by repeat constructor]. }
    destruct (py_int (strip line)) as [index|]; [|by apply Hagain].
    destruct ((0 <=? index)%Z && (index <? Z.of_nat (length items))%Z);
      [|by apply Hagain].
    destruct (items !! Z.to_nat index); cbn [fst snd];
      (split; [by apply suffix_cons_r|]); (split; [discriminate|]);
      by repeat constructor.
Qed.

Lemma tidy_select_from_list {E} (items : list (item E)) : tidy (select_from_list items).
Proof.
  destruct items as [|i items].
  - apply tidy_bind; [by apply tidy_print|intros; apply tidy_ret].
  - intros s. unfold select_from_list.
    destruct (select_loop_tidy (i :: items) (stdin s)) as (H1 & H2 & H3).
    destruct (select_loop (i :: items) (stdin s)) as [[[a|c|e] r] evs];
      cbn [final result log fst snd stdin] in *.
    + repeat split; [done|discriminate|].
      intros e He Hf. rewrite Forall_forall in H3. rewrite (H3 e He) in Hf. done.
    + repeat split; [done|intros ? [= <-]; left; by apply H2|].
      intros e He Hf. rewrite Forall_forall in H3. rewrite (H3 e He) in Hf. done.
    + repeat split; [done|discriminate|].
      intros e' He Hf. rewrite Forall_forall in H3. rewrite (H3 e' He) in Hf. done.
Qed.

Lemma tidy_make_api_request {A} method url hdrs data
    (exchange : World -> api_outcome A * World) :
  tidy (make_api_request method url hdrs data exchange).
Proof.
  unfold make_api_request.
  apply tidy_bind; [apply tidy_emit_request|intros _].
  apply tidy_bind; [apply tidy_ask|intros [|d]].
  - apply tidy_give_up.
  - apply tidy_ret.
Qed.

Ltac tidy_tac :=
  repeat first
    [ apply tidy_ret | apply tidy_raise | apply tidy_give_up
    | apply tidy_sys_exit; auto
    | apply tidy_make_api_request | apply tidy_ask | apply tidy_input
    | apply tidy_select_from_list
    | apply tidy_print; reflexivity
    | apply tidy_try_except_Exception
    | apply tidy_try_except_all; [| |intros ?; reflexivity]
    | apply tidy_bind; [|intros ?]
    | case_match ].

Lemma tidy_phased cfg cli vm_name vars_file : tidy (phased cfg cli vm_name vars_file).
Proof.
  unfold phased, safety_check, prepare, connect, choose_image, choose_network, finish,
    read_vars_file, find_image_by_name, find_network_by_name, list_images,
    list_networks, deploy_vm.
  cbv zeta. tidy_tac.
Qed.

(** X16.  Exit discipline of the provisioning script.  Running [main]
    (either script) from the command line on: if it exits through
    [sys.exit] the status is 0, 1 or 2, and it is 2 exactly when the script
    is the one with a command line and [argparse] rejects it; if it has
    printed any fatal diagnostic (safety check, configuration missing, API
    request failed, connection failed, named image or subnet not found,
    nothing to select from, deployment failed) its exit status is 1; and it
    only ever takes lines from the front of standard input. *)
Theorem fatal_diagnostics_exit_1 cfg argv vm_name vars_file (w : World) typed :
  let r := DeployVm.run cfg argv vm_name vars_file w typed in
  (forall c, result r = Exit c -> c = 0%Z \/ c = 1%Z \/ c = 2%Z)
  /\ (result r = Exit 2 <-> has_cli cfg = true /\ argv = UsageError)
  /\ (forall e, e ∈ log r -> fatal e = true -> result r = Exit 1)
  /\ stdin (final r) `suffix_of` typed.
Proof.
  intros r. subst r. unfold DeployVm.run. rewrite main_cases.
  assert (Hphased : forall cli,
    let r := phased cfg cli vm_name vars_file {| world := w; stdin := typed |} in
    (forall c, result r = Exit c -> c = 0%Z \/ c = 1%Z)
    /\ (forall e, e ∈ log r -> fatal e = true -> result r = Exit 1)
    /\ stdin (final r) `suffix_of` typed).
  { intros cli.
    destruct (tidy_phased cfg cli vm_name vars_file {| world := w; stdin := typed |})
      as (H1 & H2 & H3).
    by repeat split. }
  assert (Hnot2 : forall cli,
    result (phased cfg cli vm_name vars_file {| world := w; stdin := typed |}) <> Exit 2).
  { intros cli H2. destruct (Hphased cli) as (Hc & _ & _).
    destruct (Hc 2%Z H2); discriminate. }
  destruct (has_cli cfg) eqn:Hcli; [destruct argv as [| |cli]|].
  - cbn. split; [intros c [= <-]; by left|]. split; [split; [discriminate|]|].
    { intros [_ [=]]. }
    split; [intros e He; by apply elem_of_nil in He|done].
  - cbn. split; [intros c [= <-]; by right; right|]. split; [done|].
    split; [intros e He; by apply elem_of_nil in He|done].
  - destruct (Hphased cli) as (Hc & Hf & Hs). split; [|split; [|by split]].
    + intros c Hexit. destruct (Hc c Hexit); [by left|by right; left].
    + split; [intros H2; by destruct (Hnot2 cli)|intros [_ [=]]].
  - destruct (Hphased no_args) as (Hc & Hf & Hs). split; [|split; [|by split]].
    + intros c Hexit. destruct (Hc c Hexit); [by left|by right; left].
    + split; [intros H2; by destruct (Hnot2 no_args)|intros [[=] _]].
Qed.

Lemma tidy_prepare wanted_image wanted_subnet vars_file :
  tidy (prepare wanted_image wanted_subnet vars_file).
Proof.
  unfold prepare, connect, choose_image, choose_network,
    read_vars_file, find_image_by_name, find_network_by_name, list_images,
    list_networks.
  cbv zeta. tidy_tac.
Qed.

(** [main], phase by phase, for either script. *)
Lemma phased_shape cfg cli vm_name vars_file (s : state World) :
  let cli' := if has_cli cfg then cli else no_args in
  phased cfg cli vm_name vars_file s
  = if has_cli cfg && negb (do_it cli') && negb (ALLOW_EXECUTION_WITHOUT_DOIT cfg)
    then (Exit 1, s, [EPrint MSafetyCheck])
    else
      let banner := if dry_run cli' then [EPrint MDryRunBanner] else [] in
      match prepare (image_name cli') (subnet cli') vars_file s with
      | (Ret sel, s1, l1) =>
          let '(o, s2, l2) := finish cfg (dry_run cli') vm_name sel s1 in
          (o, s2, banner ++ l1 ++ l2)
      | (Exit c, s1, l1) => (Exit c, s1, banner ++ l1)
      | (Uncaught e, s1, l1) => (Uncaught e, s1, banner ++ l1)
      end.
Proof.
  intros cli'. unfold phased. fold cli'. unfold bind at 1.
  rewrite safety_check_run.
  destruct (has_cli cfg && negb (do_it cli') && negb (ALLOW_EXECUTION_WITHOUT_DOIT cfg));
    [reflexivity|].
  unfold bind.
  destruct (prepare (image_name cli') (subnet cli') vars_file s)
    as [[[sel|c|e] s1] l1]; try reflexivity.
  by destruct (finish cfg (dry_run cli') vm_name sel s1) as [[o s2] l2].
Qed.

(** What the last phase can do. *)
Lemma finish_outcomes cfg dry vm_name sel (s1 : state World) :
  let r := finish cfg dry vm_name sel s1 in
  let body := create_vm_payload cfg vm_name (sel_image sel) (sel_network sel) in
  (omap posted (log r) = []
   \/ (omap posted (log r) = [body] /\ dry = false
       /\ exists line rest, stdin s1 = line :: rest /\ confirms line = true))
  /\ (result r = Ret tt ->
      omap posted (log r) = [body] /\ exists d, EPrint (MDeployOk d) ∈ log r)
  /\ (result r = Exit 0 -> omap posted (log r) = []).
Proof.
  intros r body. subst r body.
  unfold finish, deploy_vm, make_api_request, try_except_Exception, input, confirms.
  unfold bind, print, emit, ask, ret, sys_exit, log, result.
  destruct dry; [cbn; split; [by left|split; [discriminate|done]]|].
  destruct (stdin s1) as [|line rest] eqn:Hin;
    [cbn; split; [by left|split; [discriminate|discriminate]]|].
  destruct (bool_decide (lower (strip line) ∈ ["y"; "yes"])) eqn:Hyes;
    cbn [negb]; [|cbn; split; [by left|split; [discriminate|done]]].
  repeat (case_match; simplify_eq; cbn [fst snd app omap posted]);
    (split; [right; split; [reflexivity|split; [reflexivity|eauto]]|]);
    (split; [intros; try discriminate|intros; try discriminate]);
    try (split; [reflexivity|]);
    try (eexists; repeat (apply elem_of_cons; first [left; reflexivity|right])).
Qed.

Lemma phased_success cfg cli vm_name vars_file (s : state World) :
  let r := phased cfg cli vm_name vars_file s in
  (result r = Ret tt ->
   exists body d, omap posted (log r) = [body] /\ EPrint (MDeployOk d) ∈ log r)
  /\ (result r = Exit 0 -> omap posted (log r) = []).
Proof.
  intros r. subst r. rewrite phased_shape.
  set (cli' := if has_cli cfg then cli else no_args).
  destruct (has_cli cfg && negb (do_it cli') && negb (ALLOW_EXECUTION_WITHOUT_DOIT cfg));
    [split; discriminate|].
  pose proof (quiet_prepare (image_name cli') (subnet cli') vars_file s) as Hq.
  destruct (prepare (image_name cli') (subnet cli') vars_file s)
    as [[[sel|c|e] s1] l1]; cbn [log snd] in Hq;
    destruct (harmless_log l1 Hq) as (Hposted & _ & _).
  - destruct (finish_outcomes cfg (dry_run cli') vm_name sel s1) as (_ & Hret & Hexit).
    destruct (finish cfg (dry_run cli') vm_name sel s1) as [[o s2] l2].
    cbn [log result fst snd] in *.
    assert (omap posted (if dry_run cli' then [EPrint MDryRunBanner] else []) = [])
      as Hbanner by by destruct (dry_run cli').
    rewrite !omap_app, Hposted, Hbanner. cbn [app]. split.
    + intros Ho. specialize (Hret Ho). destruct Hret as (Hp & d & Hd).
      eexists _, d. split; [exact Hp|]. set_solver.
    + exact Hexit.
  - cbn [log result fst snd]. split; [discriminate|]. intros _.
    rewrite omap_app, Hposted. by destruct (dry_run cli').
  - cbn [log result fst snd]. split; discriminate.
Qed.

(** X17.  What the exit of the provisioning script tells.  If [main]
    returns normally, exactly one creation request was sent and the
    "deployment initiated" line was printed; if it exits with status 0 (help
    shown, dry run finished, deployment declined, or quit typed at a
    prompt), no creation request was sent. *)
Theorem success_means_created cfg argv vm_name vars_file (w : World) typed :
  let r := DeployVm.run cfg argv vm_name vars_file w typed in
  (result r = Ret tt ->
   exists body d, omap posted (log r) = [body] /\ EPrint (MDeployOk d) ∈ log r)
  /\ (result r = Exit 0 -> omap posted (log r) = []).
Proof.
  intros r. subst r. unfold DeployVm.run. rewrite main_cases.
  destruct (if has_cli cfg then argv else Parsed no_args) as [| |cli].
  - split; [discriminate|reflexivity].
  - split; discriminate.
  - apply phased_success.
Qed.

Lemma phased_consent cfg cli vm_name vars_file (s : state World) body :
  body ∈ omap posted (log (phased cfg cli vm_name vars_file s)) ->
  omap posted (log (phased cfg cli vm_name vars_file s)) = [body]
  /\ dry_run (if has_cli cfg then cli else no_args) = false
  /\ (has_cli cfg = true ->
      do_it cli = true \/ ALLOW_EXECUTION_WITHOUT_DOIT cfg = true)
  /\ exists line, line ∈ stdin s /\ confirms line = true.
Proof.
  rewrite phased_shape.
  set (cli' := if has_cli cfg then cli else no_args).
  destruct (has_cli cfg && negb (do_it cli') && negb (ALLOW_EXECUTION_WITHOUT_DOIT cfg))
    eqn:Hgate; [cbn; intros Hin; by apply elem_of_nil in Hin|].
  pose proof (quiet_prepare (image_name cli') (subnet cli') vars_file s) as Hq.
  destruct (tidy_prepare (image_name cli') (subnet cli') vars_file s) as (Hsuffix & _).
  assert (omap posted (if dry_run cli' then [EPrint MDryRunBanner] else []) = [])
    as Hbanner by by destruct (dry_run cli').
  destruct (prepare (image_name cli') (subnet cli') vars_file s)
    as [[[sel|c|e] s1] l1]; cbn [log final fst snd] in Hq, Hsuffix;
    destruct (harmless_log l1 Hq) as (Hposted & _ & _).
  - destruct (finish_outcomes cfg (dry_run cli') vm_name sel s1) as (Hpost & _ & _).
    destruct (finish cfg (dry_run cli') vm_name sel s1) as [[o s2] l2].
    cbn [log fst snd] in *. rewrite !omap_app, Hposted, Hbanner. cbn [app].
    destruct Hpost as [-> | (-> & Hdry & line & rest & Hin & Hyes)];
      [intros Hb; by apply elem_of_nil in Hb|].
    intros ->%list_elem_of_singleton. split; [reflexivity|]. split; [exact Hdry|].
    split.
    + intros Hcli. subst cli'. rewrite Hcli in Hgate. cbn in Hgate.
      destruct (do_it cli); [by left|]. destruct (ALLOW_EXECUTION_WITHOUT_DOIT cfg);
        [by right|discriminate].
    + exists line. split; [|exact Hyes].
      destruct Hsuffix as [k Hk].
      rewrite Hk, Hin. set_solver.
  - cbn [log snd]. rewrite omap_app, Hposted, Hbanner. intros Hb.
    by apply elem_of_nil in Hb.
  - cbn [log snd]. rewrite omap_app, Hposted, Hbanner. intros Hb.
    by apply elem_of_nil in Hb.
Qed.

(** X18.  No creation request without consent.  If the log of a run holds
    a POST, then it holds exactly one; if the script is the one with a
    command line, the command line parsed, it did not ask for a dry run, and
    the safety check was passed (--do-it given, or the bypass constant set);
    and a line typed on standard input answered the confirmation prompt with
    y or yes (any case, blanks around allowed). *)
Theorem no_post_without_confirmation cfg argv vm_name vars_file (w : World) typed body :
  body ∈ omap posted (log (DeployVm.run cfg argv vm_name vars_file w typed)) ->
  omap posted (log (DeployVm.run cfg argv vm_name vars_file w typed)) = [body]
  /\ (has_cli cfg = true ->
      exists cli, argv = Parsed cli /\ dry_run cli = false
                  /\ (do_it cli = true \/ ALLOW_EXECUTION_WITHOUT_DOIT cfg = true))
  /\ exists line, line ∈ typed /\ confirms line = true.
Proof.
  unfold DeployVm.run. rewrite main_cases.
  destruct (has_cli cfg) eqn:Hcli; [destruct argv as [| |cli]|].
  - cbn. intros Hb. by apply elem_of_nil in Hb.
  - cbn. intros Hb. by apply elem_of_nil in Hb.
  - intros Hb. destruct (phased_consent _ _ _ _ _ _ Hb) as (Hone & Hdry & Hgate & Hline).
    rewrite Hcli in Hdry, Hgate. split; [exact Hone|]. split; [|exact Hline].
    intros _. exists cli. split; [reflexivity|]. split; [exact Hdry|by apply Hgate].
  - intros Hb. destruct (phased_consent _ _ _ _ _ _ Hb) as (Hone & _ & _ & Hline).
    split; [exact Hone|]. split; [discriminate|exact Hline].
Qed.

End Tidy.

(** ** Interactive selection from the listed inventory *)

Section Interactive.
Import PyStr Eff DeployVm DeployObs.
Context {World : Type} `{Env World}.

Lemma select_loop_answer {E} (items : list (item E)) answer rest k selected :
  choice (length items) answer = Some k ->
  items !! k = Some selected ->
  select_loop items (answer :: rest)
  = (Ret selected, rest,
     [EInput; EPrint (MSelected (name selected) (ext_id selected))]).
Proof.
  unfold choice, is_quit. cbn [select_loop]. intros Hchoice Hsel.
  destruct (bool_decide (lower (strip answer) ∈ ["q"; "quit"; "exit"]));
    [discriminate|].
  destruct (py_int (strip answer)) as [index|]; [|discriminate].
  destruct ((0 <=? index)%Z && (index <? Z.of_nat (length items))%Z);
    [|discriminate].
  injection Hchoice as ->. by rewrite Hsel.
Qed.

(** X19.  Listing then choosing.  When the API lists a non-empty inventory
    and the next line typed is a valid index into it, [list_images] followed
    by [select_from_list] returns the entry the API listed at that position
    (first entry is 0), with a missing name, type or extId shown as
    "Unknown"; one GET is made, the one line is consumed, the prompt is shown
    once.  The same holds for [list_networks]. *)
Theorem listed_index_selects_entry base_url hdrs (s : state World) w' answer rest k :
  stdin s = answer :: rest ->
  (forall entries e,
      get_images (base_url +:+ "/vmm/v4.1/content/images") hdrs (world s)
        = (ApiData (Some entries), w') ->
      choice (length entries) answer = Some k ->
      entries !! k = Some e ->
      bind (list_images base_url hdrs) select_from_list s
      = (Ret (Some {| name := default "Unknown" (img_name e);
                      type_ := default "Unknown" (img_type e);
                      ext_id := default "Unknown" (img_extId e);
                      data := e |}),
         {| world := w'; stdin := rest |},
         [ERequest GET (base_url +:+ "/vmm/v4.1/content/images") hdrs None;
          EInput;
          EPrint (MSelected (default "Unknown" (img_name e))
                            (default "Unknown" (img_extId e)))]))
  /\ (forall entries e,
        get_subnets (base_url +:+ "/networking/v4.1/config/subnets") hdrs (world s)
          = (ApiData (Some entries), w') ->
        choice (length entries) answer = Some k ->
        entries !! k = Some e ->
        bind (list_networks base_url hdrs) select_from_list s
        = (Ret (Some {| name := default "Unknown" (net_name e);
                        type_ := default "Unknown" (net_subnetType e);
                        ext_id := default "Unknown" (net_extId e);
                        data := e |}),
           {| world := w'; stdin := rest |},
           [ERequest GET (base_url +:+ "/networking/v4.1/config/subnets") hdrs None;
            EInput;
            EPrint (MSelected (default "Unknown" (net_name e))
                              (default "Unknown" (net_extId e)))])).
Proof.
  intros Hin. split; intros entries e Hget Hchoice He.
  - unfold list_images, make_api_request.
    unfold bind, emit, ask, ret. cbn [world stdin]. rewrite Hget.
    destruct entries as [|x xs]; [by rewrite lookup_nil in He|].
    cbn [world stdin]. unfold select_from_list.
    cbn [map]. cbn [stdin world]. rewrite Hin.
    change (image_item x :: map image_item xs) with (map image_item (x :: xs)).
    rewrite (select_loop_answer (map image_item (x :: xs)) answer rest k (image_item e)).
    + reflexivity.
    + by rewrite length_map.
    + by rewrite list_lookup_fmap, He.
  - unfold list_networks, make_api_request.
    unfold bind, emit, ask, ret. cbn [world stdin]. rewrite Hget.
    destruct entries as [|x xs]; [by rewrite lookup_nil in He|].
    cbn [world stdin]. unfold select_from_list.
    cbn [map]. cbn [stdin world]. rewrite Hin.
    change (network_item x :: map network_item xs) with (map network_item (x :: xs)).
    rewrite (select_loop_answer (map network_item (x :: xs)) answer rest k
               (network_item e)).
    + reflexivity.
    + by rewrite length_map.
    + by rewrite list_lookup_fmap, He.
Qed.

End Interactive.

(** ** When the sink writes nothing *)

Section SinkNoop.
Import PyStr Eff Spec Obs UpdateCategories.
Context {World : Type} `{Env World}.

(** X20.  When the workbook cannot be loaded or saved, or when no header of
    row 1 names a status or a timestamp column, a call of
    [update_excel_status] leaves the sheet exactly as it was; the call is not
    fatal, and in the second case the script even prints its "Updated Excel
    file" line. *)
Theorem sink_leaves_sheet_alone index status timestamp (s : state World) ok w' :
  workbook_io (world s) = (ok, w') ->
  ok = false
  \/ (forall col, 1 <= col <= max_column (xlsx s) ->
                  status_at (xlsx s) col = false /\ timestamp_at (xlsx s) col = false) ->
  update_excel_status index status timestamp s
  = (Ret tt, {| world := w'; xlsx := xlsx s |},
     [EExcel index status timestamp;
      EPrint (if ok then MExcelUpdated status timestamp else MExcelError)]).
Proof.
  intros Hio Hwhy. rewrite (update_excel_status_run index status timestamp s ok w' Hio).
  destruct Hwhy as [-> | Hnone]; [reflexivity|].
  rewrite (write_status_no_columns _ _ _ _ Hnone). by destruct ok.
Qed.

End SinkNoop.

(** ** The further properties on concrete inputs *)

Section MoreInstances.
Import PyStr Eff Spec Obs DeployObs Scripted.

Lemma sink_fills_status_and_timestamp_witness :
  UpdateCategories.cells (UpdateCategories.write_status sheet 0 "ACCEPTED" "04112025-0930")
    !! (0 + 2, 5)
  = Some {| UpdateCategories.value := Some "ACCEPTED";
            UpdateCategories.font := Some ("FFFFFF", true);
            UpdateCategories.fill := Some "00FF00" |}.
Proof.
  apply (proj1 (sink_fills_status_and_timestamp sheet 0 "ACCEPTED" "04112025-0930")).
  vm_compute. reflexivity.
Defined.

Lemma batch_runs_to_completion_witness :
  exists s' l,
    UpdateCategories.run (Some vars_txt) (UpdateCategories.ExcelRows table)
      (answers [UpdateCategories.GetRaised] []) sheet
    = (Ret tt, s', l ++ [UpdateCategories.EPrint UpdateCategories.MCompleted])
    /\ length (requests l) <= 2 * length table
    /\ length (sink_calls l) <= length table
    /\ (forall row col, row < 2 \/ length table + 2 <= row ->
          UpdateCategories.cells (UpdateCategories.xlsx s') !! (row, col)
          = UpdateCategories.cells sheet !! (row, col))
    /\ UpdateCategories.max_column (UpdateCategories.xlsx s')
       = UpdateCategories.max_column sheet
    /\ UpdateCategories.find_columns (UpdateCategories.xlsx s')
       = UpdateCategories.find_columns sheet.
Proof.
  apply (batch_runs_to_completion vars_txt table (answers [UpdateCategories.GetRaised] [])
           sheet).
  vm_compute. reflexivity.
Defined.

Lemma passed_over_table_costs_nothing_witness :
  requests (log (UpdateCategories.run (Some vars_txt)
                   (UpdateCategories.ExcelRows
                      [row_of "SKIP" "vm2" "id2" "c3"; row_of "OK" "vm3" "   " "c1";
                       row_of "ok" "vm4" "id4" " , ";
                       row_cells UpdateCategories.NaN (UpdateCategories.Value "vm5")
                                 (UpdateCategories.Value "id5")
                                 (UpdateCategories.Value "c1")])
                   (answers [] []) sheet)) = []
  /\ sink_calls (log (UpdateCategories.run (Some vars_txt)
                        (UpdateCategories.ExcelRows
                           [row_of "SKIP" "vm2" "id2" "c3"; row_of "OK" "vm3" "   " "c1";
                            row_of "ok" "vm4" "id4" " , ";
                            row_cells UpdateCategories.NaN (UpdateCategories.Value "vm5")
                                      (UpdateCategories.Value "id5")
                                      (UpdateCategories.Value "c1")])
                        (answers [] []) sheet)) = []
  /\ final (UpdateCategories.run (Some vars_txt)
              (UpdateCategories.ExcelRows
                 [row_of "SKIP" "vm2" "id2" "c3"; row_of "OK" "vm3" "   " "c1";
                  row_of "ok" "vm4" "id4" " , ";
                  row_cells UpdateCategories.NaN (UpdateCategories.Value "vm5")
                            (UpdateCategories.Value "id5")
                            (UpdateCategories.Value "c1")])
              (answers [] []) sheet)
    = {| UpdateCategories.world := answers [] []; UpdateCategories.xlsx := sheet |}.
Proof.
  apply (passed_over_table_costs_nothing (Some vars_txt)
           [row_of "SKIP" "vm2" "id2" "c3"; row_of "OK" "vm3" "   " "c1";
            row_of "ok" "vm4" "id4" " , ";
            row_cells UpdateCategories.NaN (UpdateCategories.Value "vm5")
                      (UpdateCategories.Value "id5") (UpdateCategories.Value "c1")]
           (answers [] []) sheet).
  repeat constructor.
Defined.

Lemma start_up_checks_witness :
  UpdateCategories.run
    (Some ["baseUrl=https://10.0.0.1:9440/api"; "username=admin"; "password="])
    (UpdateCategories.ExcelRows table) (answers [] []) sheet
  = (Exit 1, {| UpdateCategories.world := answers [] []; UpdateCategories.xlsx := sheet |},
     [UpdateCategories.EPrint UpdateCategories.MMissingVars]).
Proof.
  apply (proj1 (start_up_checks
                  ["baseUrl=https://10.0.0.1:9440/api"; "username=admin"; "password="]
                  (UpdateCategories.ExcelRows table) (answers [] []) sheet)).
  exists "password". split; [|vm_compute; reflexivity].
  unfold required_keys. apply elem_of_cons; right.
  apply elem_of_cons; right. apply elem_of_cons; left. reflexivity.
Defined.

Lemma write_guarded_by_fresh_token_witness :
  exists hdrs,
    posts (log (UpdateCategories.process_row "https://10.0.0.1:9440/api"
                  {[ "Authorization" := "Basic admin:secret" ]} 0
                  (row_of "OK" "vm1" "id1" "c1, c2")
                  {| UpdateCategories.world :=
                       answers [UpdateCategories.GetReturned (Some "W/abc")] [];
                     UpdateCategories.xlsx := sheet |}))
    = [(url_post "https://10.0.0.1:9440/api" (row_of "OK" "vm1" "id1" "c1, c2"), hdrs,
        association_body (trimmed_segments "c1, c2"))]
    /\ hdrs !! "If-Match" = Some "W/abc"
    /\ hdrs !! "NTNX-Request-Id" = Some "6f1c2a9e-0000-4000-8000-000000000001"
    /\ hdrs !! "Content-Type" = Some "application/json"
    /\ forall key, key <> "If-Match" -> key <> "NTNX-Request-Id" ->
                   key <> "Content-Type" ->
                   hdrs !! key
                   = ({[ "Authorization" := "Basic admin:secret" ]} : gmap string string)
                       !! key.
Proof.
  refine (write_guarded_by_fresh_token "https://10.0.0.1:9440/api"
            {[ "Authorization" := "Basic admin:secret" ]} 0
            (row_of "OK" "vm1" "id1" "c1, c2")
            {| UpdateCategories.world :=
                 answers [UpdateCategories.GetReturned (Some "W/abc")] [];
               UpdateCategories.xlsx := sheet |}
            "6f1c2a9e-0000-4000-8000-000000000001"
            (answers [UpdateCategories.GetReturned (Some "W/abc")] [])
            "W/abc" (answers [] []) eq_refl eq_refl _ eq_refl eq_refl _).
  - vm_compute. discriminate.
  - discriminate.
Defined.

Lemma accepted_exactly_on_202_witness :
  exists status timestamp,
    sink_calls (log (UpdateCategories.process_row "https://10.0.0.1:9440/api" ∅ 0
                       (row_of "OK" "vm1" "id1" "c1")
                       {| UpdateCategories.world :=
                            answers [UpdateCategories.GetReturned (Some "W/abc")]
                                    [UpdateCategories.PostReturned
                                       {| UpdateCategories.status_code := 200;
                                          UpdateCategories.resp_etag := None |}];
                          UpdateCategories.xlsx := sheet |}))
    = [(0, status, timestamp)]
    /\ (status = "ACCEPTED"
        <-> exists resp,
              UpdateCategories.PostReturned
                {| UpdateCategories.status_code := 200;
                   UpdateCategories.resp_etag := None |}
              = UpdateCategories.PostReturned resp
              /\ UpdateCategories.status_code resp = 202%N)
    /\ (status <> "ACCEPTED" -> exists code, status = "FAILED (" +:+ code +:+ ")").
Proof.
  refine (accepted_exactly_on_202 "https://10.0.0.1:9440/api" ∅ 0
            (row_of "OK" "vm1" "id1" "c1")
            {| UpdateCategories.world :=
                 answers [UpdateCategories.GetReturned (Some "W/abc")]
                         [UpdateCategories.PostReturned
                            {| UpdateCategories.status_code := 200;
                               UpdateCategories.resp_etag := None |}];
               UpdateCategories.xlsx := sheet |}
            "6f1c2a9e-0000-4000-8000-000000000001"
            (answers [UpdateCategories.GetReturned (Some "W/abc")]
                     [UpdateCategories.PostReturned
                        {| UpdateCategories.status_code := 200;
                           UpdateCategories.resp_etag := None |}])
            "W/abc"
            (answers [] [UpdateCategories.PostReturned
                           {| UpdateCategories.status_code := 200;
                              UpdateCategories.resp_etag := None |}])
            _ (answers [] []) eq_refl eq_refl _ eq_refl eq_refl _ eq_refl).
  - vm_compute. discriminate.
  - discriminate.
Defined.

Lemma update_loader_assignment_witness :
  UpdateCategories.parse_vars (["password=old"] ++ [" password=s=e=c "]) !! "password"
  = Some "s=e=c".
Proof.
  apply (proj1 (update_loader_assignment ["password=old"] " password=s=e=c "
                  "password" "s=e=c" eq_refl eq_refl)).
Defined.

Lemma deploy_loader_assignment_witness :
  DeployVm.parse_vars (["# lab cluster"] ++ ["  baseUrl = https://10.0.0.1:9440/api  "])
    !! strip "baseUrl "
  = Some (strip " https://10.0.0.1:9440/api").
Proof.
  apply (proj1 (deploy_loader_assignment ["# lab cluster"]
                  "  baseUrl = https://10.0.0.1:9440/api  "
                  "baseUrl " " https://10.0.0.1:9440/api" eq_refl eq_refl eq_refl)).
Defined.

Lemma fatal_diagnostics_exit_1_witness :
  result (DeployVm.run DeployVm.experimental (DeployVm.Parsed (by_name false))
            "Windows-VM-20251104-093000" (Some vars_txt)
            {| reachable := false; images := DeployVm.ApiFailed;
               subnets := DeployVm.ApiFailed; creation := DeployVm.ApiFailed |} [])
  = Exit 1
  /\ result (DeployVm.run DeployVm.experimental DeployVm.UsageError
               "Windows-VM-20251104-093000" (Some vars_txt) cluster ["1"; "1"; "y"])
     = Exit 2.
Proof.
  split.
  - apply (proj1 (proj2 (proj2 (fatal_diagnostics_exit_1 DeployVm.experimental
                           (DeployVm.Parsed (by_name false))
                           "Windows-VM-20251104-093000" (Some vars_txt)
                           {| reachable := false; images := DeployVm.ApiFailed;
                              subnets := DeployVm.ApiFailed;
                              creation := DeployVm.ApiFailed |} [])))
                 (DeployVm.EPrint DeployVm.MApiFailed)).
    + vm_compute. apply elem_of_cons. right. apply elem_of_cons. left. reflexivity.
    + reflexivity.
  - apply (proj1 (proj2 (fatal_diagnostics_exit_1 DeployVm.experimental
                           DeployVm.UsageError "Windows-VM-20251104-093000"
                           (Some vars_txt) cluster ["1"; "1"; "y"]))).
    split; reflexivity.
Defined.

Lemma success_means_created_witness :
  exists body d,
    omap DeployVm.posted
      (log (DeployVm.run DeployVm.experimental (DeployVm.Parsed (by_name false))
              "Windows-VM-20251104-093000" (Some vars_txt) cluster [" Yes "]))
    = [body]
    /\ DeployVm.EPrint (DeployVm.MDeployOk d)
       ∈ log (DeployVm.run DeployVm.experimental (DeployVm.Parsed (by_name false))
                "Windows-VM-20251104-093000" (Some vars_txt) cluster [" Yes "]).
Proof.
  apply (proj1 (success_means_created DeployVm.experimental
                  (DeployVm.Parsed (by_name false))
                  "Windows-VM-20251104-093000" (Some vars_txt) cluster [" Yes "])).
  vm_compute. reflexivity.
Defined.

Lemma no_post_without_confirmation_witness :
  omap DeployVm.posted
    (log (DeployVm.run DeployVm.experimental (DeployVm.Parsed (by_name false))
            "Windows-VM-20251104-093000" (Some vars_txt) cluster ["y"]))
  = [DeployVm.create_vm_payload DeployVm.experimental "Windows-VM-20251104-093000"
       (DeployVm.image_item (image "Windows2019" "img-exact"))
       (DeployVm.network_item (network "Prod-Net" "net-exact"))]
  /\ (DeployVm.has_cli DeployVm.experimental = true ->
      exists cli,
        DeployVm.Parsed (by_name false) = DeployVm.Parsed cli
        /\ DeployVm.dry_run cli = false
        /\ (DeployVm.do_it cli = true
            \/ DeployVm.ALLOW_EXECUTION_WITHOUT_DOIT DeployVm.experimental = true))
  /\ exists line, line ∈ ["y"] /\ confirms line = true.
Proof.
  apply (no_post_without_confirmation DeployVm.experimental
           (DeployVm.Parsed (by_name false))
           "Windows-VM-20251104-093000" (Some vars_txt) cluster ["y"]).
  vm_compute. apply list_elem_of_singleton. reflexivity.
Defined.

Lemma listed_index_selects_entry_witness :
  bind (DeployVm.list_images "https://10.0.0.1:9440/api" ∅) DeployVm.select_from_list
       {| DeployVm.world := cluster; DeployVm.stdin := [" 1 "; "0"] |}
  = (Ret (Some {| DeployVm.name := "Windows2019"; DeployVm.type_ := "DISK_IMAGE";
                  DeployVm.ext_id := "img-exact";
                  DeployVm.data := image "Windows2019" "img-exact" |}),
     {| DeployVm.world := cluster; DeployVm.stdin := ["0"] |},
     [DeployVm.ERequest DeployVm.GET
        ("https://10.0.0.1:9440/api" +:+ "/vmm/v4.1/content/images") ∅ None;
      DeployVm.EInput;
      DeployVm.EPrint
        (DeployVm.MSelected
           (default "Unknown" (DeployVm.img_name (image "Windows2019" "img-exact")))
           (default "Unknown" (DeployVm.img_extId (image "Windows2019" "img-exact"))))]).
Proof.
  apply (proj1 (listed_index_selects_entry "https://10.0.0.1:9440/api" ∅
                  {| DeployVm.world := cluster; DeployVm.stdin := [" 1 "; "0"] |}
                  cluster " 1 " ["0"] 1 eq_refl)
               [image "WINDOWS2019" "img-upper"; image "Windows2019" "img-exact"]
               (image "Windows2019" "img-exact")); reflexivity.
Defined.

Lemma sink_leaves_sheet_alone_witness :
  UpdateCategories.update_excel_status 0 "ACCEPTED" "04112025-0930"
    {| UpdateCategories.world :=
         {| get_answers := []; post_answers := []; workbook_writable := false |};
       UpdateCategories.xlsx := sheet |}
  = (Ret tt,
     {| UpdateCategories.world :=
          {| get_answers := []; post_answers := []; workbook_writable := false |};
        UpdateCategories.xlsx := sheet |},
     [UpdateCategories.EExcel 0 "ACCEPTED" "04112025-0930";
      UpdateCategories.EPrint UpdateCategories.MExcelError]).
Proof.
  apply (sink_leaves_sheet_alone 0 "ACCEPTED" "04112025-0930"
           {| UpdateCategories.world :=
                {| get_answers := []; post_answers := []; workbook_writable := false |};
              UpdateCategories.xlsx := sheet |}
           false
           {| get_answers := []; post_answers := []; workbook_writable := false |}).
  - reflexivity.
  - left. reflexivity.
Defined.

(** The prompt loop on a typed session: a word, an index out of range, then
    a valid index; and a session that quits. *)
Example select_loop_session :
  DeployVm.select_loop
    [DeployVm.image_item (image "a" "id-a"); DeployVm.image_item (image "b" "id-b")]
    ["two"; "7"; "-1"; "+1"; "0"]
  = (Ret (DeployVm.image_item (image "b" "id-b")), ["0"],
     [DeployVm.EInput; DeployVm.EPrint DeployVm.MInvalidInput;
      DeployVm.EInput; DeployVm.EPrint DeployVm.MInvalidIndex;
      DeployVm.EInput; DeployVm.EPrint DeployVm.MInvalidIndex;
      DeployVm.EInput; DeployVm.EPrint (DeployVm.MSelected "b" "id-b")])
  /\ (DeployVm.select_loop [DeployVm.image_item (image "a" "id-a")] [" QUIT "; "0"]).1.1
     = Exit 0.
Proof. split; vm_compute; reflexivity. Qed.

(** [int()] at its digit limit: 4300 zeros are the number 0, 4301 zeros are
    a ValueError, so the prompt calls the answer invalid and reads on. *)
Example select_loop_digit_limit :
  DeployVm.py_int (String.string_of_list_ascii (repeat "0"%char 4300)) = Some 0%Z
  /\ DeployVm.py_int (String.string_of_list_ascii (repeat "0"%char 4301)) = None
  /\ DeployVm.select_loop
       [DeployVm.image_item (image "a" "id-a"); DeployVm.image_item (image "b" "id-b")]
       [String.string_of_list_ascii (repeat "0"%char 4301); "1"]
     = (Ret (DeployVm.image_item (image "b" "id-b")), [],
        [DeployVm.EInput; DeployVm.EPrint DeployVm.MInvalidInput;
         DeployVm.EInput; DeployVm.EPrint (DeployVm.MSelected "b" "id-b")]).
Proof. repeat apply conj; vm_compute; reflexivity. Qed.

(** The command line of the experimental script: [--help] and a rejected
    command line end the run before anything is printed, requested or
    read; the scratch script has no command line to reject. *)
Example command_line_exits :
  DeployVm.run DeployVm.experimental DeployVm.HelpRequested
    "Windows-VM-20251104-093000" (Some vars_txt) cluster ["y"]
  = (Exit 0, {| DeployVm.world := cluster; DeployVm.stdin := ["y"] |}, [])
  /\ DeployVm.run DeployVm.experimental DeployVm.UsageError
       "Windows-VM-20251104-093000" (Some vars_txt) cluster ["y"]
     = (Exit 2, {| DeployVm.world := cluster; DeployVm.stdin := ["y"] |}, [])
  /\ DeployVm.run DeployVm.scratch DeployVm.UsageError
       "Windows-VM-20251104-093000" (Some vars_txt) cluster ["y"]
     = DeployVm.run DeployVm.scratch (DeployVm.Parsed DeployVm.no_args)
         "Windows-VM-20251104-093000" (Some vars_txt) cluster ["y"].
Proof. repeat apply conj; reflexivity. Qed.

End MoreInstances.
